(** * Trunk8: short-link registry, account registry and configuration loader

    A shallow embedding of the core of [app/utils/config_loader.py],
    [app/utils/user_manager.py], [app/links/utils.py], [app/links/models.py]
    and of the link routes of [app/links/routes.py].

    Conventions.
    - A Python [str] is a [string]; one [ascii] stands for one code point, so
      the strings of the model are those over U+0000..U+00FF.
    - A dictionary is a [gmap]; a link's dictionary is the record [link_data]
      with the optional fields the application reads and writes.
    - A TOML file on disk is a modification time and a body; the body is
      [None] when opening or parsing it raises.
    - Code that raises is a computation with an outcome [Ok]/[Raise]; the
      state reached so far is kept in both cases.
    - A time is a number of time units ([Z]); a [datetime] object is naive
      or aware of its offset from UTC.  [datetime.fromisoformat] is a
      parameter whose [None] is Python's [ValueError]; the current time is
      naive, and comparing it with an aware object raises [TypeError],
      which the application does not catch. *)

From Stdlib Require Import ZArith NArith Ascii String Bool Lia.
From stdpp Require Import gmap strings list fin_maps.

Open Scope string_scope.
Open Scope Z_scope.

(** ** Python strings and scalars *)

Module Py.

(** The empty [str]. *)
Definition empty : string := EmptyString.

(** Truth value of a [str]: only the empty one is false. *)
Definition str_truthy (s : string) : bool :=
  match s with EmptyString => false | String _ _ => true end.

(** Truth value of an optional [str] ([None] is false). *)
Definition opt_truthy (o : option string) : bool :=
  match o with Some s => str_truthy s | None => false end.

(** [a or b] on optional strings. *)
Definition or_else (a b : option string) : option string :=
  if opt_truthy a then a else b.

Definition in_range (lo hi : N) (c : ascii) : bool :=
  let n := N_of_ascii c in ((lo <=? n) && (n <=? hi))%N.

(** [str.isalnum] of one character, for the code points U+0000..U+00FF:
    the letters, the decimal digits, and the characters that are numeric
    or digits (superscripts and fractions). *)
Definition isalnum (c : ascii) : bool :=
  in_range 48 57 c || in_range 65 90 c || in_range 97 122 c
  || in_range 170 170 c || in_range 178 179 c || in_range 181 181 c
  || in_range 185 186 c || in_range 188 190 c
  || in_range 192 214 c || in_range 216 246 c || in_range 248 255 c.

(** [str.isspace] of one character, same range. *)
Definition isspace (c : ascii) : bool :=
  in_range 9 13 c || in_range 28 32 c || in_range 133 133 c
  || in_range 160 160 c.

(** [str.lower] of one character, same range. *)
Definition lower_char (c : ascii) : ascii :=
  if in_range 65 90 c || in_range 192 214 c || in_range 216 222 c
  then ascii_of_N (N_of_ascii c + 32) else c.

Fixpoint lower (s : string) : string :=
  match s with
  | EmptyString => EmptyString
  | String c r => String (lower_char c) (lower r)
  end.

Fixpoint all (p : ascii -> bool) (s : string) : bool :=
  match s with
  | EmptyString => true
  | String c r => p c && all p r
  end.

Fixpoint lstrip (s : string) : string :=
  match s with
  | EmptyString => EmptyString
  | String c r => if isspace c then lstrip r else s
  end.

(** Drops the trailing white space: a character is kept when something
    is kept after it or when it is not white space. *)
Fixpoint rstrip (s : string) : string :=
  match s with
  | EmptyString => EmptyString
  | String c r =>
      match rstrip r with
      | EmptyString => if isspace c then EmptyString else String c EmptyString
      | r' => String c r'
      end
  end.

(** [str.strip()]. *)
Definition strip (s : string) : string := rstrip (lstrip s).

(** [x in xs] for a list or a set of strings. *)
Definition mem (x : string) (xs : list string) : bool :=
  existsb (String.eqb x) xs.

End Py.

(** ** [app/links/utils.py]: the short-code policy *)

Module ShortCode.

(** The set [reserved_words] of [validate_short_code]. *)
Definition reserved_words : list string :=
  [ "settings"; "users"; "profile";
    "add"; "links"; "edit_link"; "delete_link"; "delete";
    "auth"; "login"; "logout"; "register"; "switch-user"; "switch-back";
    "admin"; "api"; "static"; "assets";
    "edit"; "new"; "create"; "update"; "remove"; "list"; "index"; "home";
    "dashboard"; "config"; "configuration"; "system"; "health"; "status";
    "favicon.ico"; "robots.txt"; "sitemap.xml" ].

(** [c.isalnum() or c in "-_"]. *)
Definition allowed_char (c : ascii) : bool :=
  Py.isalnum c || Ascii.eqb c "-" || Ascii.eqb c "_".

(** [validate_short_code]: the pair (is_valid, error_message). *)
Definition validate_short_code (short_code : string) : bool * string :=
  if negb (Py.str_truthy short_code) then
    (false, "Short code cannot be empty")
  else if (String.length short_code <? 1)%nat then
    (false, "Short code must be at least 1 character")
  else if (50 <? String.length short_code)%nat then
    (false, "Short code must be 50 characters or less")
  else if negb (Py.all allowed_char short_code) then
    (false,
     "Short code can only contain letters, numbers, hyphens, and underscores")
  else if Py.mem (Py.lower short_code) reserved_words then
    (false, "'" +:+ short_code +:+ "' is a reserved word and cannot be used")
  else (true, Py.empty).

(** The character set of the specification, [A-Za-z0-9_-]. *)
Definition spec_char (c : ascii) : bool :=
  Py.in_range 48 57 c || Py.in_range 65 90 c || Py.in_range 97 122 c
  || Ascii.eqb c "-" || Ascii.eqb c "_".

(** The policy in the words of the specification: 1 to 50 characters,
    all of them in [A-Za-z0-9_-], and not a reserved word. *)
Definition spec_policy (s : string) : Prop :=
  (1 <= String.length s <= 50)%nat
  /\ Py.all spec_char s = true
  /\ s ∉ reserved_words.

(** The policy of the code: 1 to 50 characters, all of them alphanumeric
    in Python's sense or one of [-] and [_], and a lower-cased form that
    is not reserved. *)
Definition code_policy (s : string) : Prop :=
  (1 <= String.length s <= 50)%nat
  /\ (forall c, In c (list_ascii_of_string s) ->
        Py.isalnum c = true \/ c = "-"%char \/ c = "_"%char)
  /\ Py.lower s ∉ reserved_words.

Definition is_ascii (s : string) : bool := Py.all (Py.in_range 0 127) s.

End ShortCode.

(** ** Files, the disk and computations that may raise *)

(** A TOML scalar. *)
Inductive value := VStr (s : string) | VBool (b : bool) | VInt (n : Z).

(** A TOML document of tables of scalars: [config.toml], the table
    [themes] of [themes.toml]. *)
Abbreviation doc := (gmap string (gmap string value)).

(** The dictionary of one link, with the keys the application uses. *)
Record link_data := LinkData {
  type : option string;
  path : option string;
  url : option string;
  expiration_date : option string;
  original_filename : option string;
  file_size : option Z;
  mime_type : option string;
  upload_date : option string }.

(** The table [links] of a [links.toml]: short code to link. *)
Abbreviation links := (gmap string link_data).

(** A file: its modification time and what [toml.load] gives; [None] when
    opening or parsing raises. *)
Record file (A : Type) := File { mtime : Z; body : option A }.
Arguments File {A} _ _.
Arguments mtime {A} _.
Arguments body {A} _.

(** What the code prints. *)
Inductive event :=
| AppReloaded
| UserConfigReloaded (user : option string)
| LinksReloaded (user : option string)
| ErrorLoadingApp
| ErrorLoadingUserConfig
| ErrorLoadingLinks
| ErrorSavingLinks
| DeletedExpiredFile (user filename : string)
| ErrorDeletingExpiredFile (user filename : string)
| RemovedExpiredLink (short_code : string) (user : option string)
| RemovedExpiredLinks (n : nat) (user : option string)
| ErrorSavingExpired (user : option string).

(** The files the loader and the link routes touch.  The per-user files
    [users/<user>/config.toml], [users/<user>/links.toml] and
    [users/<user>/assets/<name>] are keyed by the user (and the name). *)
Record disk := Disk {
  app_config_file : option (file doc);
  themes_config_file : option (file doc);
  user_config_files : gmap string (file doc);
  links_files : gmap string (file links);
  (** an asset that is present, and whether [os.remove] fails on it *)
  asset_files : gmap (string * string) bool;
  (** opening a file for writing (or creating its directory) raises *)
  read_only : bool;
  (** the modification time a write stamps *)
  clock : Z;
  stdout : list event }.

(** The attributes of [ConfigLoader]. *)
Record ConfigLoader := Loader {
  app_config : doc;
  user_config : doc;
  links_config : links;
  themes_config : doc;
  _last_app_config_mod_time : option Z;
  _last_user_config_mod_time : option Z;
  _last_links_config_mod_time : option Z;
  _last_themes_config_mod_time : option Z;
  _current_links_path : option string;
  _current_user_config_path : option string;
  current_user : option string;
  _user_mod_times : gmap string Z }.

Inductive outcome (A : Type) := Ok (a : A) | Raise.
Arguments Ok {A} _.
Arguments Raise {A}.

(** A method or a route on a state [S]: it ends normally or raises, and
    leaves a state in both cases. *)
Definition comp (S A : Type) : Type := S -> outcome A * S.

Definition ret {S A} (a : A) : comp S A := fun w => (Ok a, w).
Definition raise {S A} : comp S A := fun w => (Raise, w).
Definition bind {S A B} (c : comp S A) (k : A -> comp S B) : comp S B :=
  fun w => match c w with
           | (Ok a, w') => k a w'
           | (Raise, w') => (Raise, w')
           end.
Definition gets {S A} (f : S -> A) : comp S A := fun w => (Ok (f w), w).
Definition modify {S} (f : S -> S) : comp S unit := fun w => (Ok tt, f w).
Definition when {S} (b : bool) (c : comp S unit) : comp S unit :=
  if b then c else ret tt.

(** A computation inside [try ... except Exception]: [None] when it
    raised. *)
Definition try {S A} (c : comp S A) : comp S (option A) :=
  fun w => match c w with
           | (Ok a, w') => (Ok (Some a), w')
           | (Raise, w') => (Ok None, w')
           end.

(** A result that is computed without the state: it is returned, or the
    exception is raised, in the state as it is. *)
Definition lift {S A} (o : outcome A) : comp S A := fun w => (o, w).

(** The state of the loader and of the disk it reads and writes. *)
Record world := World { loader : ConfigLoader; fs : disk }.
Abbreviation M := (comp world).

Notation "'let*' x ':=' c 'in' k" := (bind c (fun x => k))
  (at level 10, x name, c at level 100, k at level 200, only parsing).
Notation "c ;; k" := (bind c (fun _ => k))
  (at level 100, k at level 200, right associativity, only parsing).

(** ** [app/utils/config_loader.py] *)

Module Config.

(** Assignments to the attributes of the loader. *)
Definition set_app_config v (c : ConfigLoader) : ConfigLoader :=
  Loader v (user_config c) (links_config c) (themes_config c)
  (_last_app_config_mod_time c) (_last_user_config_mod_time c)
  (_last_links_config_mod_time c) (_last_themes_config_mod_time c)
  (_current_links_path c) (_current_user_config_path c) (current_user c)
  (_user_mod_times c).
Definition set_user_config v (c : ConfigLoader) : ConfigLoader :=
  Loader (app_config c) v (links_config c) (themes_config c)
  (_last_app_config_mod_time c) (_last_user_config_mod_time c)
  (_last_links_config_mod_time c) (_last_themes_config_mod_time c)
  (_current_links_path c) (_current_user_config_path c) (current_user c)
  (_user_mod_times c).
Definition set_links_config v (c : ConfigLoader) : ConfigLoader :=
  Loader (app_config c) (user_config c) v (themes_config c)
  (_last_app_config_mod_time c) (_last_user_config_mod_time c)
  (_last_links_config_mod_time c) (_last_themes_config_mod_time c)
  (_current_links_path c) (_current_user_config_path c) (current_user c)
  (_user_mod_times c).
Definition set_themes_config v (c : ConfigLoader) : ConfigLoader :=
  Loader (app_config c) (user_config c) (links_config c) v
  (_last_app_config_mod_time c) (_last_user_config_mod_time c)
  (_last_links_config_mod_time c) (_last_themes_config_mod_time c)
  (_current_links_path c) (_current_user_config_path c) (current_user c)
  (_user_mod_times c).
Definition set_last_app_config_mod_time v (c : ConfigLoader) : ConfigLoader :=
  Loader (app_config c) (user_config c) (links_config c) (themes_config c) v
  (_last_user_config_mod_time c) (_last_links_config_mod_time c)
  (_last_themes_config_mod_time c) (_current_links_path c)
  (_current_user_config_path c) (current_user c) (_user_mod_times c).
Definition set_last_user_config_mod_time v (c : ConfigLoader) : ConfigLoader :=
  Loader (app_config c) (user_config c) (links_config c) (themes_config c)
  (_last_app_config_mod_time c) v (_last_links_config_mod_time c)
  (_last_themes_config_mod_time c) (_current_links_path c)
  (_current_user_config_path c) (current_user c) (_user_mod_times c).
Definition set_last_links_config_mod_time v (c : ConfigLoader) : ConfigLoader :=
  Loader (app_config c) (user_config c) (links_config c) (themes_config c)
  (_last_app_config_mod_time c) (_last_user_config_mod_time c) v
  (_last_themes_config_mod_time c) (_current_links_path c)
  (_current_user_config_path c) (current_user c) (_user_mod_times c).
Definition set_last_themes_config_mod_time v (c : ConfigLoader)
  : ConfigLoader :=
  Loader (app_config c) (user_config c) (links_config c) (themes_config c)
  (_last_app_config_mod_time c) (_last_user_config_mod_time c)
  (_last_links_config_mod_time c) v (_current_links_path c)
  (_current_user_config_path c) (current_user c) (_user_mod_times c).
Definition set_current_links_path v (c : ConfigLoader) : ConfigLoader :=
  Loader (app_config c) (user_config c) (links_config c) (themes_config c)
  (_last_app_config_mod_time c) (_last_user_config_mod_time c)
  (_last_links_config_mod_time c) (_last_themes_config_mod_time c) v
  (_current_user_config_path c) (current_user c) (_user_mod_times c).
Definition set_current_user_config_path v (c : ConfigLoader) : ConfigLoader :=
  Loader (app_config c) (user_config c) (links_config c) (themes_config c)
  (_last_app_config_mod_time c) (_last_user_config_mod_time c)
  (_last_links_config_mod_time c) (_last_themes_config_mod_time c)
  (_current_links_path c) v (current_user c) (_user_mod_times c).
Definition set_current_user v (c : ConfigLoader) : ConfigLoader :=
  Loader (app_config c) (user_config c) (links_config c) (themes_config c)
  (_last_app_config_mod_time c) (_last_user_config_mod_time c)
  (_last_links_config_mod_time c) (_last_themes_config_mod_time c)
  (_current_links_path c) (_current_user_config_path c) v (_user_mod_times
  c).

(** Updates of the disk. *)
Definition put_app_config_file v (d : disk) : disk :=
  Disk v (themes_config_file d) (user_config_files d) (links_files d)
  (asset_files d) (read_only d) (clock d) (stdout d).
Definition put_themes_config_file v (d : disk) : disk :=
  Disk (app_config_file d) v (user_config_files d) (links_files d)
  (asset_files d) (read_only d) (clock d) (stdout d).
Definition put_user_config_files v (d : disk) : disk :=
  Disk (app_config_file d) (themes_config_file d) v (links_files d)
  (asset_files d) (read_only d) (clock d) (stdout d).
Definition put_links_files v (d : disk) : disk :=
  Disk (app_config_file d) (themes_config_file d) (user_config_files d) v
  (asset_files d) (read_only d) (clock d) (stdout d).
Definition put_asset_files v (d : disk) : disk :=
  Disk (app_config_file d) (themes_config_file d) (user_config_files d)
  (links_files d) v (read_only d) (clock d) (stdout d).
Definition put_stdout v (d : disk) : disk :=
  Disk (app_config_file d) (themes_config_file d) (user_config_files d)
  (links_files d) (asset_files d) (read_only d) (clock d) v.

(** Lifting to the world. *)
Definition on_loader (f : ConfigLoader -> ConfigLoader) : M unit :=
  modify (fun w => World (f (loader w)) (fs w)).
Definition on_disk (f : disk -> disk) : M unit :=
  modify (fun w => World (loader w) (f (fs w))).
Definition print (e : event) : M unit :=
  on_disk (fun d => put_stdout (stdout d ++ [e]) d).

(** [ConfigLoader.__init__]. *)
Definition init : ConfigLoader :=
  Loader ∅ ∅ ∅ ∅ None None None None None None None ∅.

(** [ConfigLoader.set_user_context]. *)
Definition set_user_context (username : option string) : M unit :=
  let* cur := gets (fun w => current_user (loader w)) in
  if bool_decide (cur <> username) then
    on_loader (set_current_user username) ;;
    (* Reset config to force reload for new user *)
    on_loader (set_last_links_config_mod_time None) ;;
    on_loader (set_last_user_config_mod_time None) ;;
    on_loader (set_current_links_path None) ;;
    on_loader (set_current_user_config_path None)
  else ret tt.

(** [username or self.current_user or "admin"]: the user whose file a
    path names. *)
Definition resolve_user (c : ConfigLoader) (username : option string)
  : string :=
  match Py.or_else username (current_user c) with
  | Some u => if Py.str_truthy u then u else "admin"
  | None => "admin"
  end.

(** [get_user_links_file], [get_user_config_file], [get_user_assets_dir]:
    the files [users/<user>/links.toml], [users/<user>/config.toml] and
    the directory [users/<user>/assets], each given by its user. *)
Definition get_user_links_file (username : option string) : M string :=
  gets (fun w => resolve_user (loader w) username).
Definition get_user_config_file (username : option string) : M string :=
  gets (fun w => resolve_user (loader w) username).
Definition get_user_assets_dir (username : option string) : M string :=
  gets (fun w => resolve_user (loader w) username).

(** [open(path, "w")] and [toml.dump], then the new modification time:
    raises on a disk that cannot be written. *)
Definition write {A} (store : file A -> disk -> disk) (content : A) : M Z :=
  let* ro := gets (fun w => read_only (fs w)) in
  if ro then raise
  else
    let* now := gets (fun w => clock (fs w)) in
    on_disk (store (File now (Some content))) ;;
    ret now.

Definition default_config : doc :=
  {[ "app" := {[ "theme" := VStr "cerulean";
                 "markdown_theme" := VStr "cerulean";
                 "max_file_size_mb" := VInt 100 ]};
     "session" := {[ "permanent_lifetime_days" := VInt 30 ]} ]}.

Definition theme (name description : string) : gmap string value :=
  {[ "name" := VStr name; "description" := VStr description ]}.

(** [_get_default_themes]. *)
Definition _get_default_themes : doc :=
  list_to_map
    [ ("brite", theme "Brite" "Clean and bright design");
      ("cerulean", theme "Cerulean" "A calm blue sky");
      ("cosmo", theme "Cosmo" "An ode to Metro");
      ("cyborg", theme "Cyborg" "Jet black and electric blue");
      ("darkly", theme "Darkly" "Flatly in night mode");
      ("flatly", theme "Flatly" "Flat and modern");
      ("journal", theme "Journal" "Crisp like a new sheet of paper");
      ("litera", theme "Litera" "The medium is the message");
      ("lumen", theme "Lumen" "Light and shadow");
      ("lux", theme "Lux" "A touch of class");
      ("materia", theme "Materia" "Material is the metaphor");
      ("minty", theme "Minty" "A fresh feel");
      ("morph", theme "Morph" "A modern take");
      ("pulse", theme "Pulse" "A trace of purple");
      ("quartz", theme "Quartz" "A gem of a theme");
      ("sandstone", theme "Sandstone" "A touch of warmth");
      ("simplex", theme "Simplex" "Mini and minimalist");
      ("sketchy", theme "Sketchy" "A hand-drawn look");
      ("slate", theme "Slate" "Shades of gunmetal gray");
      ("solar", theme "Solar" "A spin on Solarized");
      ("spacelab", theme "Spacelab" "Silvery and sleek");
      ("superhero", theme "Superhero" "The brave and the blue");
      ("united", theme "United" "Ubuntu orange and unique font");
      ("vapor", theme "Vapor" "A subtle theme");
      ("yeti", theme "Yeti" "A friendly foundation");
      ("zephyr", theme "Zephyr" "Breezy and beautiful") ].

(** The empty per-user configuration [{"app": {}}]. *)
Definition empty_user_config : doc := {[ "app" := ∅ ]}.

(** [_load_app_config]. *)
Definition _load_app_config : M unit :=
  let* f := gets (fun w => app_config_file (fs w)) in
  match f with
  | Some f =>
      let* last := gets (fun w => _last_app_config_mod_time (loader w)) in
      if bool_decide (Some (mtime f) <> last) then
        match body f with
        | Some d =>
            on_loader (set_app_config d) ;;
            on_loader (set_last_app_config_mod_time (Some (mtime f))) ;;
            print AppReloaded
        | None => print ErrorLoadingApp
        end
      else ret tt
  | None =>
      let* t := write (fun f => put_app_config_file (Some f)) default_config in
      on_loader (set_app_config default_config) ;;
      on_loader (set_last_app_config_mod_time (Some t))
  end.

(** [_load_themes_config]: only a missing file is handled. *)
Definition _load_themes_config : M unit :=
  let* f := gets (fun w => themes_config_file (fs w)) in
  match f with
  | Some f =>
      let* last := gets (fun w => _last_themes_config_mod_time (loader w)) in
      if bool_decide (Some (mtime f) <> last) then
        match body f with
        | Some d =>
            on_loader (set_themes_config d) ;;
            on_loader (set_last_themes_config_mod_time (Some (mtime f)))
        | None => raise
        end
      else ret tt
  | None =>
      let* t := write (fun f => put_themes_config_file (Some f))
                      _get_default_themes in
      on_loader (set_themes_config _get_default_themes) ;;
      on_loader (set_last_themes_config_mod_time (Some t))
  end.

(** [_load_user_config]. *)
Definition _load_user_config : M unit :=
  let* cur := gets (fun w => current_user (loader w)) in
  if bool_decide (cur = Some "admin") then
    on_loader (set_user_config empty_user_config) ;;
    on_loader (set_last_user_config_mod_time None)
  else
    let* user_config_path := get_user_config_file None in
    let* known := gets (fun w => _current_user_config_path (loader w)) in
    when (bool_decide (known <> Some user_config_path))
      (on_loader (set_current_user_config_path (Some user_config_path)) ;;
       on_loader (set_last_user_config_mod_time None)) ;;
    let* f := gets (fun w => user_config_files (fs w) !! user_config_path) in
    match f with
    | Some f =>
        let* last := gets (fun w => _last_user_config_mod_time (loader w)) in
        if bool_decide (Some (mtime f) <> last) then
          match body f with
          | Some d =>
              on_loader (set_user_config d) ;;
              on_loader (set_last_user_config_mod_time (Some (mtime f))) ;;
              print (UserConfigReloaded cur)
          | None => print ErrorLoadingUserConfig
          end
        else ret tt
    | None =>
        let user := if Py.opt_truthy cur then default Py.empty cur
                    else "admin" in
        if bool_decide (user = "admin") then
          on_loader (set_user_config empty_user_config) ;;
          on_loader (set_last_user_config_mod_time None)
        else
          let* t := write (fun f d => put_user_config_files
                             (<[user_config_path := f]> (user_config_files d)) d)
                          empty_user_config in
          on_loader (set_user_config empty_user_config) ;;
          on_loader (set_last_user_config_mod_time (Some t))
    end.

(** [_load_links_config]. *)
Definition _load_links_config : M unit :=
  let* links_config_path := get_user_links_file None in
  let* known := gets (fun w => _current_links_path (loader w)) in
  when (bool_decide (known <> Some links_config_path))
    (on_loader (set_current_links_path (Some links_config_path)) ;;
     on_loader (set_last_links_config_mod_time None)) ;;
  let* f := gets (fun w => links_files (fs w) !! links_config_path) in
  match f with
  | Some f =>
      let* last := gets (fun w => _last_links_config_mod_time (loader w)) in
      if bool_decide (Some (mtime f) <> last) then
        match body f with
        | Some l =>
            on_loader (set_links_config l) ;;
            on_loader (set_last_links_config_mod_time (Some (mtime f))) ;;
            let* cur := gets (fun w => current_user (loader w)) in
            print (LinksReloaded cur)
        | None => print ErrorLoadingLinks
        end
      else ret tt
  | None =>
      let* t := write (fun f d => put_links_files
                         (<[links_config_path := f]> (links_files d)) d)
                      (∅ : links) in
      on_loader (set_links_config ∅) ;;
      on_loader (set_last_links_config_mod_time (Some t))
  end.

(** [load_all_configs]. *)
Definition load_all_configs : M unit :=
  _load_app_config ;;
  _load_themes_config ;;
  _load_user_config ;;
  _load_links_config.

(** [save_links_config]. *)
Definition save_links_config (username : option string) : M bool :=
  let* links_config_path := get_user_links_file username in
  let* l := gets (fun w => links_config (loader w)) in
  let* written :=
    try (write (fun f d => put_links_files
                  (<[links_config_path := f]> (links_files d)) d) l) in
  match written with
  | Some t =>
      on_loader (set_last_links_config_mod_time (Some t)) ;;
      ret true
  | None => print ErrorSavingLinks ;; ret false
  end.

End Config.

(** ** [app/links/models.py], [app/links/utils.py], [app/links/routes.py] *)

Module Links.
Import Config.

(** A [datetime] object: naive, or aware of its offset from UTC.  In both
    cases [t] is the time it compares by with objects of its kind. *)
Inductive datetime :=
| Naive (t : Z)
| Aware (t : Z).

(** [current_time > exp_date] for the naive [datetime.now()]: comparing a
    naive and an aware object raises [TypeError]. *)
Definition later (now : Z) (exp_date : datetime) : outcome bool :=
  match exp_date with
  | Naive t => Ok (t <? now)
  | Aware _ => Raise
  end.

Section WithClock.

(** [datetime.fromisoformat]: the object a string denotes, [None] for
    [ValueError]. *)
Variable fromisoformat : string -> option datetime.

(** *** The class [Link] *)

Record Link := MkLink {
  short_code : string;
  link_type : option string;
  link_path : option string;
  link_url : option string;
  link_expiration_date : option string }.

(** [Link.__init__]. *)
Definition new_Link (short_code : string) (data : link_data) : Link :=
  MkLink short_code (type data) (path data) (url data) (expiration_date data).

(** [Link.is_expired], at the time [now] of [datetime.now()]: only
    [ValueError] is caught. *)
Definition is_expired (now : Z) (self : Link) : outcome bool :=
  if negb (Py.opt_truthy (link_expiration_date self)) then Ok false
  else match fromisoformat (default Py.empty (link_expiration_date self)) with
       | Some exp_date => later now exp_date
       | None => Ok false
       end.

(** *** The expiration sweep *)

(** The test of the first loop of [check_expired_links], which is also the
    test of [handle_link]: the expiration date is set, parses, and
    [current_time > exp_date].  Only [ValueError] is caught. *)
Definition past_expiry (now : Z) (data : link_data) : outcome bool :=
  match expiration_date data with
  | Some e =>
      if Py.str_truthy e then
        match fromisoformat e with
        | Some exp_date => later now exp_date
        | None => Ok false
        end
      else Ok false
  | None => Ok false
  end.

(** The first loop of [check_expired_links] over [links.items()]: the
    short codes it appends to [expired_links], unless the test of a record
    raises. *)
Fixpoint collect_expired (now : Z) (items : list (string * link_data))
  : outcome (list string) :=
  match items with
  | [] => Ok []
  | (short_code, data) :: r =>
      match past_expiry now data with
      | Ok expired =>
          match collect_expired now r with
          | Ok codes => Ok (if expired then short_code :: codes else codes)
          | Raise => Raise
          end
      | Raise => Raise
      end
  end.

Definition expired_links (now : Z) (l : links) : outcome (list string) :=
  collect_expired now (map_to_list l).

(** [link_data.get("type") in ["file", "markdown", "html"]]. *)
Definition has_asset (data : link_data) : bool :=
  match type data with
  | Some t => Py.mem t ["file"; "markdown"; "html"]
  | None => false
  end.

Fixpoint for_each {A} (xs : list A) (f : A -> M unit) : M unit :=
  match xs with
  | [] => ret tt
  | x :: r => f x ;; for_each r f
  end.

(** [os.remove(filepath)] inside [try ... except OSError], after
    [os.path.exists(filepath)]. *)
Definition remove_asset (user filename : string) : M unit :=
  let* a := gets (fun w => asset_files (fs w) !! (user, filename)) in
  match a with
  | Some false =>
      on_disk (fun d =>
        put_asset_files (delete (user, filename) (asset_files d)) d) ;;
      print (DeletedExpiredFile user filename)
  | Some true => print (ErrorDeletingExpiredFile user filename)
  | None => ret tt
  end.

(** The body of the second loop of [check_expired_links]. *)
Definition remove_expired (code : string) : M unit :=
  let* l := gets (fun w => links_config (loader w)) in
  match l !! code with
  | None => raise
  | Some data =>
      when (has_asset data)
        (match path data with
         | Some filename =>
             when (Py.str_truthy filename)
               (let* cur := gets (fun w => current_user (loader w)) in
                let* asset_folder := get_user_assets_dir cur in
                remove_asset asset_folder filename)
         | None => ret tt
         end) ;;
      let* l := gets (fun w => links_config (loader w)) in
      on_loader (set_links_config (delete code l)) ;;
      let* cur := gets (fun w => current_user (loader w)) in
      print (RemovedExpiredLink code cur)
  end.

(** [check_expired_links(config_loader)] at the time [now]. *)
Definition check_expired_links (now : Z) : M unit :=
  let* cur := gets (fun w => current_user (loader w)) in
  if negb (Py.opt_truthy cur) then ret tt
  else
    let* l := gets (fun w => links_config (loader w)) in
    let* expired := lift (expired_links now l) in
    for_each expired remove_expired ;;
    match expired with
    | [] => ret tt
    | _ :: _ =>
        let* saved := save_links_config cur in
        if saved then print (RemovedExpiredLinks (length expired) cur)
        else print (ErrorSavingExpired cur)
    end.

(** Sweeps at the times [nows], one request after the other: a sweep that
    raises ends its request, and the next request sweeps again. *)
Fixpoint sweeps (nows : list Z) : M unit :=
  match nows with
  | [] => ret tt
  | now :: r => try (check_expired_links now) ;; sweeps r
  end.

(** [listRecords]: the links of the current user the loader holds. *)
Definition list_records (w : world) : links := links_config (loader w).

(** *** Looking a short code up in every user's file *)

(** What [toml.load] of the links file of [username] gives, and [None]
    when the file is missing or reading it raises. *)
Definition user_links (w : world) (username : string) : option links :=
  match links_files (fs w) !! resolve_user (loader w) (Some username) with
  | Some f => body f
  | None => None
  end.

(** [short_code in user_links.get("links", {})], false when the file
    cannot be read. *)
Definition stored (w : world) (code username : string) : bool :=
  match user_links w username with
  | Some l => bool_decide (is_Some (l !! code))
  | None => false
  end.

(** The loop over [user_manager.list_users()] that sets [link_exists]. *)
Definition link_exists (users : list string) (code : string) : M bool :=
  gets (fun w => existsb (stored w code) users).

(** The same loop in [handle_link], which keeps the link and its owner. *)
Fixpoint find_link (w : world) (users : list string) (code : string)
  : option (link_data * string) :=
  match users with
  | [] => None
  | username :: r =>
      match user_links w username with
      | Some l =>
          match l !! code with
          | Some data => Some (data, username)
          | None => find_link w r code
          end
      | None => find_link w r code
      end
  end.

(** Truth value of a link's dictionary: false when it has no key. *)
Definition dict_truthy (d : link_data) : bool :=
  match d with
  | LinkData None None None None None None None None => false
  | _ => true
  end.

Inductive response :=
| LinkNotFound
| LinkExpired
| SendFile (owner filename : string)
| Redirect (target : string)
| RenderMarkdown (owner filename : string)
| RenderHtml (owner filename : string)
| FlashIndex (message : string)
| FlashAddForm (message : string)
| LinkCreated (code : string)
| NoUserContext
| AddForm.

Definition asset_exists (owner filename : string) : M bool :=
  gets (fun w =>
    bool_decide (is_Some (asset_files (fs w) !! (owner, filename)))).

(** [handle_link(short_code)] for the list [users] of
    [user_manager.list_users()], the logged-in [viewer] and the time
    [now].  [LinkNotFound] and [LinkExpired] both render
    [link_not_found.html]; they differ in what is logged. *)
Definition handle_link (users : list string) (viewer : option string)
    (now : Z) (code : string) : M response :=
  let* found := gets (fun w => find_link w users code) in
  match found with
  | None => ret LinkNotFound
  | Some (data, owner_username) =>
      if negb (dict_truthy data) then ret LinkNotFound
      else
        let* expired := lift (past_expiry now data) in
        if expired then ret LinkExpired
        else
        let with_asset (k : string -> M response) (missing : string)
          : M response :=
          match path data with
          | Some filename =>
              if Py.str_truthy filename && Py.str_truthy owner_username then
                let* asset_folder := get_user_assets_dir (Some owner_username) in
                let* present := asset_exists asset_folder filename in
                if present then k filename else ret (FlashIndex missing)
              else ret (FlashIndex missing)
          | None => ret (FlashIndex missing)
          end in
        let link_type := type data in
        if bool_decide (link_type = Some "file") then
          with_asset (fun filename => ret (SendFile owner_username filename))
            ("File not found for link '" +:+ code +:+ "'.")
        else if bool_decide (link_type = Some "redirect") then
          if Py.opt_truthy (url data)
          then ret (Redirect (default Py.empty (url data)))
          else ret (FlashIndex ("Redirect URL not specified for link '"
                                +:+ code +:+ "'."))
        else if bool_decide (link_type = Some "markdown") then
          with_asset
            (fun filename =>
               when (Py.opt_truthy viewer)
                 (set_user_context viewer ;; load_all_configs) ;;
               ret (RenderMarkdown owner_username filename))
            ("Markdown file not found for link '" +:+ code +:+ "'.")
        else if bool_decide (link_type = Some "html") then
          with_asset (fun filename => ret (RenderHtml owner_username filename))
            ("HTML file not found for link '" +:+ code +:+ "'.")
        else ret (FlashIndex ("Unknown link type for '" +:+ code +:+ "'."))
  end.

End WithClock.

(** A computation that never answers [r]. *)
Definition never (r : response) (c : M response) : Prop :=
  forall w, (c w).1 <> Ok r.

(** *** Creating a link *)

(** Content received with the form: an uploaded file or a text, under the
    name [<uuid4>.<ext>] generated for it. *)
Record upload := Upload {
  up_name : string;
  up_original_filename : string;
  up_file_size : Z;
  up_mime_type : string;
  up_date : string;
  (** the uploaded file has the extension [html] or [htm] *)
  up_is_html : bool }.

(** The fields of the POST request of [add_link].  [f_content] is the
    file or text for the link type, [None] when there is none or
    [secure_file_upload] refuses it. *)
Record form := Form {
  f_short_code : string;
  f_link_type : string;
  f_enable_expiration : option string;
  f_expiration_date : option string;
  f_input_type : string;
  f_url : option string;
  f_content : option upload }.

(** Writing the content under its generated name in the user's assets
    directory. *)
Definition store_asset (user : string) (u : upload) : M unit :=
  let* ro := gets (fun w => read_only (fs w)) in
  if ro then raise
  else on_disk (fun d =>
         put_asset_files (<[(user, up_name u) := false]> (asset_files d)) d).

Definition with_path (u : upload) (original : string) (sized : bool)
    (data : link_data) : link_data :=
  LinkData (type data) (Some (up_name u)) (url data) (expiration_date data)
           (Some original)
           (if sized then Some (up_file_size u) else file_size data)
           (if sized then Some (up_mime_type u) else mime_type data)
           (Some (up_date u)).

Definition with_type (t : string) (data : link_data) : link_data :=
  LinkData (Some t) (path data) (url data) (expiration_date data)
           (original_filename data) (file_size data) (mime_type data)
           (upload_date data).

Definition with_url (u : string) (data : link_data) : link_data :=
  LinkData (type data) (path data) (Some u) (expiration_date data)
           (original_filename data) (file_size data) (mime_type data)
           (upload_date data).

(** "Handle different link types": the link to store, or the message
    that is flashed. *)
Definition link_of_form (current_user code : string) (f : form)
    (data : link_data) : M (link_data + string) :=
  let* asset_folder := get_user_assets_dir (Some current_user) in
  let link_type := Py.strip (f_link_type f) in
  if String.eqb link_type "file" then
    match f_content f with
    | Some u =>
        store_asset asset_folder u ;;
        ret (inl (with_path u (up_original_filename u) true data))
    | None => ret (inr "No file uploaded for file link.")
    end
  else if String.eqb link_type "markdown" then
    if String.eqb (f_input_type f) "file" then
      match f_content f with
      | Some u =>
          let* saved := try (store_asset asset_folder u) in
          match saved with
          | Some _ =>
              let data := if up_is_html u then with_type "html" data else data in
              ret (inl (with_path u (up_original_filename u) false data))
          | None => ret (inr "Markdown file upload error")
          end
      | None => ret (inr "No markdown file uploaded.")
      end
    else
      match f_content f with
      | Some u =>
          store_asset asset_folder u ;;
          ret (inl (with_path u (code +:+ ".md") false data))
      | None => ret (inr "No markdown content provided.")
      end
  else if String.eqb link_type "html" then
    if String.eqb (f_input_type f) "file" then
      match f_content f with
      | Some u =>
          let* saved := try (store_asset asset_folder u) in
          match saved with
          | Some _ => ret (inl (with_path u (up_original_filename u) false data))
          | None => ret (inr "HTML file upload error")
          end
      | None => ret (inr "No HTML file uploaded.")
      end
    else
      match f_content f with
      | Some u =>
          store_asset asset_folder u ;;
          ret (inl (with_path u (code +:+ ".html") false data))
      | None => ret (inr "No HTML content provided.")
      end
  else if String.eqb link_type "redirect" then
    if Py.opt_truthy (f_url f)
    then ret (inl (with_url (default Py.empty (f_url f)) data))
    else ret (inr "URL is required for redirect link.")
  else ret (inl data).

(** The loop [while True] that generates a short code: [tokens i] is the
    result of the [i]-th call of [secrets.token_urlsafe(6)], and the loop
    is run for at most [fuel] regenerations.  The result is the code and
    the number of regenerations, [None] when the loop has not ended. *)
Fixpoint generate (users : list string) (tokens : nat -> string)
    (fuel : nat) (i : nat) : M (option (string * nat)) :=
  let* taken := link_exists users (tokens i) in
  if negb taken then ret (Some (tokens i, i))
  else match fuel with
       | O => ret None
       | S fuel' => generate users tokens fuel' (S i)
       end.

(** The POST branch of [add_link] from the validation on. *)
Definition create (users : list string) (current_user : string) (f : form)
    (code : string) : M response :=
  let link_type := Py.strip (f_link_type f) in
  if negb (Py.str_truthy link_type) then
    ret (FlashAddForm "Link type is required.")
  else
    let (is_valid, error_message) := ShortCode.validate_short_code code in
    if negb is_valid then ret (FlashAddForm error_message)
    else
      (* Check if short code already exists globally *)
      let* taken := link_exists users code in
      if taken then
        ret (FlashAddForm ("Short code '" +:+ code +:+ "' already exists."))
      else
        let data := LinkData (Some link_type) None None None None None None None in
        let data :=
          if bool_decide (f_enable_expiration f = Some "on")
             && Py.opt_truthy (f_expiration_date f)
          then LinkData (type data) None None (f_expiration_date f)
                        None None None None
          else data in
        let* new_link_data := link_of_form current_user code f data in
        match new_link_data with
        | inr message => ret (FlashAddForm message)
        | inl new_link_data =>
            let* l := gets (fun w => links_config (loader w)) in
            on_loader (set_links_config (<[code := new_link_data]> l)) ;;
            let* saved := save_links_config None in
            if saved then ret (LinkCreated code)
            else ret (FlashAddForm "Error saving link.")
        end.

(** [add_link()] for the logged-in user [current_user] of
    [get_current_user()], the list [users] of [user_manager.list_users()]
    and the POST form, if any.  [None] when the generation loop has not
    ended within [fuel] regenerations. *)
Definition add_link (users : list string) (tokens : nat -> string)
    (fuel : nat) (current_user : option string) (post : option form)
    : M (option response) :=
  if negb (Py.opt_truthy current_user) then ret (Some NoUserContext)
  else
    let user := default Py.empty current_user in
    set_user_context current_user ;;
    load_all_configs ;;
    match post with
    | None => ret (Some AddForm)
    | Some f =>
        let short_code := Py.strip (f_short_code f) in
        if negb (Py.str_truthy short_code) then
          (* Auto-generate short code if not provided *)
          let* generated := generate users tokens fuel 0 in
          match generated with
          | None => ret None
          | Some (short_code, _) =>
              let* r := create users user f short_code in ret (Some r)
          end
        else
          let* r := create users user f short_code in ret (Some r)
    end.

(** *** [Link.to_dict] *)

(** A field goes to the dictionary when it is set and not empty. *)
Definition kept (field : option string) : option string :=
  if Py.opt_truthy field then field else None.

(** [Link.to_dict]: the type always, the path, the URL and the expiration
    date when they are set; nothing else. *)
Definition to_dict (self : Link) : link_data :=
  LinkData (link_type self) (kept (link_path self)) (kept (link_url self))
           (kept (link_expiration_date self)) None None None None.

(** *** Deleting a link *)

Inductive delete_response :=
| DeleteNoUserContext
| DeleteNotFound
| DeleteForbidden
| Deleted
| DeleteSaveError
| DeleteNotInUserData.

(** [os.remove(file_path)] inside [try ... except OSError], after
    [os.path.exists(file_path)], in [delete_link]. *)
Definition remove_file (user filename : string) : M unit :=
  let* a := gets (fun w => asset_files (fs w) !! (user, filename)) in
  match a with
  | Some false =>
      on_disk (fun d =>
        put_asset_files (delete (user, filename) (asset_files d)) d)
  | _ => ret tt
  end.

(** [delete_link(short_code)] for the list [users] of
    [user_manager.list_users()], the user [current_user] of
    [get_current_user()] and the result [admin] of [is_admin()]. *)
Definition delete_link (users : list string) (current_user : option string)
    (admin : bool) (short_code : string) : M delete_response :=
  if negb (Py.opt_truthy current_user) then ret DeleteNoUserContext
  else
    let* found := gets (fun w => find_link w users short_code) in
    match found with
    | None => ret DeleteNotFound
    | Some (data, owner_username) =>
        if negb (dict_truthy data) then ret DeleteNotFound
        else if negb admin
                && bool_decide (Some owner_username <> current_user)
        then ret DeleteForbidden
        else
          (* Set context to the link owner for deletion *)
          set_user_context (Some owner_username) ;;
          load_all_configs ;;
          when (has_asset data && Py.opt_truthy (path data))
            (let* asset_folder := get_user_assets_dir (Some owner_username) in
             remove_file asset_folder (default Py.empty (path data))) ;;
          let* l := gets (fun w => links_config (loader w)) in
          if bool_decide (is_Some (l !! short_code)) then
            on_loader (set_links_config (delete short_code l)) ;;
            let* saved := save_links_config None in
            if saved then ret Deleted else ret DeleteSaveError
          else ret DeleteNotInUserData
    end.

(** What the loads leave alone: the user context, the assets, the write
    permission, the clock, and the links files of the other users. *)
Definition load_frame (w w' : world) : Prop :=
  current_user (loader w') = current_user (loader w)
  /\ asset_files (fs w') = asset_files (fs w)
  /\ read_only (fs w') = read_only (fs w)
  /\ clock (fs w') = clock (fs w)
  /\ forall p, p <> resolve_user (loader w) None ->
       links_files (fs w') !! p = links_files (fs w) !! p.


(** Nothing stored is lost or changed: the assets are as before, and
    every links file that was there is there with the same content. *)
Definition keeps_files (w w' : world) : Prop :=
  asset_files (fs w') = asset_files (fs w)
  /\ forall p f, links_files (fs w) !! p = Some f ->
                 links_files (fs w') !! p = Some f.

(** A computation that keeps the files, whatever the state and whether it
    ends normally or raises. *)
Definition harmless {A} (c : M A) : Prop :=
  forall w, keeps_files w (snd (c w)).

(** No short code is held by the links files of two of the [tenants]. *)
Definition unique_codes (tenants : list string) (w : world) : Prop :=
  forall (v1 v2 code : string),
    v1 ∈ tenants -> v2 ∈ tenants ->
    stored w code v1 = true -> stored w code v2 = true ->
    Config.resolve_user (loader w) (Some v1)
    = Config.resolve_user (loader w) (Some v2).

End Links.

(** ** [app/utils/user_manager.py] *)

Module Users.

(** The dictionary of one account and the table [users]. *)
Abbreviation user_data := (gmap string value).
Abbreviation users := (gmap string user_data).

(** Truth value of a TOML scalar. *)
Definition truthy (v : value) : bool :=
  match v with
  | VStr s => Py.str_truthy s
  | VBool b => b
  | VInt n => negb (n =? 0)
  end.

(** [v == s] for a string [s]. *)
Definition eq_str (v : value) (s : string) : bool :=
  match v with VStr t => String.eqb t s | _ => false end.

(** The directory [users/<username>]: its [links.toml], whether it has a
    [config.toml], the files under [assets] with their sizes ([None] when
    [os.path.getsize] raises), and whether [shutil.rmtree] is refused. *)
Record area := Area {
  area_links : option (file links);
  area_config : bool;
  area_assets : list (option Z);
  area_locked : bool }.

Record stats := Stats {
  links_deleted : nat;
  files_deleted : nat;
  directories_deleted : nat;
  total_size_freed : Z }.

(** The attributes of [UserManager]; [users_config] is the table
    [users] of the dictionary of that name. *)
Record UserManager := Manager {
  users_config : users;
  _last_mod_time : option Z }.

(** The manager with what it reads and writes: the users file, the
    directories of the users, and the environment variable
    [TRUNK8_ADMIN_PASSWORD]. *)
Record state := State {
  manager : UserManager;
  users_file : option (file users);
  areas : gmap string area;
  TRUNK8_ADMIN_PASSWORD : option string;
  cannot_write : bool;
  time : Z }.

Definition put_manager v (s : state) : state :=
  State v (users_file s) (areas s) (TRUNK8_ADMIN_PASSWORD s) (cannot_write
  s) (time s).
Definition put_users_file v (s : state) : state :=
  State (manager s) v (areas s) (TRUNK8_ADMIN_PASSWORD s) (cannot_write s)
  (time s).
Definition put_areas v (s : state) : state :=
  State (manager s) (users_file s) v (TRUNK8_ADMIN_PASSWORD s) (cannot_write
  s) (time s).

Definition set_users_config (u : users) : comp state unit :=
  modify (fun s => put_manager (Manager u (_last_mod_time (manager s))) s).
Definition set_last_mod_time (t : option Z) : comp state unit :=
  modify (fun s => put_manager (Manager (users_config (manager s)) t) s).

Section WithHash.

(** [hashlib.sha256(password.encode()).hexdigest()]. *)
Variable _hash_password : string -> string.
(** [datetime.isoformat()]. *)
Variable isoformat : Z -> string.

(** [_create_user_directory]. *)
Definition _create_user_directory (username : string) : comp state unit :=
  let* ro := gets cannot_write in
  if ro then raise
  else
    let* now := gets time in
    modify (fun s =>
      let a := default (Area None false [] false) (areas s !! username) in
      let l := match area_links a with
               | Some f => Some f
               | None => Some (File now (Some ∅))
               end in
      let c := if bool_decide (username <> "admin") then true
               else area_config a in
      put_areas (<[username := Area l c (area_assets a) (area_locked a)]>
                   (areas s)) s).

(** [save_users_config]. *)
Definition save_users_config : comp state bool :=
  let* ro := gets cannot_write in
  if ro then ret false
  else
    let* now := gets time in
    let* u := gets (fun s => users_config (manager s)) in
    modify (put_users_file (Some (File now (Some u)))) ;;
    set_last_mod_time (Some now) ;;
    ret true.

(** [_create_default_users_file]. *)
Definition _create_default_users_file : comp state unit :=
  let* now := gets time in
  let default_config : users :=
    {[ "admin" := {[ "is_admin" := VBool true;
                     "display_name" := VStr "Administrator";
                     "created_at" := VStr (isoformat now) ]} ]} in
  let* ro := gets cannot_write in
  if ro then raise
  else
    modify (put_users_file (Some (File now (Some default_config)))) ;;
    set_users_config default_config ;;
    set_last_mod_time (Some now) ;;
    _create_user_directory "admin".

(** [_load_users_config]. *)
Definition _load_users_config : comp state unit :=
  let* f := gets users_file in
  match f with
  | Some f =>
      let* last := gets (fun s => _last_mod_time (manager s)) in
      if bool_decide (Some (mtime f) <> last) then
        match body f with
        | Some u => set_users_config u ;; set_last_mod_time (Some (mtime f))
        | None => set_users_config ∅
        end
      else ret tt
  | None => _create_default_users_file
  end.

(** [get_user]. *)
Definition get_user (username : string) : comp state (option user_data) :=
  _load_users_config ;;
  gets (fun s => users_config (manager s) !! username).

(** [list_users]. *)
Definition list_users : comp state (list string) :=
  _load_users_config ;;
  gets (fun s => (map_to_list (users_config (manager s))).*1).

(** Truth value of an account's dictionary: false when it is empty. *)
Definition dict_truthy (d : user_data) : bool :=
  negb (bool_decide (d = ∅)).

(** [is_admin]: the truth value of what the method returns. *)
Definition is_admin (username : string) : comp state bool :=
  let* user_data := get_user username in
  match user_data with
  | Some d =>
      if dict_truthy d then
        ret (match d !! "is_admin" with Some v => truthy v | None => false end)
      else ret false
  | None => ret false
  end.

(** The privilege test of [delete_user], on the table of accounts. *)
Definition privileged (u : users) (name : string) : bool :=
  match u !! name with
  | Some d =>
      dict_truthy d
      && match d !! "is_admin" with Some v => truthy v | None => false end
  | None => false
  end.

(** [authenticate_user]. *)
Definition authenticate_user (username password : string)
  : comp state (option user_data) :=
  _load_users_config ;;
  let* user_data := gets (fun s => users_config (manager s) !! username) in
  match user_data with
  | Some d =>
      if dict_truthy d then
        if String.eqb username "admin" then
          (* Special handling for admin user - never use stored hash *)
          let* env := gets TRUNK8_ADMIN_PASSWORD in
          let admin_password := default "admin" env in
          if String.eqb password admin_password then ret (Some d)
          else ret None
        else
          match d !! "password_hash" with
          | Some stored_hash =>
              if negb (truthy stored_hash) then ret None
              else if eq_str stored_hash password then
                let d' := <["password_hash" := VStr (_hash_password password)]> d in
                let* u := gets (fun s => users_config (manager s)) in
                set_users_config (<[username := d']> u) ;;
                save_users_config ;;
                ret (Some d')
              else if eq_str stored_hash (_hash_password password) then
                ret (Some d)
              else ret None
          | None => ret None
          end
      else ret None
  | None => ret None
  end.

(** [create_user]. *)
Definition create_user (username password display_name : string)
    (admin : bool) : comp state bool :=
  _load_users_config ;;
  let* u := gets (fun s => users_config (manager s)) in
  if bool_decide (is_Some (u !! username)) then ret false
  else
    let* now := gets time in
    let d : user_data :=
      {[ "password_hash" := VStr (_hash_password password);
         "is_admin" := VBool admin;
         "display_name" := VStr display_name;
         "created_at" := VStr (isoformat now) ]} in
    set_users_config (<[username := d]> u) ;;
    let* saved := save_users_config in
    if saved then _create_user_directory username ;; ret true
    else ret false.

(** The statistics [_cleanup_user_data] gathers before it removes the
    directory. *)
Definition count_area (a : area) : stats :=
  let n := match area_links a with
           | Some f => match body f with Some l => size l | None => O end
           | None => O
           end in
  let sized := omap id (area_assets a) in
  Stats n (length sized) 0 (foldr Z.add 0 sized).

(** [_cleanup_user_data]: whether it succeeded, and the statistics. *)
Definition _cleanup_user_data (username : string)
  : comp state (bool * stats) :=
  let* a := gets (fun s => areas s !! username) in
  match a with
  | None => ret (true, Stats 0 0 0 0)
  | Some a =>
      let st := count_area a in
      if area_locked a then ret (false, st)
      else
        modify (fun s => put_areas (delete username (areas s)) s) ;;
        ret (true, Stats (links_deleted st) (files_deleted st) 1
                         (total_size_freed st))
  end.

(** [delete_user]. *)
Definition delete_user (username requesting_user : string)
  : comp state bool :=
  let* privileged := is_admin requesting_user in
  if negb privileged then ret false
  else if String.eqb username "admin" then ret false
  else
    _load_users_config ;;
    let* u := gets (fun s => users_config (manager s)) in
    if negb (bool_decide (is_Some (u !! username))) then ret false
    else
      (* First, clean up all user data (links, assets, files) *)
      _cleanup_user_data username ;;
      (* Continue with user deletion even if cleanup had issues *)
      let* u := gets (fun s => users_config (manager s)) in
      set_users_config (delete username u) ;;
      save_users_config.

(** The manager has read the users file as it is now. *)
Definition settled (s : state) : Prop :=
  exists f, users_file s = Some f /\ _last_mod_time (manager s) = Some (mtime f).

(** The record [create_user] stores. *)
Definition new_account (password display_name : string) (admin : bool)
    (now : Z) : user_data :=
  {[ "password_hash" := VStr (_hash_password password);
     "is_admin" := VBool admin;
     "display_name" := VStr display_name;
     "created_at" := VStr (isoformat now) ]}.

(** [change_password]. *)
Definition change_password (username new_password : string)
  : comp state bool :=
  _load_users_config ;;
  let* u := gets (fun s => users_config (manager s)) in
  match u !! username with
  | None => ret false
  | Some d =>
      set_users_config
        (<[username := <["password_hash" := VStr (_hash_password new_password)]> d]> u) ;;
      save_users_config
  end.

(** The result of [get_user_deletion_preview]; a directory is given by the
    name of its user. *)
Record preview := Preview {
  links_count : nat;
  files_count : nat;
  total_size : Z;
  directories : list string }.

(** The walk over the assets in [get_user_deletion_preview]: a file whose
    size cannot be read is skipped. *)
Fixpoint walk_assets (files : list (option Z)) (count : nat) (size : Z)
  : nat * Z :=
  match files with
  | [] => (count, size)
  | Some n :: r => walk_assets r (S count) (size + n)
  | None :: r => walk_assets r count size
  end.

(** [get_user_deletion_preview]. *)
Definition get_user_deletion_preview (username : string)
  : comp state (option preview) :=
  let* user := get_user username in
  if negb (match user with Some d => dict_truthy d | None => false end)
  then ret None
  else
    let* a := gets (fun s => areas s !! username) in
    match a with
    | None => ret (Some (Preview 0 0 0 []))
    | Some a =>
        let n := match area_links a with
                 | Some f => match body f with Some l => size l | None => O end
                 | None => O
                 end in
        let (count, bytes) := walk_assets (area_assets a) 0 0 in
        ret (Some (Preview n count bytes [username]))
    end.

End WithHash.

End Users.

(** ** [app/auth/routes.py]: logging in and registering *)

Module Auth.

(** The keys of the session the routes read and write. *)
Record session := Session {
  authenticated : bool;
  username : option string;
  is_admin : option value;
  display_name : option value;
  permanent : bool;
  active_user : option string;
  active_display_name : option value }.

(** The session without any key. *)
Definition anonymous : session :=
  Session false None None None false None None.

Inductive login_response :=
| LoggedIn
| LoginFailed (message : string).

Section WithHash.

Variable _hash_password : string -> string.
Variable isoformat : Z -> string.
(** [str.title]. *)
Variable title : string -> string.

(** What a successful login writes in the session. *)
Definition log_in (name : string) (admin display : value)
    (remember : option string) (s : session) : session :=
  Session true (Some name) (Some admin) (Some display)
          (Py.opt_truthy remember) (active_user s) (active_display_name s).

(** The POST branch of [login]: the response and the session. *)
Definition login (form_username form_password : string)
    (remember : option string) (s : session)
  : comp Users.state (login_response * session) :=
  let username := Py.strip form_username in
  let password := Py.strip form_password in
  if negb (Py.str_truthy password) then
    ret (LoginFailed "Password is required.", s)
  else if Py.str_truthy username then
    (* Multi-user authentication *)
    let* user_data :=
      Users.authenticate_user _hash_password isoformat username password in
    match user_data with
    | Some d =>
        if Users.dict_truthy d then
          ret (LoggedIn,
               log_in username
                 (default (VBool false) (d !! "is_admin"))
                 (default (VStr username) (d !! "display_name"))
                 remember s)
        else ret (LoginFailed "Invalid username or password.", s)
    | None => ret (LoginFailed "Invalid username or password.", s)
    end
  else
    (* Administrator single-password mode *)
    let* env := gets Users.TRUNK8_ADMIN_PASSWORD in
    if String.eqb password (default "admin" env) then
      ret (LoggedIn,
           log_in "admin" (VBool true) (VStr "Administrator") remember s)
    else ret (LoginFailed "Invalid password.", s).

(** [get_current_user] of [app/auth/decorators.py]. *)
Definition get_current_user (s : session) : option string :=
  if negb (authenticated s) then None
  else if Py.opt_truthy (active_user s)
          && match is_admin s with
             | Some v => Users.truthy v
             | None => false
             end
       then active_user s
       else username s.

(** [s.replace(c, "")] for a character [c]. *)
Fixpoint remove (c : ascii) (s : string) : string :=
  match s with
  | EmptyString => EmptyString
  | String x r => if Ascii.eqb x c then remove c r else String x (remove c r)
  end.

(** [str.isalnum]: not empty and every character alphanumeric. *)
Definition isalnum (s : string) : bool :=
  Py.str_truthy s && Py.all Py.isalnum s.

Inductive register_response :=
| AdminRequired
| RegisterFailed (message : string)
| Registered (name : string).

(** The POST branch of [register]. *)
Definition register (s : session)
    (form_username form_password form_confirm form_display_name : string)
    (form_is_admin : option string)
  : comp Users.state register_response :=
  if negb (authenticated s)
     || negb (match is_admin s with
              | Some v => Users.truthy v
              | None => false
              end)
  then ret AdminRequired
  else
    let username := Py.strip form_username in
    let password := Py.strip form_password in
    let confirm_password := Py.strip form_confirm in
    let display_name := Py.strip form_display_name in
    let admin := bool_decide (form_is_admin = Some "on") in
    if negb (Py.str_truthy username) then
      ret (RegisterFailed "Username is required.")
    else if negb (Py.str_truthy password) then
      ret (RegisterFailed "Password is required.")
    else if negb (String.eqb password confirm_password) then
      ret (RegisterFailed "Passwords do not match.")
    else if (String.length username <? 3)%nat then
      ret (RegisterFailed "Username must be at least 3 characters.")
    else if (String.length password <? 4)%nat then
      ret (RegisterFailed "Password must be at least 4 characters.")
    else if negb (isalnum (remove "-" (remove "_" username))) then
      ret (RegisterFailed
             "Username can only contain letters, numbers, hyphens, and underscores.")
    else
      let display_name :=
        if negb (Py.str_truthy display_name) then title username
        else display_name in
      let* created :=
        Users.create_user _hash_password isoformat username password
          display_name admin in
      if created then ret (Registered username)
      else ret (RegisterFailed
                  "Username already exists or registration failed.").

End WithHash.

End Auth.

(** ** Concrete states used in the examples *)

Module Scenario.
Import Users.

(** A stand-in for SHA-256 and for [isoformat]. *)
Definition hash (password : string) : string := "sha256:" +:+ password.
Definition iso (t : Z) : string := "2025-01-01T00:00:00".

Definition administrator : user_data :=
  {[ "is_admin" := VBool true;
     "display_name" := VStr "Administrator";
     "created_at" := VStr "2025-01-01T00:00:00" ]}.

(** A users file with the root account [admin] and the account [bob], a
    directory for [bob] that cannot be removed, and a manager that has
    not read the file yet. *)
Definition registry (admin bob : user_data) (read_only : bool) : state :=
  State (Manager ∅ None)
        (Some (File 10 (Some {[ "admin" := admin; "bob" := bob ]})))
        {[ "bob" := Area (Some (File 5 (Some ∅))) true [Some 120] true ]}
        (Some "s3cret") read_only 20.

(** The state after the users file is read. *)
Definition loaded (s : state) : state := (_load_users_config iso s).2.

Definition bob_without_credential : user_data :=
  {[ "display_name" := VStr "Bob" ]}.
Definition bob_plaintext : user_data :=
  {[ "password_hash" := VStr "hunter2"; "display_name" := VStr "Bob" ]}.
Definition bob_empty_credential : user_data :=
  {[ "password_hash" := VStr Py.empty; "display_name" := VStr "Bob" ]}.


(** *** Times *)

Definition digit (c : ascii) : option Z :=
  if Py.in_range 48 57 c then Some (Z.of_N (N_of_ascii c) - 48) else None.

Fixpoint number (acc : Z) (s : string) : option Z :=
  match s with
  | EmptyString => Some acc
  | String c r =>
      match digit c with
      | Some d => number (10 * acc + d) r
      | None => None
      end
  end.

Definition leap (y : Z) : bool :=
  (y mod 4 =? 0) && (negb (y mod 100 =? 0) || (y mod 400 =? 0)).

Definition days_in_month (y m : Z) : Z :=
  if m =? 2 then (if leap y then 29 else 28)
  else if (m =? 4) || (m =? 6) || (m =? 9) || (m =? 11) then 30 else 31.

(** Days from 1970-01-01 to the day [d] of the month [m] of the year [y]. *)
Definition days_from_civil (y m d : Z) : Z :=
  let y := if m <=? 2 then y - 1 else y in
  let era := y / 400 in
  let yoe := y - era * 400 in
  let mp := (m + 9) mod 12 in
  let doy := (153 * mp + 2) / 5 + d - 1 in
  let doe := yoe * 365 + yoe / 4 - yoe / 100 + doy in
  era * 146097 + doe - 719468.

(** A parser for the strings [YYYY-MM-DDTHH:MM] of the forms, in minutes
    since 1970-01-01T00:00. *)
Definition minutes (s : string) : option Z :=
  if negb (String.length s =? 16)%nat then None
  else if negb (String.eqb (substring 4 1 s) "-"
                && String.eqb (substring 7 1 s) "-"
                && String.eqb (substring 10 1 s) "T"
                && String.eqb (substring 13 1 s) ":") then None
  else
    match number 0 (substring 0 4 s), number 0 (substring 5 2 s),
          number 0 (substring 8 2 s), number 0 (substring 11 2 s),
          number 0 (substring 14 2 s) with
    | Some y, Some m, Some d, Some hh, Some mm =>
        if (1 <=? m) && (m <=? 12) && (1 <=? d) && (d <=? days_in_month y m)
           && (hh <=? 23) && (mm <=? 59)
        then Some ((days_from_civil y m d * 24 + hh) * 60 + mm)
        else None
    | _, _, _, _, _ => None
    end.

(** An offset [+HH:MM], in minutes. *)
Definition offset (s : string) : option Z :=
  if negb (String.length s =? 6)%nat then None
  else if negb (String.eqb (substring 0 1 s) "+"
                && String.eqb (substring 3 1 s) ":") then None
  else
    match number 0 (substring 1 2 s), number 0 (substring 4 2 s) with
    | Some hh, Some mm =>
        if (hh <=? 23) && (mm <=? 59) then Some (hh * 60 + mm) else None
    | _, _ => None
    end.

(** The parser that stands for [datetime.fromisoformat] in the examples:
    [YYYY-MM-DDTHH:MM] is a naive object, and with an offset [+HH:MM]
    after the minutes an aware one, at its time in UTC. *)
Definition parse (s : string) : option Links.datetime :=
  match minutes s with
  | Some t => Some (Links.Naive t)
  | None =>
      match minutes (substring 0 16 s), offset (substring 16 6 s) with
      | Some t, Some o =>
          if (String.length s =? 22)%nat then Some (Links.Aware (t - o))
          else None
      | _, _ => None
      end
  end.

(** *** Links *)

Definition redirect (target : string) (expires : option string) : link_data :=
  LinkData (Some "redirect") None (Some target) expires None None None None.

(** The links of a user whose session runs at 2025-06-01T12:00: [r1]
    expired one hour ago, [r2] expires in one hour, [r3] never expires
    and the expiration date of [r4] does not parse. *)
Definition some_links : links :=
  {[ "r1" := redirect "https://example.org/1" (Some "2025-06-01T11:00");
     "r2" := redirect "https://example.org/2" (Some "2025-06-01T13:00");
     "r3" := redirect "https://example.org/3" None;
     "r4" := redirect "https://example.org/4" (Some "next tuesday") ]}.

Definition noon : Z := 29146320.

(** The user [alice] holds the link [x]; [bob] holds [b1], or has a
    links file that cannot be parsed. *)
Definition alice_links : links :=
  {[ "x" := redirect "https://example.org" None ]}.
Definition bob_links : links := {[ "b1" := redirect "https://example.net" None ]}.

Definition disk_of (bob : option links) : disk :=
  Disk (Some (File 1 (Some Config.default_config)))
       (Some (File 1 (Some Config._get_default_themes)))
       {[ "alice" := File 1 (Some Config.empty_user_config);
          "bob" := File 1 (Some Config.empty_user_config) ]}
       {[ "alice" := File 2 (Some alice_links); "bob" := File 3 bob ]}
       ∅ false 50 [].

(** A user's request: the context is set and the files are loaded. *)
Definition visit (user : string) : M unit :=
  Config.set_user_context (Some user) ;; Config.load_all_configs.

(** The state a computation leaves. *)
Definition after {A} (c : M A) (w : world) : world := (c w).2.

(** The loader as created, on a disk where [alice] and [bob] have
    links. *)
Definition fresh : world := World Config.init (disk_of (Some bob_links)).

(** The users for whom a reload of the links was printed, in order. *)
Definition links_reloads (w : world) : list (option string) :=
  omap (fun e => match e with LinksReloaded u => Some u | _ => None end)
       (stdout (fs w)).

(** A loader that holds [some_links] for [alice]. *)
Definition sweeping : world :=
  World (Config.set_links_config some_links
           (Config.set_current_user (Some "alice") Config.init))
        (disk_of (Some bob_links)).

(** The same links with [tz], whose expiration date carries an offset from
    UTC, and a loader that holds them for [alice]. *)
Definition mixed_links : links :=
  <["tz" := redirect "https://example.org/5" (Some "2020-01-01T00:00+00:00")]>
    some_links.

Definition sweeping_aware : world :=
  World (Config.set_links_config mixed_links
           (Config.set_current_user (Some "alice") Config.init))
        (disk_of (Some bob_links)).

(** The form that asks for the redirect [code]. *)
Definition redirect_form (code : string) : Links.form :=
  Links.Form code "redirect" None None "file" (Some "https://example.com") None.

(** A registry without users file, and one whose users file cannot be
    parsed. *)
Definition no_registry (read_only : bool) : Users.state :=
  State (Manager ∅ None) None ∅ (Some "s3cret") read_only 20.
Definition corrupt_registry : Users.state :=
  State (Manager ∅ None) (Some (File 10 None)) ∅ (Some "s3cret") false 20.

(** The usual registry, with [bob] and his legacy credential. *)
Definition usual (read_only : bool) : Users.state :=
  registry administrator bob_plaintext read_only.

(** The session of the administrator, a stand-in for [str.title], and the
    registration of [carol] by the administrator. *)
Definition admin_session : Auth.session :=
  Auth.log_in "admin" (VBool true) (VStr "Administrator") None Auth.anonymous.
Definition titled (s : string) : string := s.
Definition register_carol : comp Users.state Auth.register_response :=
  Auth.register hash iso titled admin_session " carol " "pass1234" "pass1234"
    EmptyString None.

(** A link to an uploaded file, and a loader that holds two of them for
    [alice]: [f1] expired one hour before [noon], [f2] never expires.
    The assets [a.pdf] and [b.pdf] of [alice] and [a.pdf] of [bob] are on
    the disk. *)
Definition uploaded (filename : string) (expires : option string)
  : link_data :=
  LinkData (Some "file") (Some filename) None expires None None None None.


(** A loader as created, on a disk where the links file of [alice] holds
    [f1] and [f2] and the assets are as above. *)
Definition shelf_links : links :=
  {[ "f1" := uploaded "a.pdf" (Some "2025-06-01T11:00");
     "f2" := uploaded "b.pdf" None ]}.

Definition shelf : world :=
  World Config.init
        (Config.put_asset_files
           {[ ("alice", "a.pdf") := false; ("alice", "b.pdf") := false;
              ("bob", "a.pdf") := false ]}
           (Config.put_links_files
              {[ "alice" := File 2 (Some shelf_links);
                 "bob" := File 3 (Some bob_links) ]}
              (disk_of (Some bob_links)))).

(** [alice] deletes her link [f1]. *)
Definition alice_deletes_f1 : M Links.delete_response :=
  Links.delete_link ["alice"; "bob"] (Some "alice") false "f1".

(** [bob] creates the redirect [y] during his request. *)
Definition bob_visiting : world := after (visit "bob") fresh.
Definition bob_creates_y : M Links.response :=
  Links.create ["alice"; "bob"] "bob" (redirect_form "y") "y".

(** The form that asks for the redirect [code] with the expiration date
    [date], and [bob] creating [z] with a date in UTC. *)
Definition expiring_form (code date : string) : Links.form :=
  Links.Form code "redirect" (Some "on") (Some date) "file"
    (Some "https://example.com") None.
Definition bob_creates_z : M Links.response :=
  Links.create ["alice"; "bob"] "bob"
    (expiring_form "z" "2020-01-01T00:00+00:00") "z".

End Scenario.

(** * Properties *)

(** ** Python strings *)

Lemma all_spec (p : ascii -> bool) (s : string) :
  Py.all p s = true <-> (forall c, In c (list_ascii_of_string s) -> p c = true).
Proof.
  induction s as [|c s IH]; simpl.
  - split; [intros _ c [] | reflexivity].
  - rewrite andb_true_iff, IH. split.
    + intros [Hc Hs] c' [<-|Hin]; auto.
    + intros H. split; [apply H; now left | intros c' Hin; apply H; now right].
Qed.

Lemma mem_spec (x : string) (xs : list string) :
  Py.mem x xs = true <-> x ∈ xs.
Proof.
  unfold Py.mem. rewrite existsb_exists, list_elem_of_In. split.
  - intros (y & Hin & Heq). apply String.eqb_eq in Heq. now subst.
  - intros Hin. exists x. split; [exact Hin | apply String.eqb_refl].
Qed.

Lemma str_truthy_length (s : string) :
  Py.str_truthy s = true <-> (1 <= String.length s)%nat.
Proof. destruct s; simpl; split; intros; (lia || congruence). Qed.

Lemma ascii_allowed_is_spec (c : ascii) :
  Py.in_range 0 127 c = true ->
  ShortCode.allowed_char c = true -> ShortCode.spec_char c = true.
Proof.
  destruct c as [[] [] [] [] [] [] [] []]; vm_compute; congruence.
Qed.

(** ** The short-code policy *)

Lemma allowed_char_spec (c : ascii) :
  ShortCode.allowed_char c = true
  <-> Py.isalnum c = true \/ c = "-"%char \/ c = "_"%char.
Proof.
  unfold ShortCode.allowed_char.
  rewrite !orb_true_iff, !Ascii.eqb_eq. tauto.
Qed.

(** C7 (as amended).  [validate_short_code] accepts a string exactly when
    it has 1 to 50 characters, each character is alphanumeric in Python's
    sense (which includes letters and digits outside ASCII) or is [-] or
    [_], and its lower-cased form is not a reserved word; an accepted code
    made of ASCII characters only has all its characters in
    [A-Za-z0-9_-]. *)
Theorem validate_short_code_policy (s : string) :
  ((ShortCode.validate_short_code s).1 = true <-> ShortCode.code_policy s)
  /\ ((ShortCode.validate_short_code s).1 = true ->
      ShortCode.is_ascii s = true ->
      Py.all ShortCode.spec_char s = true).
Proof.
  assert (Hiff : (ShortCode.validate_short_code s).1 = true
                 <-> ShortCode.code_policy s).
  { unfold ShortCode.validate_short_code, ShortCode.code_policy.
    destruct (Py.str_truthy s) eqn:Ht; cbn [fst].
    2:{ split; [discriminate|]. intros [[Hl _] _].
        apply str_truthy_length in Hl. congruence. }
    apply str_truthy_length in Ht.
    destruct (String.length s <? 1)%nat eqn:H1; [apply Nat.ltb_lt in H1; lia|].
    destruct (50 <? String.length s)%nat eqn:H50; cbn [fst].
    { apply Nat.ltb_lt in H50. split; [discriminate | intros [[_ Hl] _]; lia]. }
    apply Nat.ltb_ge in H50.
    destruct (Py.all ShortCode.allowed_char s) eqn:Hall; cbn [fst].
    2:{ split; [discriminate|]. intros (_ & Hc & _).
        assert (Py.all ShortCode.allowed_char s = true); [|congruence].
        apply all_spec. intros c Hin. apply allowed_char_spec. auto. }
    destruct (Py.mem (Py.lower s) ShortCode.reserved_words) eqn:Hm; cbn [fst].
    { split; [discriminate|]. intros (_ & _ & Hn).
      apply mem_spec in Hm. contradiction. }
    split; [|reflexivity]. intros _. split; [lia|]. split.
    - intros c Hin. apply allowed_char_spec.
      revert c Hin. now apply all_spec.
    - intros Hin. apply mem_spec in Hin. congruence. }
  split; [exact Hiff|].
  intros Hv Hascii. apply Hiff in Hv. destruct Hv as (_ & Hc & _).
  apply all_spec. intros c Hin.
  apply ascii_allowed_is_spec.
  - revert c Hin. now apply all_spec.
  - apply allowed_char_spec. auto.
Qed.

(** C7, counterexample.  The one-character code U+00E9 (e with an acute
    accent) is accepted although it is outside [A-Za-z0-9_-], and [Admin]
    is refused although it differs from every reserved word. *)
Lemma validate_short_code_not_spec_policy :
  ((ShortCode.validate_short_code (String "233"%char EmptyString)).1 = true
   /\ ~ ShortCode.spec_policy (String "233"%char EmptyString))
  /\ ((ShortCode.validate_short_code "Admin").1 = false
      /\ ShortCode.spec_policy "Admin").
Proof.
  split; split.
  - reflexivity.
  - intros (_ & H & _). vm_compute in H. discriminate.
  - reflexivity.
  - split; [simpl; lia|]. split; [reflexivity|].
    intros H. apply mem_spec in H. vm_compute in H. discriminate.
Qed.

(** ** The account registry *)

Section UsersFacts.
Import Users.

Variable _hash_password : string -> string.
Variable isoformat : Z -> string.

Local Abbreviation load := (_load_users_config isoformat).
Local Abbreviation authenticate := (authenticate_user _hash_password isoformat).
Local Abbreviation delete_account := (delete_user isoformat).

Local Ltac run :=
  repeat (progress (cbv beta iota delta
                      [bind ret raise gets modify when fst snd
                       set_users_config set_last_mod_time] in *)).

(** The reload leaves the environment, the write permission and the
    clock as they are. *)
Lemma load_frame (s s1 : state) (r : outcome unit) :
  load s = (r, s1) ->
  TRUNK8_ADMIN_PASSWORD s1 = TRUNK8_ADMIN_PASSWORD s
  /\ cannot_write s1 = cannot_write s
  /\ time s1 = time s.
Proof.
  unfold _load_users_config, _create_default_users_file,
    _create_user_directory. run.
  destruct s as [m f a e ro t]; simpl.
  destruct f as [f|]; simpl.
  - case_bool_decide; [destruct (body f)|]; intros [= <- <-]; auto.
  - destruct ro; simpl; intros [= <- <-]; auto.
Qed.

(** When the users file is there, the reload changes the manager only. *)
Lemma load_existing (s s1 : state) (r : outcome unit) (f : file users) :
  users_file s = Some f ->
  load s = (r, s1) ->
  r = Ok tt /\ users_file s1 = Some f /\ areas s1 = areas s.
Proof.
  unfold _load_users_config. run.
  destruct s as [m f0 a e ro t]; simpl. intros ->.
  case_bool_decide; [destruct (body f)|]; intros [= <- <-]; auto.
Qed.

(** A second reload right after a first one does nothing. *)
Lemma load_again (s s1 : state) :
  load s = (Ok tt, s1) -> load s1 = (Ok tt, s1).
Proof.
  unfold _load_users_config, _create_default_users_file,
    _create_user_directory. run.
  destruct s as [[u l] f a e ro t]; simpl.
  destruct f as [[mt b]|]; simpl.
  - case_bool_decide as Hm; [destruct b as [u'|]|]; simpl;
      intros [= <-]; simpl.
    + rewrite bool_decide_eq_false_2; [reflexivity|]. intros H; now apply H.
    + rewrite bool_decide_eq_true_2; [reflexivity | exact Hm].
    + rewrite bool_decide_eq_false_2; [reflexivity | intros H; exact (H Hm)].
  - destruct ro; simpl; [discriminate|]. intros [= <-]; simpl.
    rewrite bool_decide_eq_false_2; [reflexivity|]. intros H; now apply H.
Qed.

Lemma is_admin_run (s s1 : state) (name : string) :
  load s = (Ok tt, s1) ->
  is_admin isoformat name s
  = (Ok (privileged (users_config (manager s1)) name), s1).
Proof.
  intros Hl. unfold is_admin, get_user, privileged.
  unfold bind at 1. unfold bind at 1. rewrite Hl. unfold gets at 1.
  destruct (users_config (manager s1) !! name) as [d|]; [|reflexivity].
  destruct (dict_truthy d); reflexivity.
Qed.

Lemma dict_truthy_true (d : user_data) : d <> ∅ -> dict_truthy d = true.
Proof.
  intros H. unfold dict_truthy. now rewrite bool_decide_eq_false_2.
Qed.

Lemma insert_truthy (d : user_data) (k : string) (v : value) :
  dict_truthy (<[k := v]> d) = true.
Proof. apply dict_truthy_true, insert_non_empty. Qed.

(** What [authenticate_user] does once the users file is reloaded. *)
Lemma authenticate_after_load (s s1 : state) (username password : string) :
  load s = (Ok tt, s1) ->
  authenticate username password s
  = (let* user_data := gets (fun s => users_config (manager s) !! username) in
     match user_data with
     | Some d =>
         if dict_truthy d then
           if String.eqb username "admin" then
             let* env := gets TRUNK8_ADMIN_PASSWORD in
             if String.eqb password (default "admin" env) then ret (Some d)
             else ret None
           else
             match d !! "password_hash" with
             | Some stored_hash =>
                 if negb (truthy stored_hash) then ret None
                 else if eq_str stored_hash password then
                   let d' := <["password_hash" := VStr (_hash_password password)]> d in
                   let* u := gets (fun s => users_config (manager s)) in
                   set_users_config (<[username := d']> u) ;;
                   save_users_config ;;
                   ret (Some d')
                 else if eq_str stored_hash (_hash_password password) then
                   ret (Some d)
                 else ret None
             | None => ret None
             end
         else ret None
     | None => ret None
     end) s1.
Proof.
  intros Hl. unfold authenticate_user. unfold bind at 1. now rewrite Hl.
Qed.

(** C10.  A non-root account without a stored credential, or with an
    empty one, is refused whatever the supplied secret is, and the state
    is the one the reload of the users file leaves: nothing is migrated
    and nothing is saved. *)
Theorem authenticate_without_credential
    (s s1 : state) (username password : string) (d : user_data) :
  load s = (Ok tt, s1) ->
  users_config (manager s1) !! username = Some d ->
  username <> "admin" ->
  d !! "password_hash" = None \/ d !! "password_hash" = Some (VStr Py.empty) ->
  authenticate username password s = (Ok None, s1).
Proof.
  intros Hl Hd Hu Hc. rewrite (authenticate_after_load _ _ _ _ Hl).
  unfold bind, gets. rewrite Hd.
  destruct (dict_truthy d); [|reflexivity].
  apply String.eqb_neq in Hu. rewrite Hu.
  destruct Hc as [-> | ->]; reflexivity.
Qed.


(** C8 (as amended).  For a non-root account with a stored credential:
    when the credential is the supplied secret itself and is not empty,
    [authenticate_user] succeeds, the stored credential becomes the hash
    of the secret, and the table is saved when the users file can be
    written; when the credential is the hash of the secret (a hash is
    not empty), it succeeds and the table of accounts is as before; and
    a credential that is not the supplied secret leaves the state
    alone. *)
Theorem authenticate_migrates_plaintext
    (s s1 : state) (username password : string) (d : user_data)
    (stored : value) :
  load s = (Ok tt, s1) ->
  users_config (manager s1) !! username = Some d ->
  username <> "admin" ->
  d !! "password_hash" = Some stored ->
  let u := users_config (manager s1) in
  let d' := <["password_hash" := VStr (_hash_password password)]> d in
  (stored = VStr password -> Py.str_truthy password = true ->
     exists s2,
       authenticate username password s = (Ok (Some d'), s2)
       /\ users_config (manager s2) = <[username := d']> u
       /\ (cannot_write s1 = false ->
           users_file s2 = Some (File (time s1) (Some (<[username := d']> u)))))
  /\ (stored = VStr (_hash_password password) ->
      Py.str_truthy (_hash_password password) = true ->
      exists s2,
        authenticate username password s = (Ok (Some d), s2)
        /\ users_config (manager s2) = u)
  /\ (stored <> VStr password ->
      (authenticate username password s).2 = s1).
Proof.
  intros Hl Hd Hu Hs u d'.
  assert (Hne : dict_truthy d = true).
  { apply dict_truthy_true. intros ->. now rewrite lookup_empty in Hs. }
  apply String.eqb_neq in Hu.
  assert (Hplain : stored = VStr password -> Py.str_truthy password = true ->
            exists s2,
              authenticate username password s = (Ok (Some d'), s2)
              /\ users_config (manager s2) = <[username := d']> u
              /\ (cannot_write s1 = false ->
                  users_file s2
                  = Some (File (time s1) (Some (<[username := d']> u))))).
  { intros -> Ht. rewrite (authenticate_after_load _ _ _ _ Hl).
    unfold bind at 1. unfold gets at 1. rewrite Hd, Hne, Hu, Hs.
    cbn [truthy eq_str]. rewrite Ht, String.eqb_refl. cbn [negb].
    unfold save_users_config. run.
    destruct s1 as [[u1 l1] f1 a1 e1 ro1 t1]; simpl in *.
    destruct ro1; simpl; eexists; (split; [reflexivity|]); simpl;
      (split; [reflexivity|]); intros; first [discriminate | reflexivity]. }
  split; [exact Hplain|]. split.
  - intros -> Ht.
    destruct (String.eqb (_hash_password password) password) eqn:He.
    + apply String.eqb_eq in He.
      destruct Hplain as (s2 & Ha & Hu2 & _).
      { now rewrite He. } { now rewrite <- He. }
      assert (Hd' : d' = d).
      { unfold d'. apply insert_id. now rewrite Hs. }
      exists s2. rewrite Ha, Hu2, Hd'. split; [reflexivity|].
      now apply insert_id.
    + exists s1. rewrite (authenticate_after_load _ _ _ _ Hl).
      unfold bind, gets. rewrite Hd, Hne, Hu, Hs.
      cbn [truthy eq_str]. rewrite Ht, He, String.eqb_refl. now simpl.
  - intros Hneq. rewrite (authenticate_after_load _ _ _ _ Hl).
    unfold bind at 1. unfold gets at 1. rewrite Hd, Hne, Hu, Hs.
    assert (eq_str stored password = false) as ->.
    { destruct stored; try reflexivity. simpl. apply String.eqb_neq.
      congruence. }
    destruct (negb (truthy stored)); [reflexivity|].
    destruct (eq_str stored (_hash_password password)); reflexivity.
Qed.

(** C4.  [delete_user] returns [False] and leaves the state of the
    reload (the users file and the directories as they were) when the
    requesting account is not privileged, when the account to delete is
    the root account, or when it does not exist.  Otherwise the account
    is removed from the table whether or not the directory of the account
    can be removed, the result says whether the table could be saved, it
    is saved when the users file can be written, and a directory that
    could not be removed is left in place. *)
Theorem delete_user_preconditions
    (s s1 : state) (username requesting_user : string) :
  load s = (Ok tt, s1) ->
  let u := users_config (manager s1) in
  (privileged u requesting_user = false \/ username = "admin"
   \/ u !! username = None ->
     delete_account username requesting_user s = (Ok false, s1)
     /\ (forall f, users_file s = Some f ->
           users_file s1 = Some f /\ areas s1 = areas s))
  /\ (privileged u requesting_user = true -> username <> "admin" ->
      is_Some (u !! username) ->
      exists s2,
        delete_account username requesting_user s
        = (Ok (negb (cannot_write s1)), s2)
        /\ users_config (manager s2) = delete username u
        /\ (cannot_write s1 = false ->
            users_file s2 = Some (File (time s1) (Some (delete username u))))
        /\ (forall a, areas s1 !! username = Some a ->
              area_locked a = true -> areas s2 = areas s1)).
Proof.
  intros Hl u. pose proof (load_again _ _ Hl) as Hl2.
  pose proof (is_admin_run _ _ requesting_user Hl) as Ha.
  split.
  - intros Hc. split.
    2:{ intros f Hf. destruct (load_existing _ _ _ _ Hf Hl) as (_ & ? & ?).
        now split. }
    unfold delete_user. unfold bind at 1. rewrite Ha. fold u.
    destruct (privileged u requesting_user) eqn:Hp; [|reflexivity].
    cbn [negb].
    destruct (String.eqb username "admin") eqn:He; [reflexivity|].
    destruct Hc as [Hc | [Hc | Hc]]; [discriminate | |].
    { apply String.eqb_neq in He. contradiction. }
    unfold bind at 1. rewrite Hl2. unfold bind at 1. unfold gets at 1.
    fold u. rewrite Hc. rewrite bool_decide_eq_false_2; [reflexivity|].
    intros [? ?]; discriminate.
  - intros Hp Hu Hin. apply String.eqb_neq in Hu.
    unfold delete_user. unfold bind at 1. rewrite Ha. fold u. rewrite Hp.
    cbn [negb]. rewrite Hu.
    unfold bind at 1. rewrite Hl2. unfold bind at 1. unfold gets at 1.
    fold u. rewrite bool_decide_eq_true_2 by exact Hin. cbn [negb].
    unfold _cleanup_user_data, save_users_config. run.
    subst u. destruct s1 as [[u1 l1] f1 a1 e1 ro1 t1]; simpl in *.
    destruct (a1 !! username) as [a|] eqn:Harea; simpl.
    + destruct (area_locked a) eqn:Hlock; simpl; destruct ro1; simpl;
        eexists; (split; [reflexivity|]); simpl;
        (split; [reflexivity|]);
        (split; [intros; first [discriminate | reflexivity]|]);
        intros a' [= <-] Hlock'; first [congruence | reflexivity].
    + destruct ro1; simpl; eexists; (split; [reflexivity|]); simpl;
        (split; [reflexivity|]);
        (split; [intros; first [discriminate | reflexivity]|]);
        intros a' [=].
Qed.

End UsersFacts.

(** ** The account registry on concrete states *)

Lemma authenticate_without_credential_witness :
  let s := Scenario.registry Scenario.administrator
             Scenario.bob_without_credential false in
  Users.authenticate_user Scenario.hash Scenario.iso "bob" "anything" s
  = (Ok None, Scenario.loaded s).
Proof.
  intros s.
  apply (authenticate_without_credential Scenario.hash Scenario.iso s
           (Scenario.loaded s) "bob" "anything"
           Scenario.bob_without_credential).
  - vm_compute. reflexivity.
  - vm_compute. reflexivity.
  - discriminate.
  - left. vm_compute. reflexivity.
Defined.



Lemma authenticate_migrates_plaintext_witness :
  let s := Scenario.registry Scenario.administrator Scenario.bob_plaintext
             false in
  exists s2,
    Users.authenticate_user Scenario.hash Scenario.iso "bob" "hunter2" s
    = (Ok (Some (<["password_hash" := VStr "sha256:hunter2"]>
                   Scenario.bob_plaintext)), s2)
    /\ Users.users_file s2
       = Some (File 20 (Some (<["bob" := <["password_hash" := VStr "sha256:hunter2"]>
                                          Scenario.bob_plaintext]>
                                (Users.users_config
                                   (Users.manager (Scenario.loaded s)))))).
Proof.
  intros s.
  destruct (authenticate_migrates_plaintext Scenario.hash Scenario.iso s
              (Scenario.loaded s) "bob" "hunter2" Scenario.bob_plaintext
              (VStr "hunter2")) as (Hplain & _).
  - vm_compute. reflexivity.
  - vm_compute. reflexivity.
  - discriminate.
  - vm_compute. reflexivity.
  - destruct Hplain as (s2 & Ha & _ & Hf); [reflexivity | reflexivity |].
    exists s2. split; [exact Ha | apply Hf; reflexivity].
Defined.

(** C8, counterexample.  The stored credential of [bob] is the empty
    string and so is the supplied secret: the two are equal verbatim, and
    [authenticate_user] refuses. *)
Lemma authenticate_empty_plaintext :
  Scenario.bob_empty_credential !! "password_hash" = Some (VStr Py.empty)
  /\ (Users.authenticate_user Scenario.hash Scenario.iso "bob" Py.empty
        (Scenario.registry Scenario.administrator
           Scenario.bob_empty_credential false)).1 = Ok None.
Proof. split; vm_compute; reflexivity. Qed.

Lemma delete_user_preconditions_witness :
  let s := Scenario.registry Scenario.administrator Scenario.bob_plaintext
             false in
  (Users.delete_user Scenario.iso "admin" "admin" s
   = (Ok false, Scenario.loaded s))
  /\ (Users.delete_user Scenario.iso "bob" "bob" s
      = (Ok false, Scenario.loaded s))
  /\ exists s2,
      Users.delete_user Scenario.iso "bob" "admin" s = (Ok true, s2)
      /\ Users.users_config (Users.manager s2) !! "bob" = None
      /\ Users.users_file s2
         = Some (File 20 (Some (delete "bob"
                                  (Users.users_config
                                     (Users.manager (Scenario.loaded s))))))
      /\ Users.areas s2 = Users.areas s.
Proof.
  intros s.
  assert (Hl : Users._load_users_config Scenario.iso s
               = (Ok tt, Scenario.loaded s)) by (vm_compute; reflexivity).
  split; [|split].
  - apply (delete_user_preconditions Scenario.iso s _ "admin" "admin" Hl).
    right. left. reflexivity.
  - apply (delete_user_preconditions Scenario.iso s _ "bob" "bob" Hl).
    left. vm_compute. reflexivity.
  - destruct (delete_user_preconditions Scenario.iso s _ "bob" "admin" Hl)
      as (_ & Hdel).
    destruct Hdel as (s2 & Hd & Hu & Hf & Ha).
    + vm_compute. reflexivity.
    + discriminate.
    + vm_compute. eexists. reflexivity.
    + exists s2. split; [exact Hd|]. split; [|split].
      * rewrite Hu. apply lookup_delete_eq.
      * apply Hf. reflexivity.
      * eapply Ha; [vm_compute; reflexivity | reflexivity].
Defined.

(** ** The loader and the sweep *)

Section LinksFacts.
Import Config Links.

Variable fromisoformat : string -> option datetime.

Local Ltac run :=
  repeat (progress (cbv beta iota delta
                      [bind ret raise gets modify when on_loader on_disk
                       print get_user_assets_dir get_user_links_file
                       try fst snd] in *)).

Lemma set_links_config_twice (l l' : links) (c : ConfigLoader) :
  set_links_config l (set_links_config l' c) = set_links_config l c.
Proof. reflexivity. Qed.

Lemma set_links_config_same (c : ConfigLoader) :
  set_links_config (links_config c) c = c.
Proof. now destruct c. Qed.

Lemma lookup_foldl_delete (ks : list string) (m : links) (k : string) :
  foldl (fun m k => delete k m) m ks !! k
  = if bool_decide (k ∈ ks) then None else m !! k.
Proof.
  revert m. induction ks as [|k' ks IH]; intros m; cbn [foldl].
  - rewrite bool_decide_eq_false_2; [reflexivity | apply not_elem_of_nil].
  - rewrite IH. destruct (decide (k ∈ ks)) as [Hin|Hin].
    + rewrite !bool_decide_eq_true_2; [reflexivity | now right | exact Hin].
    + rewrite (bool_decide_eq_false_2 _ Hin).
      destruct (decide (k = k')) as [->|Hne].
      * rewrite bool_decide_eq_true_2 by now left. apply lookup_delete_eq.
      * rewrite bool_decide_eq_false_2.
        -- now apply lookup_delete_ne.
        -- intros [?|?]%elem_of_cons; contradiction.
Qed.

(** One round of the second loop removes the code from the links the
    loader holds, and touches nothing else of the loader. *)
Lemma remove_expired_run (w : world) (code : string) (data : link_data) :
  links_config (loader w) !! code = Some data ->
  exists d',
    remove_expired code w
    = (Ok tt, World (set_links_config (delete code (links_config (loader w)))
                       (loader w)) d').
Proof.
  intros Hd. unfold remove_expired. unfold bind at 1. unfold gets at 1.
  rewrite Hd. destruct w as [c d]. unfold remove_asset. run.
  cbn [loader fs].
  destruct (has_asset data); [|eexists; reflexivity].
  destruct (path data) as [filename|]; [|eexists; reflexivity].
  destruct (Py.str_truthy filename); [|eexists; reflexivity].
  match goal with
  | |- context [asset_files ?x !! ?k] =>
      destruct (asset_files x !! k) as [[]|]
  end; eexists; reflexivity.
Qed.

Lemma for_each_remove_expired (ks : list string) :
  forall w : world,
    NoDup ks ->
    (forall k, k ∈ ks -> is_Some (links_config (loader w) !! k)) ->
    exists d',
      for_each ks remove_expired w
      = (Ok tt, World (set_links_config
                         (foldl (fun m k => delete k m)
                                (links_config (loader w)) ks)
                         (loader w)) d').
Proof.
  induction ks as [|k ks IH]; intros w Hnd Hin; simpl.
  - exists (fs w). unfold ret. rewrite set_links_config_same. now destruct w.
  - apply NoDup_cons in Hnd as [Hk Hnd].
    destruct (Hin k) as [data Hdata]; [now left|].
    destruct (remove_expired_run w k data Hdata) as [d1 H1].
    unfold bind. rewrite H1.
    destruct (IH (World (set_links_config (delete k (links_config (loader w)))
                           (loader w)) d1) Hnd) as [d2 H2].
    + intros k' Hk'. simpl.
      rewrite lookup_delete_ne by (intros ->; contradiction).
      apply Hin. now right.
    + exists d2. rewrite H2. reflexivity.
Qed.

Lemma collect_expired_elem (now : Z) (items : list (string * link_data)) :
  forall codes k,
    collect_expired fromisoformat now items = Ok codes ->
    (k ∈ codes
     <-> exists data, (k, data) ∈ items
                      /\ past_expiry fromisoformat now data = Ok true).
Proof.
  induction items as [|[k0 d0] r IH]; intros codes k; simpl.
  - intros [= <-]. split.
    + now intros ?%not_elem_of_nil.
    + now intros (data & ?%not_elem_of_nil & _).
  - destruct (past_expiry fromisoformat now d0) as [b|] eqn:Hb; [|intros [=]].
    destruct (collect_expired fromisoformat now r) as [ks|]; [|intros [=]].
    intros [= <-]. specialize (IH ks k eq_refl). split.
    + intros Hin.
      assert (Hcase : (b = true /\ k = k0) \/ k ∈ ks).
      { destruct b; [|now right].
        apply elem_of_cons in Hin as [->|Hin]; auto. }
      destruct Hcase as [[-> ->] | Hks].
      * exists d0. split; [now left | exact Hb].
      * apply IH in Hks as (data & Hin' & Hp). exists data.
        split; [now right | exact Hp].
    + intros (data & [[= -> ->]|Hin]%elem_of_cons & Hp).
      * rewrite Hp in Hb. injection Hb as <-. now left.
      * assert (k ∈ ks) by (apply IH; eauto).
        destruct b; [now right | assumption].
Qed.

Lemma collect_expired_Raise (now : Z) (items : list (string * link_data)) :
  collect_expired fromisoformat now items = Raise
  <-> exists k data, (k, data) ∈ items
                     /\ past_expiry fromisoformat now data = Raise.
Proof.
  induction items as [|[k0 d0] r IH]; simpl.
  - split; [intros [=] | now intros (k & data & ?%not_elem_of_nil & _)].
  - destruct (past_expiry fromisoformat now d0) as [b|] eqn:Hb.
    + destruct (collect_expired fromisoformat now r) as [ks|].
      * split; [intros [=]|]. intros (k & data & Hin & Hp).
        apply elem_of_cons in Hin as [[= -> ->]|Hin]; [congruence|].
        assert (@Ok (list string) ks = Raise); [|discriminate].
        apply IH. eauto.
      * split; [|reflexivity]. intros _.
        destruct (proj1 IH eq_refl) as (k & data & Hin & Hp).
        exists k, data. split; [now right | exact Hp].
    + split; [|reflexivity]. intros _. exists k0, d0.
      split; [now left | exact Hb].
Qed.

Lemma collect_expired_NoDup (now : Z) (items : list (string * link_data)) :
  forall codes,
    collect_expired fromisoformat now items = Ok codes ->
    NoDup items.*1 -> NoDup codes.
Proof.
  induction items as [|[k0 d0] r IH]; intros codes; simpl.
  - intros [= <-] _. constructor.
  - destruct (past_expiry fromisoformat now d0) as [b|]; [|intros [=]].
    destruct (collect_expired fromisoformat now r) as [ks|] eqn:Hr;
      [|intros [=]].
    intros [= <-] [Hk0 Hnd]%NoDup_cons. specialize (IH ks eq_refl Hnd).
    destruct b; [|exact IH]. apply NoDup_cons. split; [|exact IH].
    intros Hin. apply Hk0.
    apply (collect_expired_elem now r ks k0 Hr) in Hin as (data & Hin & _).
    apply list_elem_of_fmap. exists (k0, data). auto.
Qed.

Lemma elem_of_expired_links (now : Z) (l : links) (codes : list string)
    (k : string) :
  expired_links fromisoformat now l = Ok codes ->
  (k ∈ codes
   <-> exists data, l !! k = Some data
                    /\ past_expiry fromisoformat now data = Ok true).
Proof.
  intros Hc. rewrite (collect_expired_elem now _ codes k Hc).
  split; intros (data & Hin & Hp); exists data; (split; [|exact Hp]);
    now apply elem_of_map_to_list.
Qed.

Lemma NoDup_expired_links (now : Z) (l : links) (codes : list string) :
  expired_links fromisoformat now l = Ok codes -> NoDup codes.
Proof.
  intros Hc. apply (collect_expired_NoDup now _ codes Hc).
  apply NoDup_fst_map_to_list.
Qed.

(** The first loop raises exactly when the test of some record does. *)
Lemma expired_links_Raise (now : Z) (l : links) :
  expired_links fromisoformat now l = Raise
  <-> exists k data, l !! k = Some data
                     /\ past_expiry fromisoformat now data = Raise.
Proof.
  unfold expired_links. rewrite collect_expired_Raise.
  split; intros (k & data & Hin & Hp); exists k, data; (split; [|exact Hp]);
    now apply elem_of_map_to_list.
Qed.

(** A sweep without user context does nothing; a sweep whose first loop
    raises leaves the state as it is. *)
Lemma check_expired_links_no_user (now : Z) (w : world) :
  Py.opt_truthy (current_user (loader w)) = false ->
  check_expired_links fromisoformat now w = (Ok tt, w).
Proof.
  intros Hu. unfold check_expired_links. unfold bind at 1. unfold gets at 1.
  now rewrite Hu.
Qed.

Lemma check_expired_links_Raise (now : Z) (w : world) :
  Py.opt_truthy (current_user (loader w)) = true ->
  expired_links fromisoformat now (links_config (loader w)) = Raise ->
  check_expired_links fromisoformat now w = (Raise, w).
Proof.
  intros Hu Hr. unfold check_expired_links. unfold bind at 1. unfold gets at 1.
  rewrite Hu. cbn [negb]. unfold bind at 1. unfold gets at 1.
  unfold bind at 1, lift at 1. now rewrite Hr.
Qed.

(** What a sweep that completes does to the listing: the links past
    their expiry are removed and the others are kept; the user context
    itself is kept. *)
Lemma check_expired_links_listing (now : Z) (w : world)
    (codes : list string) :
  Py.opt_truthy (current_user (loader w)) = true ->
  expired_links fromisoformat now (links_config (loader w)) = Ok codes ->
  exists w',
    check_expired_links fromisoformat now w = (Ok tt, w')
    /\ current_user (loader w') = current_user (loader w)
    /\ forall k,
        list_records w' !! k
        = match list_records w !! k with
          | Some data =>
              match past_expiry fromisoformat now data with
              | Ok true => None
              | _ => Some data
              end
          | None => None
          end.
Proof.
  intros Hu He. unfold check_expired_links. unfold bind at 1. unfold gets at 1.
  rewrite Hu. cbn [negb]. unfold bind at 1. unfold gets at 1.
  unfold bind at 1, lift at 1. rewrite He. unfold bind at 1.
  destruct (for_each_remove_expired codes w) as [d1 H1].
  { exact (NoDup_expired_links now _ codes He). }
  { intros k Hin.
    apply (elem_of_expired_links now _ codes k He) in Hin as (data & Hl & _).
    eauto. }
  rewrite H1.
  assert (Hlook : forall k,
    foldl (fun m k => delete k m) (links_config (loader w)) codes !! k
    = match links_config (loader w) !! k with
      | Some data =>
          match past_expiry fromisoformat now data with
          | Ok true => None
          | _ => Some data
          end
      | None => None
      end).
  { intros k. rewrite lookup_foldl_delete.
    pose proof (elem_of_expired_links now _ codes k He) as Hin.
    destruct (links_config (loader w) !! k) as [data|] eqn:Hl.
    - destruct (past_expiry fromisoformat now data) as [[|]|] eqn:Hp.
      + rewrite bool_decide_eq_true_2; [reflexivity|]. apply Hin. eauto.
      + rewrite bool_decide_eq_false_2; [reflexivity|].
        intros Hk. apply Hin in Hk as (data' & Hl' & Hp'). congruence.
      + rewrite bool_decide_eq_false_2; [reflexivity|].
        intros Hk. apply Hin in Hk as (data' & Hl' & Hp'). congruence.
    - now destruct (bool_decide _). }
  destruct codes as [|k0 ks].
  - eexists. split; [reflexivity|]. split; [now destruct w as [[] ?]|].
    intros k. unfold list_records. simpl. apply (Hlook k).
  - unfold save_links_config, write. run. cbn [loader fs].
    destruct (read_only d1); cbn.
    + eexists. split; [reflexivity|]. split; [now destruct w as [[] ?]|].
      intros k. apply (Hlook k).
    + eexists. split; [reflexivity|]. split; [now destruct w as [[] ?]|].
      intros k. apply (Hlook k).
Qed.

(** A sweep, whether it completes or raises, keeps a link that its test
    does not find past its expiry. *)
Lemma check_expired_links_keeps (now : Z) (w : world) (k : string)
    (data : link_data) :
  list_records w !! k = Some data ->
  past_expiry fromisoformat now data <> Ok true ->
  list_records (snd (check_expired_links fromisoformat now w)) !! k
  = Some data.
Proof.
  intros Hk Hp.
  destruct (Py.opt_truthy (current_user (loader w))) eqn:Hu.
  2:{ now rewrite check_expired_links_no_user. }
  destruct (expired_links fromisoformat now (links_config (loader w)))
    as [codes|] eqn:He.
  2:{ now rewrite check_expired_links_Raise. }
  destruct (check_expired_links_listing now w codes Hu He)
    as (w1 & H1 & _ & Hl).
  rewrite H1. cbn [snd]. rewrite Hl, Hk.
  now destruct (past_expiry fromisoformat now data) as [[|]|].
Qed.

(** Sweeps keep a link as long as it is not found past its expiry at the
    time of each of them. *)
Lemma sweeps_keep (nows : list Z) :
  forall (w : world) (k : string) (data : link_data),
    list_records w !! k = Some data ->
    Forall (fun now => past_expiry fromisoformat now data <> Ok true) nows ->
    exists w',
      sweeps fromisoformat nows w = (Ok tt, w')
      /\ list_records w' !! k = Some data.
Proof.
  induction nows as [|now nows IH]; intros w k data Hk Hall; simpl.
  - exists w. auto.
  - apply Forall_cons in Hall as [Hnow Hall].
    pose proof (check_expired_links_keeps now w k data Hk Hnow) as Hkept.
    unfold bind, try.
    destruct (check_expired_links fromisoformat now w) as [[[]|] w1];
      cbn [snd] in Hkept; now apply IH.
Qed.

Lemma never_ret (r x : response) : x <> r -> never r (ret x).
Proof. intros Hne w. simpl. congruence. Qed.

Lemma never_bind {A} (r : response) (c : M A) (k : A -> M response) :
  (forall a, never r (k a)) -> never r (bind c k).
Proof.
  intros Hk w. unfold bind. destruct (c w) as [[a|] w']; [apply Hk|].
  simpl. discriminate.
Qed.

(** [datetime.fromisoformat] raises [ValueError] on the empty string. *)
Hypothesis fromisoformat_empty : fromisoformat Py.empty = None.

(** X28.  With a user context, a sweep over links none of whose
    expiration dates carries an offset from UTC completes and removes from
    the listing every link whose expiration date parses to a time strictly
    before the current time.  A sweep over links one of whose expiration
    dates carries an offset raises and leaves the state as it is.  A link
    without expiration date, or with one that is not before the time of
    any of the sweeps, is still listed after any number of sweeps, whether
    they complete or raise. *)
Theorem sweep_removes_expired_unless_aware
    (w : world) (k : string) (data : link_data) :
  list_records w !! k = Some data ->
  (forall (now : Z) (e : string) (t : Z),
      Py.opt_truthy (current_user (loader w)) = true ->
      (forall k' d', list_records w !! k' = Some d' ->
                     past_expiry fromisoformat now d' <> Raise) ->
      expiration_date data = Some e -> fromisoformat e = Some (Naive t) ->
      t < now ->
      exists w',
        check_expired_links fromisoformat now w = (Ok tt, w')
        /\ list_records w' !! k = None)
  /\ (forall (now : Z) (k' e' : string) (d' : link_data) (t' : Z),
        Py.opt_truthy (current_user (loader w)) = true ->
        list_records w !! k' = Some d' ->
        expiration_date d' = Some e' -> fromisoformat e' = Some (Aware t') ->
        check_expired_links fromisoformat now w = (Raise, w))
  /\ (forall nows : list Z,
        (expiration_date data = None
         \/ exists e t, expiration_date data = Some e
                        /\ fromisoformat e = Some (Naive t)
                        /\ Forall (fun now => now <= t) nows) ->
        list_records (snd (sweeps fromisoformat nows w)) !! k = Some data).
Proof.
  intros Hk. split; [|split].
  - intros now e t Hu Hnaive He Ht Hlt.
    destruct (expired_links fromisoformat now (links_config (loader w)))
      as [codes|] eqn:Hc.
    2:{ apply expired_links_Raise in Hc as (k' & d' & Hl & Hr).
        now destruct (Hnaive k' d' Hl). }
    destruct (check_expired_links_listing now w codes Hu Hc)
      as (w1 & H1 & _ & Hl).
    exists w1. split; [exact H1|]. rewrite Hl, Hk.
    unfold past_expiry. rewrite He.
    destruct e as [|c e]; [unfold Py.empty in *; congruence|].
    cbn [Py.str_truthy]. rewrite Ht. cbn [later].
    now apply Z.ltb_lt in Hlt as ->.
  - intros now k' e' d' t' Hu Hl He Ht.
    apply check_expired_links_Raise; [exact Hu|].
    apply expired_links_Raise. exists k', d'. split; [exact Hl|].
    unfold past_expiry. rewrite He.
    destruct e' as [|c e']; [unfold Py.empty in *; congruence|].
    cbn [Py.str_truthy]. now rewrite Ht.
  - intros nows Hfuture.
    destruct (sweeps_keep nows w k data Hk) as (w' & Hrun & Hkept);
      [|now rewrite Hrun].
    unfold past_expiry.
    destruct Hfuture as [-> | (e & t & -> & Ht & Hall)].
    + now apply Forall_forall.
    + rewrite Ht. destruct (Py.str_truthy e).
      * eapply Forall_impl; [exact Hall|]. simpl. intros now Hle.
        apply Z.ltb_ge in Hle. rewrite Hle. discriminate.
      * now apply Forall_forall.
Qed.


End LinksFacts.


(** ** The sweep on concrete links *)

(** C3, at the failing input.  [alice] holds [r1], whose expiration date
    parses and is one hour before the current time, and [tz], whose
    expiration date carries an offset from UTC.  The sweep raises in its
    first loop, where only [ValueError] is caught: the state is as before
    and [r1] is still listed, also after any number of sweeps. *)
Lemma sweep_aborts_on_offset_aware_date :
  let w := Scenario.sweeping_aware in
  let r1 := Scenario.redirect "https://example.org/1"
              (Some "2025-06-01T11:00") in
  Links.list_records w !! "r1" = Some r1
  /\ Scenario.parse "2025-06-01T11:00" = Some (Links.Naive (Scenario.noon - 60))
  /\ Scenario.parse "2020-01-01T00:00+00:00" = Some (Links.Aware 26297280)
  /\ Links.check_expired_links Scenario.parse Scenario.noon w = (Raise, w)
  /\ Links.list_records
       (snd (Links.sweeps Scenario.parse
               [Scenario.noon; Scenario.noon + 1; Scenario.noon + 2] w))
     !! "r1" = Some r1.
Proof. vm_compute. repeat split. Qed.

Lemma sweep_removes_expired_unless_aware_witness :
  (exists w',
      Links.check_expired_links Scenario.parse Scenario.noon Scenario.sweeping
      = (Ok tt, w')
      /\ Links.list_records w' !! "r1" = None)
  /\ Links.check_expired_links Scenario.parse Scenario.noon
       Scenario.sweeping_aware = (Raise, Scenario.sweeping_aware)
  /\ Links.list_records
       (snd (Links.sweeps Scenario.parse
               [Scenario.noon; Scenario.noon + 30; Scenario.noon + 60]
               Scenario.sweeping_aware)) !! "r2"
     = Some (Scenario.redirect "https://example.org/2"
               (Some "2025-06-01T13:00")).
Proof.
  split; [|split].
  - destruct (sweep_removes_expired_unless_aware Scenario.parse eq_refl
                Scenario.sweeping "r1"
                (Scenario.redirect "https://example.org/1"
                   (Some "2025-06-01T11:00"))) as (Hgone & _).
    { vm_compute. reflexivity. }
    apply (Hgone Scenario.noon "2025-06-01T11:00" (Scenario.noon - 60)).
    + reflexivity.
    + intros k' d' Hk'.
      change (Scenario.some_links !! k' = Some d') in Hk'.
      unfold Scenario.some_links in Hk'.
      repeat (apply lookup_insert_Some in Hk' as [[_ <-]|[_ Hk']];
              [vm_compute; discriminate|]).
      apply lookup_singleton_Some in Hk' as [_ <-]. vm_compute. discriminate.
    + reflexivity.
    + vm_compute. reflexivity.
    + vm_compute. reflexivity.
  - destruct (sweep_removes_expired_unless_aware Scenario.parse eq_refl
                Scenario.sweeping_aware "r1"
                (Scenario.redirect "https://example.org/1"
                   (Some "2025-06-01T11:00"))) as (_ & Hraise & _).
    { vm_compute. reflexivity. }
    apply (Hraise Scenario.noon "tz" "2020-01-01T00:00+00:00"
             (Scenario.redirect "https://example.org/5"
                (Some "2020-01-01T00:00+00:00")) 26297280).
    + reflexivity.
    + vm_compute. reflexivity.
    + reflexivity.
    + vm_compute. reflexivity.
  - destruct (sweep_removes_expired_unless_aware Scenario.parse eq_refl
                Scenario.sweeping_aware "r2"
                (Scenario.redirect "https://example.org/2"
                   (Some "2025-06-01T13:00"))) as (_ & _ & Hkept).
    { vm_compute. reflexivity. }
    apply Hkept. right.
    exists "2025-06-01T13:00", (Scenario.noon + 60).
    split; [reflexivity|]. split; [vm_compute; reflexivity|].
    repeat constructor; vm_compute; discriminate.
Defined.


(** ** Switching the user context *)

Section LoaderFacts.
Import Config Links.

(** C6 (as amended).  Setting the context to the user it already has
    changes nothing.  Setting it to another user clears the modification
    times and the paths of the links file and of the per-user
    configuration file, and nothing else: the application
    configuration, the themes and their modification times, the disk, and
    also the links and the per-user configuration held in memory stay as
    they are.  The next load of the links then reads the file of the new
    user whenever it exists and parses, whether or not that user was
    visited before, and the links in memory are then those of that
    file. *)
Theorem set_user_context_resets_and_forces_reload
    (w : world) (username : option string) :
  (current_user (loader w) = username ->
     set_user_context username w = (Ok tt, w))
  /\ (current_user (loader w) <> username ->
      exists c1,
        set_user_context username w = (Ok tt, World c1 (fs w))
        /\ current_user c1 = username
        /\ _last_links_config_mod_time c1 = None
        /\ _last_user_config_mod_time c1 = None
        /\ _current_links_path c1 = None
        /\ _current_user_config_path c1 = None
        /\ app_config c1 = app_config (loader w)
        /\ themes_config c1 = themes_config (loader w)
        /\ _last_app_config_mod_time c1 = _last_app_config_mod_time (loader w)
        /\ _last_themes_config_mod_time c1
           = _last_themes_config_mod_time (loader w)
        /\ links_config c1 = links_config (loader w)
        /\ user_config c1 = user_config (loader w)
        /\ (forall (f : file links) (l : links),
              links_files (fs w) !! resolve_user c1 None = Some f ->
              body f = Some l ->
              exists w2,
                _load_links_config (World c1 (fs w)) = (Ok tt, w2)
                /\ links_config (loader w2) = l
                /\ _last_links_config_mod_time (loader w2) = Some (mtime f)
                /\ stdout (fs w2)
                   = (stdout (fs w) ++ [LinksReloaded username])%list)).
Proof.
  split.
  - intros He. unfold set_user_context. unfold bind at 1, gets at 1.
    rewrite bool_decide_eq_false_2; [reflexivity | intros H; now apply H].
  - intros Hne. unfold set_user_context. unfold bind at 1, gets at 1.
    rewrite bool_decide_eq_true_2 by exact Hne.
    destruct w as [c d]. eexists. split; [reflexivity|].
    cbn [loader fs]. repeat (split; [reflexivity|]).
    intros f l Hf Hb. unfold _load_links_config.
    cbv beta iota delta [bind ret gets modify when on_loader on_disk print
                           get_user_links_file].
    cbn [loader fs] in *.
    cbn [_current_links_path set_current_user_config_path
           set_current_links_path set_last_user_config_mod_time
           set_last_links_config_mod_time set_current_user].
    rewrite bool_decide_eq_true_2 by discriminate.
    cbn [loader fs]. cbn in Hf. cbn. rewrite Hf. cbn.
    rewrite Hb. eexists. repeat (split; [reflexivity|]). reflexivity.
Qed.

End LoaderFacts.

Lemma set_user_context_resets_and_forces_reload_witness :
  let w := Scenario.after (Scenario.visit "alice" ;; Scenario.visit "bob")
             Scenario.fresh in
  exists c1,
    Config.set_user_context (Some "alice") w = (Ok tt, World c1 (fs w))
    /\ _last_links_config_mod_time c1 = None
    /\ exists w2,
        Config._load_links_config (World c1 (fs w)) = (Ok tt, w2)
        /\ links_config (loader w2) = Scenario.alice_links
        /\ stdout (fs w2)
           = (stdout (fs w) ++ [LinksReloaded (Some "alice")])%list.
Proof.
  intros w.
  destruct (set_user_context_resets_and_forces_reload w (Some "alice"))
    as (_ & Hswitch).
  destruct Hswitch as (c1 & Hs & Hu & Hl & _ & _ & _ & _ & _ & _ & _ & _ & _ & Hr).
  - vm_compute. discriminate.
  - exists c1. split; [exact Hs|]. split; [exact Hl|].
    destruct (Hr (File 2 (Some Scenario.alice_links)) Scenario.alice_links)
      as (w2 & Hw2 & Hc & _ & Ho).
    + unfold Config.resolve_user. rewrite Hu. vm_compute. reflexivity.
    + reflexivity.
    + exists w2. auto.
Defined.

(** C6, counterexample.  [alice] is visited, then [bob], then [alice]
    again: the links file of [alice] has not changed, and the third visit
    reloads it all the same, where a second visit in a row does not. *)
Lemma reentering_a_user_reloads :
  let w3 := Scenario.after (Scenario.visit "alice" ;; Scenario.visit "bob" ;;
                            Scenario.visit "alice") Scenario.fresh in
  let w2 := Scenario.after (Scenario.visit "alice" ;; Scenario.visit "alice")
              Scenario.fresh in
  links_files (fs w3) = links_files (fs Scenario.fresh)
  /\ Scenario.links_reloads w3 = [Some "alice"; Some "bob"; Some "alice"]
  /\ Scenario.links_reloads w2 = [Some "alice"].
Proof. vm_compute. repeat split. Qed.

(** ** Creating a link *)

Section CreateFacts.
Import Config Links.

Variable users : list string.
Variable tokens : nat -> string.

(** A generated code is taken when some user's file holds it. *)
Local Abbreviation taken w i := (existsb (stored w (tokens i)) users).

Lemma generate_first_free (w : world) (fuel k i : nat) :
  (forall j, (j < k)%nat -> taken w (i + j)%nat = true) ->
  taken w (i + k)%nat = false ->
  (k <= fuel)%nat ->
  generate users tokens fuel i w = (Ok (Some (tokens (i + k)%nat, (i + k)%nat)), w).
Proof.
  revert fuel i. induction k as [|k IH]; intros fuel i Hbefore Hfree Hfuel.
  - rewrite Nat.add_0_r in *.
    destruct fuel; simpl; unfold bind, link_exists, gets;
      now rewrite Hfree.
  - destruct fuel as [|fuel]; [lia|]. simpl.
    unfold bind at 1. unfold link_exists, gets.
    specialize (Hbefore 0%nat ltac:(lia)) as H0.
    rewrite Nat.add_0_r in H0. rewrite H0. cbn [negb].
    replace (i + S k)%nat with (S i + k)%nat by lia.
    apply IH; [|replace (S i + k)%nat with (i + S k)%nat by lia; exact Hfree
               |lia].
    intros j Hj. replace (S i + j)%nat with (i + S j)%nat by lia.
    apply Hbefore. lia.
Qed.

Lemma generate_still_taken (w : world) (fuel i : nat) :
  (forall j, (j <= fuel)%nat -> taken w (i + j)%nat = true) ->
  generate users tokens fuel i w = (Ok None, w).
Proof.
  revert i. induction fuel as [|fuel IH]; intros i Htaken; simpl;
    unfold bind at 1; unfold link_exists, gets;
    specialize (Htaken 0%nat ltac:(lia)) as H0;
    rewrite Nat.add_0_r in H0; rewrite H0; cbn [negb]; [reflexivity|].
  apply IH. intros j Hj. replace (S i + j)%nat with (i + S j)%nat by lia.
  apply Htaken. lia.
Qed.

(** C9 (as amended).  The generation loop has no bound on its retries: it
    ends at the first generated code that no user's file holds, after as
    many regenerations as there are taken codes before it, and it does
    not end as long as the generated codes are taken. *)
Theorem generate_ends_at_first_free_code (w : world) (k : nat) :
  (forall j, (j < k)%nat -> taken w j = true) ->
  (taken w k = false ->
     forall fuel, (k <= fuel)%nat ->
       generate users tokens fuel 0 w = (Ok (Some (tokens k, k)), w))
  /\ (forall fuel, (fuel < k)%nat ->
        generate users tokens fuel 0 w = (Ok None, w)).
Proof.
  intros Hbefore. split.
  - intros Hfree fuel Hfuel.
    apply (generate_first_free w fuel k 0); auto.
  - intros fuel Hfuel. apply generate_still_taken.
    intros j Hj. apply Hbefore. simpl. lia.
Qed.


(** The type-specific part of [add_link] writes assets only. *)
Lemma link_of_form_frame (current_user code : string) (f : form)
    (data : link_data) (w w' : world) (r : outcome (link_data + string)) :
  link_of_form current_user code f data w = (r, w') ->
  loader w' = loader w
  /\ links_files (fs w') = links_files (fs w)
  /\ read_only (fs w') = read_only (fs w)
  /\ clock (fs w') = clock (fs w).
Proof.
  unfold link_of_form, store_asset.
  cbv beta iota delta [bind ret raise gets modify when on_loader on_disk
                         try get_user_assets_dir].
  destruct w as [c d]. cbn [loader fs].
  repeat match goal with
         | |- context [if ?b then _ else _] => destruct b
         | |- context [match f_content f with _ => _ end] =>
             destruct (f_content f)
         end;
    cbn; intros [= <- <-]; auto.
Qed.

(** What a successful creation does to the links files, when the links
    in memory are those of the file of the current user. *)
Lemma create_stores_one_code
    (w w2 : world) (u : string) (f : form) (code : string)
    (fl : file links) :
  current_user (loader w) = Some u ->
  Py.str_truthy u = true ->
  links_files (fs w) !! u = Some fl ->
  body fl = Some (links_config (loader w)) ->
  create users u f code w = (Ok (LinkCreated code), w2) ->
  current_user (loader w2) = Some u
  /\ existsb (stored w code) users = false
  /\ (forall v c, resolve_user (loader w) (Some v) <> u ->
        stored w2 c v = stored w c v)
  /\ (forall v c, resolve_user (loader w) (Some v) = u ->
        stored w2 c v = bool_decide (c = code) || stored w c v).
Proof.
  intros Hu Ht Hfl Hb. unfold create.
  destruct (negb (Py.str_truthy (Py.strip (f_link_type f))));
    [intros [=]|].
  destruct (ShortCode.validate_short_code code) as [[|] message]; cbn [negb];
    [|intros [=]].
  unfold bind at 1. unfold link_exists at 1, gets at 1.
  destruct (existsb (stored w code) users) eqn:Hfree; [intros [=]|].
  unfold bind at 1.
  match goal with
  | |- context [link_of_form u code f ?d w] =>
      destruct (link_of_form u code f d w) as [r w1] eqn:Hform
  end.
  apply link_of_form_frame in Hform as (Hc1 & Hl1 & Hro1 & Hck1).
  destruct r as [[new_link_data | message']|]; [| intros [=] | intros [=]].
  unfold save_links_config, write.
  cbv beta iota delta [bind ret raise gets modify when on_loader on_disk
                         try print get_user_links_file].
  destruct w1 as [c1 d1]. cbn [loader fs] in *. subst c1.
  destruct (read_only d1); cbn; [intros [=]|].
  intros [= <-]. cbn [loader fs].
  assert (Hres : resolve_user (loader w) None = u).
  { unfold resolve_user, Py.or_else. cbn. now rewrite Hu, Ht. }
  split; [now destruct (loader w)|].
  split; [reflexivity|].
  unfold stored, user_links. cbn [loader fs]. unfold resolve_user.
  cbn [set_last_links_config_mod_time set_links_config current_user
       links_files put_links_files].
  fold (resolve_user (loader w) None). rewrite Hres.
  split.
  - intros v c Hv. unfold resolve_user in Hv.
    rewrite lookup_insert_ne by (intros Heq; apply Hv; now rewrite <- Heq).
    now rewrite Hl1.
  - intros v c Hv. unfold resolve_user in Hv. rewrite Hv.
    rewrite lookup_insert_eq. cbn [body]. rewrite Hfl, Hb.
    destruct (decide (c = code)) as [->|Hne].
    + rewrite lookup_insert_eq, bool_decide_eq_true_2 by eauto.
      now rewrite bool_decide_eq_true_2.
    + rewrite lookup_insert_ne by congruence.
      now rewrite (bool_decide_eq_false_2 (c = code)).
Qed.

(** X26.  A successful creation keeps the short codes unique over the
    files of the users and of the current user, when the links in memory
    are those of the file of the current user. *)
Lemma create_keeps_codes_unique
    (w w2 : world) (u : string) (f : form) (code : string)
    (fl : file links) :
  current_user (loader w) = Some u ->
  Py.str_truthy u = true ->
  links_files (fs w) !! u = Some fl ->
  body fl = Some (links_config (loader w)) ->
  create users u f code w = (Ok (LinkCreated code), w2) ->
  unique_codes (u :: users) w ->
  unique_codes (u :: users) w2.
Proof.
  intros Hu Ht Hfl Hb Hc Huniq.
  destruct (create_stores_one_code w w2 u f code fl Hu Ht Hfl Hb Hc)
    as (Hu2 & Hfree & Hother & Hown).
  assert (Hres : forall v, resolve_user (loader w2) (Some v)
                           = resolve_user (loader w) (Some v)).
  { intros v. unfold resolve_user. now rewrite Hu, Hu2. }
  assert (Hself : resolve_user (loader w) (Some u) = u).
  { unfold resolve_user, Py.or_else, Py.opt_truthy. now rewrite !Ht. }
  assert (Hnew : forall v, v ∈ u :: users ->
             resolve_user (loader w) (Some v) <> u ->
             stored w code v = false).
  { intros v [->|Hv]%elem_of_cons Hne; [contradiction|].
    apply not_true_is_false. intros Hs.
    assert (existsb (stored w code) users = true); [|congruence].
    apply existsb_exists. exists v. split; [|exact Hs].
    now apply list_elem_of_In. }
  intros v1 v2 c H1 H2 Hs1 Hs2. rewrite !Hres.
  destruct (decide (resolve_user (loader w) (Some v1) = u)) as [E1|N1];
    destruct (decide (resolve_user (loader w) (Some v2) = u)) as [E2|N2].
  - congruence.
  - rewrite (Hother _ _ N2) in Hs2. rewrite (Hown _ _ E1) in Hs1.
    apply orb_true_iff in Hs1 as [Hs1|Hs1].
    + apply bool_decide_eq_true in Hs1. subst c.
      rewrite (Hnew _ H2 N2) in Hs2. discriminate.
    + now apply (Huniq v1 v2 c).
  - rewrite (Hother _ _ N1) in Hs1. rewrite (Hown _ _ E2) in Hs2.
    apply orb_true_iff in Hs2 as [Hs2|Hs2].
    + apply bool_decide_eq_true in Hs2. subst c.
      rewrite (Hnew _ H1 N1) in Hs1. discriminate.
    + now apply (Huniq v1 v2 c).
  - rewrite (Hother _ _ N1) in Hs1. rewrite (Hother _ _ N2) in Hs2.
    now apply (Huniq v1 v2 c).
Qed.

End CreateFacts.

Lemma generate_ends_at_first_free_code_witness :
  let w := Scenario.after (Scenario.visit "bob") Scenario.fresh in
  let tokens n := match n with 0%nat => "x" | 1%nat => "b1" | _ => "fresh" end in
  Links.generate ["alice"; "bob"] tokens 5 0 w = (Ok (Some ("fresh", 2%nat)), w)
  /\ Links.generate ["alice"; "bob"] tokens 1 0 w = (Ok None, w).
Proof.
  intros w tokens.
  destruct (generate_ends_at_first_free_code ["alice"; "bob"] tokens w 2)
    as (Hends & Hnot).
  - intros [|[|j]] Hj; [vm_compute; reflexivity | vm_compute; reflexivity | lia].
  - split.
    + apply Hends; [vm_compute; reflexivity | lia].
    + apply Hnot. lia.
Defined.

(** C9, counterexample.  No number of regenerations is enough for every
    state: when every generated code is a code that a user's file holds,
    the loop is still running after any number of them. *)
Lemma generate_has_no_retry_bound :
  ~ exists bound : nat,
      forall (users : list string) (tokens : nat -> string) (w : world),
      exists code n,
        (Links.generate users tokens bound 0 w).1 = Ok (Some (code, n)).
Proof.
  intros [bound Hbound].
  destruct (Hbound ["alice"] (fun _ => "x") Scenario.fresh) as (code & n & H).
  rewrite generate_still_taken in H; [discriminate|].
  intros j _. vm_compute. reflexivity.
Qed.

(** C1, at the failing input.  [alice] holds the link [x] and the links
    file of [bob] cannot be parsed.  After a request of [alice], [bob]
    creates the link [y]: the reload of his file fails, the links of
    [alice] stay in memory, and they are saved with [y] in the file of
    [bob].  The creation succeeds and [x] is now in both files. *)
Lemma add_link_duplicates_after_failed_reload :
  let w := Scenario.after (Scenario.visit "alice")
             (World Config.init (Scenario.disk_of None)) in
  let r := Links.add_link ["alice"; "bob"] (fun _ => "token") 0 (Some "bob")
             (Some (Scenario.redirect_form "y")) w in
  (Links.stored w "x" "alice" = true /\ Links.stored w "x" "bob" = false)
  /\ r.1 = Ok (Some (Links.LinkCreated "y"))
  /\ (Links.stored r.2 "x" "alice" = true /\ Links.stored r.2 "x" "bob" = true)
  /\ Links.stored r.2 "y" "bob" = true.
Proof. vm_compute. repeat split. Qed.

(** * Further properties of the account registry *)

Section UsersMore.
Import Users.

Variable _hash_password : string -> string.
Variable isoformat : Z -> string.

Local Abbreviation load := (_load_users_config isoformat).
Local Abbreviation authenticate := (authenticate_user _hash_password isoformat).

Lemma load_settled (s : state) : settled s -> load s = (Ok tt, s).
Proof.
  intros (f & Hf & Hl). unfold _load_users_config, bind, gets.
  rewrite Hf, Hl. rewrite bool_decide_eq_false_2; [reflexivity|].
  intros H. now apply H.
Qed.

(** A reload that leaves a non-empty table has read the file. *)
Lemma load_settles (s sa : state) (username : string) (d : user_data) :
  load s = (Ok tt, sa) ->
  users_config (manager sa) !! username = Some d ->
  settled sa.
Proof.
  unfold _load_users_config, _create_default_users_file,
    _create_user_directory, settled.
  cbv beta iota delta [bind ret raise gets modify set_users_config
                         set_last_mod_time].
  destruct s as [[u l] f a e ro t]; simpl.
  destruct f as [[mt b]|]; simpl.
  - case_bool_decide as Hm; [destruct b as [u'|]|]; simpl;
      intros [= <-]; simpl; intros Hd.
    + eexists. split; reflexivity.
    + now rewrite lookup_empty in Hd.
    + exists (File mt b). split; [reflexivity|]. simpl. now rewrite <- Hm.
  - destruct ro; simpl; [discriminate|]. intros [= <-]; simpl. intros _.
    eexists. split; reflexivity.
Qed.

(** [save_users_config] on a registry that can be written. *)
Lemma save_run (s : state) :
  cannot_write s = false ->
  save_users_config s
  = (Ok true,
     State (Manager (users_config (manager s)) (Some (time s)))
           (Some (File (time s) (Some (users_config (manager s)))))
           (areas s) (TRUNK8_ADMIN_PASSWORD s) false (time s)).
Proof.
  intros Hw. unfold save_users_config.
  cbv beta iota delta [bind ret gets modify set_last_mod_time].
  rewrite Hw. destruct s as [[u l] f a e ro t]; simpl in *. now subst.
Qed.

Lemma save_refused (s : state) :
  cannot_write s = true -> save_users_config s = (Ok false, s).
Proof.
  intros Hw. unfold save_users_config, bind, gets. now rewrite Hw.
Qed.

(** The steps of [create_user] for a name that is free. *)
Lemma create_user_fresh (s sa : state)
    (username password display_name : string) (admin : bool) :
  load s = (Ok tt, sa) ->
  users_config (manager sa) !! username = None ->
  let d := new_account _hash_password isoformat password display_name admin (time sa) in
  let u := <[username := d]> (users_config (manager sa)) in
  if cannot_write sa then
    create_user _hash_password isoformat username password display_name admin s
    = (Ok false,
       State (Manager u (_last_mod_time (manager sa))) (users_file sa)
             (areas sa) (TRUNK8_ADMIN_PASSWORD sa) true (time sa))
  else
    exists a,
      create_user _hash_password isoformat username password display_name
        admin s
      = (Ok true,
         State (Manager u (Some (time sa)))
               (Some (File (time sa) (Some u)))
               a (TRUNK8_ADMIN_PASSWORD sa) false (time sa))
      /\ exists l, a !! username
                   = Some (Area (Some l)
                             (if bool_decide (username <> "admin") then true
                              else match areas sa !! username with
                                   | Some x => area_config x
                                   | None => false
                                   end)
                             (match areas sa !! username with
                              | Some x => area_assets x
                              | None => []
                              end)
                             (match areas sa !! username with
                              | Some x => area_locked x
                              | None => false
                              end)).
Proof.
  intros Hl Hfree d u.
  assert (Hstart :
    create_user _hash_password isoformat username password display_name admin s
    = (let* saved := save_users_config in
       if saved then _create_user_directory username ;; ret true
       else ret false)
        (State (Manager u (_last_mod_time (manager sa))) (users_file sa)
               (areas sa) (TRUNK8_ADMIN_PASSWORD sa) (cannot_write sa)
               (time sa))).
  { unfold create_user. unfold bind at 1. rewrite Hl.
    unfold bind at 1. unfold gets at 1. rewrite Hfree.
    rewrite bool_decide_eq_false_2 by (intros [? ?]; discriminate).
    unfold bind at 1. unfold gets at 1. unfold bind at 1.
    unfold set_users_config at 1, modify at 1.
    now destruct sa as [[] ? ? ? ? ?]. }
  destruct (cannot_write sa) eqn:Hw.
  - rewrite Hstart. unfold bind. now rewrite save_refused.
  - eexists. split.
    + rewrite Hstart. unfold bind at 1. rewrite save_run by reflexivity.
      unfold _create_user_directory.
      cbv beta iota delta [bind ret raise gets modify]. cbn. reflexivity.
    + rewrite lookup_insert_eq.
      destruct (areas sa !! username) as [[[fl|] cfg assets locked]|]; simpl;
        eexists; reflexivity.
Qed.

Lemma new_account_lookup (password display_name : string) (admin : bool)
    (now : Z) :
  let d := new_account _hash_password isoformat password display_name admin now in
  d !! "password_hash" = Some (VStr (_hash_password password))
  /\ d !! "is_admin" = Some (VBool admin)
  /\ dict_truthy d = true.
Proof.
  cbv zeta. unfold new_account. split; [|split].
  - apply lookup_insert_eq.
  - rewrite lookup_insert_ne by discriminate. apply lookup_insert_eq.
  - apply dict_truthy_true, insert_non_empty.
Qed.

(** A stored credential that is the secret or its hash is accepted, and
    the returned record holds the hash. *)
Lemma authenticate_accepts (s s1 : state) (username password h : string)
    (d : user_data) :
  load s = (Ok tt, s1) ->
  users_config (manager s1) !! username = Some d ->
  username <> "admin" ->
  d !! "password_hash" = Some (VStr h) ->
  Py.str_truthy h = true ->
  h = password \/ h = _hash_password password ->
  (authenticate username password s).1
  = Ok (Some (<["password_hash" := VStr (_hash_password password)]> d)).
Proof.
  intros Hl Hd Hu Hh Ht Hor.
  rewrite (authenticate_after_load _hash_password isoformat _ _ _ _ Hl).
  assert (Hne : dict_truthy d = true).
  { apply dict_truthy_true. intros ->. now rewrite lookup_empty in Hh. }
  apply String.eqb_neq in Hu.
  unfold bind at 1. unfold gets at 1. rewrite Hd, Hne, Hu, Hh.
  cbn [truthy eq_str]. rewrite Ht. cbn [negb].
  destruct (String.eqb h password) eqn:He.
  - unfold bind at 1. unfold gets at 1. unfold bind at 1.
    unfold set_users_config at 1, modify at 1. unfold bind.
    match goal with
    | |- context [save_users_config ?x] =>
        destruct (cannot_write x) eqn:Hw;
        [rewrite (save_refused x Hw) | rewrite (save_run x Hw)]
    end; reflexivity.
  - destruct Hor as [Hor|Hor]; [apply String.eqb_neq in He; contradiction|].
    subst h. rewrite String.eqb_refl. simpl.
    rewrite insert_id; [reflexivity | exact Hh].
Qed.

(** A stored credential that is neither the secret nor its hash is
    refused, and the state is the one the reload leaves. *)
Lemma authenticate_refuses (s s1 : state) (username password h : string)
    (d : user_data) :
  load s = (Ok tt, s1) ->
  users_config (manager s1) !! username = Some d ->
  username <> "admin" ->
  d !! "password_hash" = Some (VStr h) ->
  h <> password ->
  h <> _hash_password password ->
  authenticate username password s = (Ok None, s1).
Proof.
  intros Hl Hd Hu Hh Hp Hq.
  rewrite (authenticate_after_load _hash_password isoformat _ _ _ _ Hl).
  apply String.eqb_neq in Hu, Hp, Hq.
  unfold bind at 1. unfold gets at 1. rewrite Hd, Hu, Hh.
  cbn [truthy eq_str]. rewrite Hp, Hq.
  destruct (dict_truthy d); [|reflexivity].
  now destruct (negb (Py.str_truthy h)).
Qed.

(** With no record under the name, [authenticate_user] refuses. *)
Lemma authenticate_unknown (s s1 : state) (username password : string) :
  load s = (Ok tt, s1) ->
  users_config (manager s1) !! username = None ->
  authenticate username password s = (Ok None, s1).
Proof.
  intros Hl Hd.
  rewrite (authenticate_after_load _hash_password isoformat _ _ _ _ Hl).
  unfold bind, gets. now rewrite Hd.
Qed.

(** X1.  An account that [create_user] has created on a registry that can
    be written is in the users file, and [authenticate_user] accepts it
    with the password it was created with. *)
Theorem create_user_then_authenticate
    (s sa : state) (username password display_name : string) (admin : bool) :
  load s = (Ok tt, sa) ->
  users_config (manager sa) !! username = None ->
  cannot_write sa = false ->
  username <> "admin" ->
  Py.str_truthy (_hash_password password) = true ->
  let d := new_account _hash_password isoformat password display_name admin
             (time sa) in
  exists s1,
    create_user _hash_password isoformat username password display_name admin s
    = (Ok true, s1)
    /\ users_file s1
       = Some (File (time sa)
                 (Some (<[username := d]> (users_config (manager sa)))))
    /\ (authenticate username password s1).1 = Ok (Some d).
Proof.
  intros Hl Hfree Hw Hu Ht d.
  pose proof (create_user_fresh s sa username password display_name admin
                Hl Hfree) as Hc.
  cbv zeta in Hc. rewrite Hw in Hc. destruct Hc as (a & Hc & _).
  eexists. split; [exact Hc|]. split; [reflexivity|].
  destruct (new_account_lookup password display_name admin (time sa))
    as (Hh & _ & _).
  match goal with
  | |- (authenticate _ _ ?x).1 = _ =>
      rewrite (authenticate_accepts x x username password
                 (_hash_password password) d)
  end.
  - fold d. now rewrite insert_id by exact Hh.
  - apply load_settled. eexists. split; reflexivity.
  - simpl. apply lookup_insert_eq.
  - exact Hu.
  - exact Hh.
  - exact Ht.
  - now right.
Qed.

Lemma create_user_refuses_taken
    (s sa : state) (username password display_name : string) (admin : bool) :
  load s = (Ok tt, sa) ->
  is_Some (users_config (manager sa) !! username) ->
  create_user _hash_password isoformat username password display_name admin s
  = (Ok false, sa).
Proof.
  intros Hl Hin. unfold create_user. unfold bind at 1. rewrite Hl.
  unfold bind, gets. now rewrite bool_decide_eq_true_2.
Qed.

(** X2.  [create_user] refuses a name that is in the table, the root
    account and an account with an empty record included: it returns
    [False] and the state is the one the reload leaves, so the record under
    that name is not replaced. *)
Theorem create_user_refuses_existing
    (s sa : state) (username password display_name : string) (admin : bool) :
  load s = (Ok tt, sa) ->
  is_Some (users_config (manager sa) !! username) ->
  create_user _hash_password isoformat username password display_name admin s
  = (Ok false, sa).
Proof.
  intros Hl Hin. now apply create_user_refuses_taken.
Qed.

(** X3.  On a registry that cannot be written, [create_user] returns
    [False] and the users file and the directories are as before, but the
    new account stays in the table of the manager, where
    [authenticate_user] accepts it. *)
Theorem create_user_unwritable_keeps_account
    (s sa : state) (username password display_name : string) (admin : bool)
    (f : file users) :
  load s = (Ok tt, sa) ->
  users_file sa = Some f ->
  _last_mod_time (manager sa) = Some (mtime f) ->
  users_config (manager sa) !! username = None ->
  cannot_write sa = true ->
  username <> "admin" ->
  Py.str_truthy (_hash_password password) = true ->
  let d := new_account _hash_password isoformat password display_name admin
             (time sa) in
  exists s1,
    create_user _hash_password isoformat username password display_name admin s
    = (Ok false, s1)
    /\ users_file s1 = users_file sa
    /\ areas s1 = areas sa
    /\ users_config (manager s1) !! username = Some d
    /\ (authenticate username password s1).1 = Ok (Some d).
Proof.
  intros Hl Hf Hlast Hfree Hw Hu Ht d.
  pose proof (create_user_fresh s sa username password display_name admin
                Hl Hfree) as Hc.
  cbv zeta in Hc. rewrite Hw in Hc.
  eexists. split; [exact Hc|]. split; [reflexivity|]. split; [reflexivity|].
  split; [apply lookup_insert_eq|].
  destruct (new_account_lookup password display_name admin (time sa))
    as (Hh & _ & _).
  match goal with
  | |- (authenticate _ _ ?x).1 = _ =>
      rewrite (authenticate_accepts x x username password
                 (_hash_password password) d)
  end.
  - fold d. now rewrite insert_id by exact Hh.
  - apply load_settled. exists f. split; [exact Hf | exact Hlast].
  - simpl. apply lookup_insert_eq.
  - exact Hu.
  - exact Hh.
  - exact Ht.
  - now right.
Qed.

(** The steps of [change_password] for a name that is in the table. *)
Lemma change_password_run (s sa : state) (username new_password : string)
    (d : user_data) :
  load s = (Ok tt, sa) ->
  users_config (manager sa) !! username = Some d ->
  let d' := <["password_hash" := VStr (_hash_password new_password)]> d in
  let u := <[username := d']> (users_config (manager sa)) in
  exists s1,
    change_password _hash_password isoformat username new_password s
    = (Ok (negb (cannot_write sa)), s1)
    /\ users_config (manager s1) = u
    /\ TRUNK8_ADMIN_PASSWORD s1 = TRUNK8_ADMIN_PASSWORD sa
    /\ settled s1
    /\ (cannot_write sa = false ->
        users_file s1 = Some (File (time sa) (Some u))).
Proof.
  intros Hl Hd d' u. destruct (load_settles _ _ _ _ Hl Hd) as (f & Hf & Hlast).
  unfold change_password. unfold bind at 1. rewrite Hl.
  unfold bind at 1. unfold gets at 1. rewrite Hd.
  unfold set_users_config at 1, modify at 1. unfold bind at 1.
  fold d'. fold u.
  destruct (cannot_write sa) eqn:Hw.
  - rewrite save_refused by exact Hw. eexists. split; [reflexivity|].
    split; [reflexivity|]. split; [reflexivity|].
    split; [|discriminate]. exists f. simpl. auto.
  - rewrite save_run by exact Hw. eexists. split; [reflexivity|].
    split; [reflexivity|]. split; [reflexivity|].
    split; [|reflexivity]. eexists. simpl. split; reflexivity.
Qed.

(** X4.  [change_password] returns [False] for a name that is not in the
    table and changes nothing.  For an account other than the root
    account it stores the hash of the new password: afterwards
    [authenticate_user] accepts the new password, and it refuses every
    other password that is neither the new hash itself nor a password with
    the same hash. *)
Theorem change_password_then_authenticate
    (s sa : state) (username new_password : string) :
  load s = (Ok tt, sa) ->
  (users_config (manager sa) !! username = None ->
     change_password _hash_password isoformat username new_password s
     = (Ok false, sa))
  /\ (forall d : user_data,
        users_config (manager sa) !! username = Some d ->
        username <> "admin" ->
        Py.str_truthy (_hash_password new_password) = true ->
        exists s1,
          change_password _hash_password isoformat username new_password s
          = (Ok (negb (cannot_write sa)), s1)
          /\ (authenticate username new_password s1).1
             = Ok (Some (<["password_hash" := VStr (_hash_password new_password)]> d))
          /\ (forall old : string,
                old <> _hash_password new_password ->
                _hash_password old <> _hash_password new_password ->
                (authenticate username old s1).1 = Ok None)).
Proof.
  intros Hl. split.
  - intros Hnone. unfold change_password. unfold bind at 1. rewrite Hl.
    unfold bind, gets. now rewrite Hnone.
  - intros d Hd Hu Ht.
    destruct (change_password_run s sa username new_password d Hl Hd)
      as (s1 & Hrun & Hcfg & _ & Hset & _).
    exists s1. split; [exact Hrun|].
    pose proof (load_settled s1 Hset) as Hl1.
    assert (Hd1 : users_config (manager s1) !! username
                  = Some (<["password_hash" := VStr (_hash_password new_password)]> d)).
    { rewrite Hcfg. apply lookup_insert_eq. }
    split.
    + rewrite (authenticate_accepts s1 s1 username new_password
                 (_hash_password new_password) _ Hl1 Hd1 Hu).
      * now rewrite insert_insert_eq.
      * apply lookup_insert_eq.
      * exact Ht.
      * now right.
    + intros old Ho Hh.
      rewrite (authenticate_refuses s1 s1 username old
                 (_hash_password new_password) _ Hl1 Hd1 Hu).
      * reflexivity.
      * apply lookup_insert_eq.
      * congruence.
      * congruence.
Qed.

(** X5.  [change_password] for the root account stores a hash in its
    record, and the authentication of the root account is as before: it
    accepts exactly the secret of the environment, whatever the new
    password is. *)
Theorem change_password_of_admin_is_ignored
    (s sa : state) (new_password : string) (d : user_data) :
  load s = (Ok tt, sa) ->
  users_config (manager sa) !! "admin" = Some d ->
  exists s1,
    change_password _hash_password isoformat "admin" new_password s
    = (Ok (negb (cannot_write sa)), s1)
    /\ users_config (manager s1) !! "admin"
       = Some (<["password_hash" := VStr (_hash_password new_password)]> d)
    /\ forall password : string,
        (authenticate "admin" password s1).1
        = Ok (if String.eqb password
                   (default "admin" (TRUNK8_ADMIN_PASSWORD s))
              then Some (<["password_hash" := VStr (_hash_password new_password)]> d)
              else None).
Proof.
  intros Hl Hd.
  destruct (change_password_run s sa "admin" new_password d Hl Hd)
    as (s1 & Hrun & Hcfg & Henv & Hset & _).
  exists s1. split; [exact Hrun|].
  assert (Hd1 : users_config (manager s1) !! "admin"
                = Some (<["password_hash" := VStr (_hash_password new_password)]> d)).
  { rewrite Hcfg. apply lookup_insert_eq. }
  split; [exact Hd1|]. intros password.
  rewrite (authenticate_after_load _hash_password isoformat s1 s1 "admin"
             password (load_settled s1 Hset)).
  unfold bind, gets. rewrite Hd1, insert_truthy. simpl.
  destruct (load_frame isoformat _ _ _ Hl) as (Henv0 & _).
  rewrite Henv, Henv0.
  now destruct (String.eqb password _).
Qed.

(** The steps of a [delete_user] whose preconditions hold, on a registry
    that can be written. *)
Lemma delete_user_run (s sa : state) (username requesting_user : string) :
  load s = (Ok tt, sa) ->
  privileged (users_config (manager sa)) requesting_user = true ->
  username <> "admin" ->
  is_Some (users_config (manager sa) !! username) ->
  cannot_write sa = false ->
  exists a,
    delete_user isoformat username requesting_user s
    = (Ok true,
       State (Manager (delete username (users_config (manager sa)))
                      (Some (time sa)))
             (Some (File (time sa)
                      (Some (delete username (users_config (manager sa))))))
             a (TRUNK8_ADMIN_PASSWORD sa) false (time sa)).
Proof.
  intros Hl Hp Hu Hin Hw. apply String.eqb_neq in Hu.
  unfold delete_user. unfold bind at 1.
  rewrite (is_admin_run isoformat _ _ requesting_user Hl), Hp. cbn [negb].
  rewrite Hu. unfold bind at 1. rewrite (load_again isoformat _ _ Hl).
  unfold bind at 1. unfold gets at 1.
  rewrite bool_decide_eq_true_2 by exact Hin. cbn [negb].
  unfold _cleanup_user_data.
  cbv beta iota delta [bind ret gets modify set_users_config].
  destruct sa as [[ua la] fa aa ea roa ta]; simpl in *. subst roa.
  destruct (aa !! username) as [a|]; simpl.
  - destruct (area_locked a); simpl; rewrite save_run by reflexivity;
      eexists; reflexivity.
  - rewrite save_run by reflexivity. eexists; reflexivity.
Qed.

(** X6.  After a [delete_user] that returned [True], the account is
    gone: [get_user] finds nothing under its name and
    [authenticate_user] refuses every password for it, while the records
    of the other accounts are the ones that were there. *)
Theorem delete_user_then_unknown
    (s sa : state) (username requesting_user : string) :
  load s = (Ok tt, sa) ->
  privileged (users_config (manager sa)) requesting_user = true ->
  username <> "admin" ->
  is_Some (users_config (manager sa) !! username) ->
  cannot_write sa = false ->
  exists s1,
    delete_user isoformat username requesting_user s = (Ok true, s1)
    /\ get_user isoformat username s1 = (Ok None, s1)
    /\ (forall password, authenticate username password s1 = (Ok None, s1))
    /\ (forall other, other <> username ->
          get_user isoformat other s1
          = (Ok (users_config (manager sa) !! other), s1)).
Proof.
  intros Hl Hp Hu Hin Hw.
  destruct (delete_user_run s sa username requesting_user Hl Hp Hu Hin Hw)
    as (a & Hrun).
  eexists. split; [exact Hrun|].
  match goal with
  | |- get_user _ _ ?x = _ /\ _ =>
      assert (Hl1 : load x = (Ok tt, x))
        by (apply load_settled; eexists; split; reflexivity)
  end.
  split; [|split].
  - unfold get_user, bind. rewrite Hl1. unfold gets. simpl.
    now rewrite lookup_delete_eq.
  - intros password. apply authenticate_unknown; [exact Hl1|].
    simpl. apply lookup_delete_eq.
  - intros other Ho. unfold get_user, bind. rewrite Hl1. unfold gets. simpl.
    now rewrite lookup_delete_ne by congruence.
Qed.

Lemma walk_assets_spec (files : list (option Z)) (count : nat) (bytes : Z) :
  walk_assets files count bytes
  = ((count + length (omap id files))%nat,
     bytes + foldr Z.add 0 (omap id files)).
Proof.
  unfold omap. revert count bytes.
  induction files as [|[n|] files IH]; intros count bytes; simpl.
  - apply pair_equal_spec. split; lia.
  - rewrite IH. apply pair_equal_spec. split; lia.
  - apply IH.
Qed.

(** X7.  [get_user_deletion_preview] gives nothing for a name without a
    record (or with an empty one).  For an account it leaves the state of
    the reload, and the numbers of links and of files and the number of
    bytes it reports are the ones [_cleanup_user_data] reports when it is
    run on that state. *)
Theorem preview_matches_cleanup (s sa : state) (username : string) :
  load s = (Ok tt, sa) ->
  (users_config (manager sa) !! username = None
   \/ users_config (manager sa) !! username = Some ∅ ->
     get_user_deletion_preview isoformat username s = (Ok None, sa))
  /\ (forall d, users_config (manager sa) !! username = Some d -> d <> ∅ ->
        exists p,
          get_user_deletion_preview isoformat username s = (Ok (Some p), sa)
          /\ forall ok st s',
              _cleanup_user_data username sa = (Ok (ok, st), s') ->
              links_deleted st = links_count p
              /\ files_deleted st = files_count p
              /\ total_size_freed st = total_size p).
Proof.
  intros Hl. split.
  - intros Hno. unfold get_user_deletion_preview, get_user.
    unfold bind at 1. unfold bind at 1. rewrite Hl. unfold gets at 1.
    destruct Hno as [-> | ->]; reflexivity.
  - intros d Hd Hne. unfold get_user_deletion_preview, get_user.
    unfold bind at 1. unfold bind at 1. rewrite Hl. unfold gets at 1.
    rewrite Hd, (dict_truthy_true _ Hne). cbn [negb].
    unfold _cleanup_user_data, count_area. unfold bind, gets, ret, modify.
    destruct (areas sa !! username) as [a|].
    + rewrite walk_assets_spec. eexists. split; [reflexivity|].
      intros ok st s'. destruct (area_locked a); intros [= <- <- <-]; simpl;
        repeat split; lia.
    + eexists. split; [reflexivity|].
      intros ok st s' [= <- <- <-]. simpl. auto.
Qed.

(** X8.  When there is no users file and the registry can be written, the
    reload creates it with the single account [admin], which is privileged
    and has no stored credential, and creates the directory of [admin]
    with a links file; the root account then authenticates with the secret
    of the environment.  When the registry cannot be written the reload
    raises. *)
Theorem bootstrap_creates_admin (s : state) :
  users_file s = None ->
  (cannot_write s = true -> load s = (Raise, s))
  /\ (cannot_write s = false ->
      exists s1 d,
        load s = (Ok tt, s1)
        /\ users_config (manager s1) = {[ "admin" := d ]}
        /\ d !! "password_hash" = None
        /\ privileged (users_config (manager s1)) "admin" = true
        /\ users_file s1 = Some (File (time s) (Some {[ "admin" := d ]}))
        /\ (exists a l, areas s1 !! "admin" = Some a
                        /\ area_links a = Some l)
        /\ forall password,
            (authenticate "admin" password s).1
            = Ok (if String.eqb password
                       (default "admin" (TRUNK8_ADMIN_PASSWORD s))
                  then Some d else None)).
Proof.
  intros Hf. split.
  - intros Hw. unfold _load_users_config, _create_default_users_file.
    unfold bind, gets. now rewrite Hf, Hw.
  - intros Hw.
    assert (Hload : exists s1,
               load s = (Ok tt, s1)
               /\ users_config (manager s1)
                  = {[ "admin" := {[ "is_admin" := VBool true;
                                     "display_name" := VStr "Administrator";
                                     "created_at" := VStr (isoformat (time s)) ]} ]}
               /\ users_file s1
                  = Some (File (time s)
                            (Some {[ "admin" := {[ "is_admin" := VBool true;
                                       "display_name" := VStr "Administrator";
                                       "created_at" := VStr (isoformat (time s)) ]} ]}))
               /\ (exists a l, areas s1 !! "admin" = Some a
                               /\ area_links a = Some l)
               /\ TRUNK8_ADMIN_PASSWORD s1 = TRUNK8_ADMIN_PASSWORD s).
    { unfold _load_users_config, _create_default_users_file,
        _create_user_directory.
      cbv beta iota delta [bind ret raise gets modify set_users_config
                             set_last_mod_time].
      destruct s as [[u l] f a e ro t]; simpl in *. subst f ro. simpl.
      eexists. split; [reflexivity|]. simpl.
      split; [reflexivity|]. split; [reflexivity|]. split; [|reflexivity].
      rewrite lookup_insert_eq.
      destruct (a !! "admin") as [[[fl|] ? ? ?]|]; simpl;
        eexists; eexists; split; reflexivity. }
    destruct Hload as (s1 & Hl & Hcfg & Hfile & Harea & Henv).
    eexists. eexists. split; [exact Hl|]. split; [exact Hcfg|].
    split; [reflexivity|]. split.
    { unfold privileged. rewrite Hcfg, lookup_singleton_eq.
      rewrite dict_truthy_true by apply insert_non_empty. reflexivity. }
    split; [exact Hfile|]. split; [exact Harea|].
    intros password.
    rewrite (authenticate_after_load _hash_password isoformat _ _ _ _ Hl).
    unfold bind, gets. rewrite Hcfg, lookup_singleton_eq.
    rewrite dict_truthy_true by apply insert_non_empty. simpl.
    rewrite Henv. now destruct (String.eqb password _).
Qed.

(** X9.  When the users file cannot be parsed and its modification time
    is not the one the manager has seen, the table of the manager becomes
    empty and the file is left as it is: [authenticate_user] refuses every
    name and every password, the root account with the secret of the
    environment included, and nobody is privileged. *)
Theorem unreadable_users_file_fails_closed (s : state) (f : file users) :
  users_file s = Some f ->
  body f = None ->
  _last_mod_time (manager s) <> Some (mtime f) ->
  exists s1,
    load s = (Ok tt, s1)
    /\ users_config (manager s1) = ∅
    /\ users_file s1 = Some f
    /\ (forall username password,
          authenticate username password s = (Ok None, s1))
    /\ (forall username, is_admin isoformat username s = (Ok false, s1))
    /\ (forall username requesting_user,
          delete_user isoformat username requesting_user s = (Ok false, s1)).
Proof.
  intros Hf Hb Hm.
  assert (Hl : load s
               = (Ok tt, put_manager (Manager ∅ (_last_mod_time (manager s))) s)).
  { unfold _load_users_config, bind, gets. rewrite Hf.
    rewrite bool_decide_eq_true_2 by congruence. now rewrite Hb. }
  eexists. split; [exact Hl|]. split; [reflexivity|].
  split; [now destruct s|].
  assert (Hadm : forall username,
             is_admin isoformat username s
             = (Ok false, put_manager (Manager ∅ (_last_mod_time (manager s))) s)).
  { intros username. rewrite (is_admin_run isoformat _ _ username Hl).
    unfold privileged. simpl. now rewrite lookup_empty. }
  split; [|split].
  - intros username password. apply authenticate_unknown; [exact Hl|].
    simpl. apply lookup_empty.
  - exact Hadm.
  - intros username requesting_user. unfold delete_user, bind.
    now rewrite Hadm.
Qed.

End UsersMore.

(** ** The account registry on concrete states, continued *)

Lemma create_user_then_authenticate_witness :
  exists s1,
    Users.create_user Scenario.hash Scenario.iso "carol" "pass1234" "Carol"
      false (Scenario.usual false) = (Ok true, s1)
    /\ (Users.authenticate_user Scenario.hash Scenario.iso "carol" "pass1234"
          s1).1
       = Ok (Some (Users.new_account Scenario.hash Scenario.iso "pass1234"
                     "Carol" false 20)).
Proof.
  destruct (create_user_then_authenticate Scenario.hash Scenario.iso
              (Scenario.usual false) (Scenario.loaded (Scenario.usual false))
              "carol" "pass1234" "Carol" false) as (s1 & Hc & _ & Ha).
  - vm_compute. reflexivity.
  - vm_compute. reflexivity.
  - reflexivity.
  - discriminate.
  - reflexivity.
  - exists s1. split; [exact Hc | exact Ha].
Defined.

Lemma create_user_refuses_existing_witness :
  Users.create_user Scenario.hash Scenario.iso "bob" "other" "Robert" true
    (Scenario.usual false)
  = (Ok false, Scenario.loaded (Scenario.usual false)).
Proof.
  apply (create_user_refuses_existing Scenario.hash Scenario.iso
           (Scenario.usual false)).
  - vm_compute. reflexivity.
  - vm_compute. eexists. reflexivity.
Defined.

Lemma create_user_unwritable_keeps_account_witness :
  exists s1,
    Users.create_user Scenario.hash Scenario.iso "carol" "pass1234" "Carol"
      false (Scenario.usual true) = (Ok false, s1)
    /\ Users.users_file s1 = Users.users_file (Scenario.usual true)
    /\ (Users.authenticate_user Scenario.hash Scenario.iso "carol" "pass1234"
          s1).1
       = Ok (Some (Users.new_account Scenario.hash Scenario.iso "pass1234"
                     "Carol" false 20)).
Proof.
  destruct (create_user_unwritable_keeps_account Scenario.hash Scenario.iso
              (Scenario.usual true) (Scenario.loaded (Scenario.usual true))
              "carol" "pass1234" "Carol" false
              (File 10 (Some {[ "admin" := Scenario.administrator;
                                "bob" := Scenario.bob_plaintext ]})))
    as (s1 & Hc & Hf & _ & _ & Ha).
  - vm_compute. reflexivity.
  - vm_compute. reflexivity.
  - vm_compute. reflexivity.
  - vm_compute. reflexivity.
  - reflexivity.
  - discriminate.
  - reflexivity.
  - exists s1. split; [exact Hc|]. split; [exact Hf | exact Ha].
Defined.

Lemma change_password_then_authenticate_witness :
  exists s1,
    Users.change_password Scenario.hash Scenario.iso "bob" "correct horse"
      (Scenario.usual false) = (Ok true, s1)
    /\ (Users.authenticate_user Scenario.hash Scenario.iso "bob" "hunter2" s1).1
       = Ok None.
Proof.
  destruct (change_password_then_authenticate Scenario.hash Scenario.iso
              (Scenario.usual false) (Scenario.loaded (Scenario.usual false))
              "bob" "correct horse") as (_ & Hknown).
  - vm_compute. reflexivity.
  - destruct (Hknown Scenario.bob_plaintext) as (s1 & Hc & _ & Hold).
    + vm_compute. reflexivity.
    + discriminate.
    + reflexivity.
    + exists s1. split; [exact Hc|]. apply Hold; discriminate.
Defined.

Lemma change_password_of_admin_is_ignored_witness :
  exists s1,
    Users.change_password Scenario.hash Scenario.iso "admin" "letmein"
      (Scenario.usual false) = (Ok true, s1)
    /\ (Users.authenticate_user Scenario.hash Scenario.iso "admin" "letmein"
          s1).1 = Ok None.
Proof.
  destruct (change_password_of_admin_is_ignored Scenario.hash Scenario.iso
              (Scenario.usual false) (Scenario.loaded (Scenario.usual false))
              "letmein" Scenario.administrator) as (s1 & Hc & _ & Ha).
  - vm_compute. reflexivity.
  - vm_compute. reflexivity.
  - exists s1. split; [exact Hc|]. rewrite Ha. reflexivity.
Defined.

Lemma delete_user_then_unknown_witness :
  exists s1,
    Users.delete_user Scenario.iso "bob" "admin" (Scenario.usual false)
    = (Ok true, s1)
    /\ Users.authenticate_user Scenario.hash Scenario.iso "bob" "hunter2" s1
       = (Ok None, s1).
Proof.
  destruct (delete_user_then_unknown Scenario.hash Scenario.iso
              (Scenario.usual false) (Scenario.loaded (Scenario.usual false))
              "bob" "admin") as (s1 & Hd & _ & Ha & _).
  - vm_compute. reflexivity.
  - vm_compute. reflexivity.
  - discriminate.
  - vm_compute. eexists. reflexivity.
  - reflexivity.
  - exists s1. split; [exact Hd | apply Ha].
Defined.

Lemma preview_matches_cleanup_witness :
  exists p,
    Users.get_user_deletion_preview Scenario.iso "bob" (Scenario.usual false)
    = (Ok (Some p), Scenario.loaded (Scenario.usual false))
    /\ Users.files_count p = 1%nat /\ Users.total_size p = 120.
Proof.
  destruct (preview_matches_cleanup Scenario.iso (Scenario.usual false)
              (Scenario.loaded (Scenario.usual false)) "bob") as (_ & Hp).
  - vm_compute. reflexivity.
  - destruct (Hp Scenario.bob_plaintext) as (p & Hrun & Hsame).
    + vm_compute. reflexivity.
    + apply insert_non_empty.
    + exists p. split; [exact Hrun|].
      destruct (Hsame false (Users.Stats 0 1 0 120)
                  (Scenario.loaded (Scenario.usual false)))
        as (_ & <- & <-).
      * vm_compute. reflexivity.
      * split; reflexivity.
Defined.

Lemma bootstrap_creates_admin_witness :
  Users._load_users_config Scenario.iso (Scenario.no_registry true)
  = (Raise, Scenario.no_registry true)
  /\ (Users.authenticate_user Scenario.hash Scenario.iso "admin" "s3cret"
        (Scenario.no_registry false)).1
     <> Ok None.
Proof.
  destruct (bootstrap_creates_admin Scenario.hash Scenario.iso
              (Scenario.no_registry true) eq_refl) as (Hraise & _).
  destruct (bootstrap_creates_admin Scenario.hash Scenario.iso
              (Scenario.no_registry false) eq_refl) as (_ & Hboot).
  split; [apply Hraise; reflexivity|].
  destruct (Hboot eq_refl) as (s1 & d & _ & _ & _ & _ & _ & _ & Ha).
  rewrite Ha. discriminate.
Defined.

Lemma unreadable_users_file_fails_closed_witness :
  exists s1,
    Users.authenticate_user Scenario.hash Scenario.iso "admin" "s3cret"
      Scenario.corrupt_registry = (Ok None, s1)
    /\ Users.users_file s1 = Some (File 10 None).
Proof.
  destruct (unreadable_users_file_fails_closed Scenario.hash Scenario.iso
              Scenario.corrupt_registry (File 10 None))
    as (s1 & _ & _ & Hf & Ha & _).
  - reflexivity.
  - reflexivity.
  - discriminate.
  - exists s1. split; [apply Ha | exact Hf].
Defined.

(** * Logging in and registering *)

Section AuthFacts.
Import Users.

Variable _hash_password : string -> string.
Variable isoformat : Z -> string.
Variable title : string -> string.

Local Abbreviation load := (_load_users_config isoformat).
Local Abbreviation login := (Auth.login _hash_password isoformat).
Local Abbreviation register := (Auth.register _hash_password isoformat title).

Lemma In_remove (c x : ascii) (s : string) :
  In x (list_ascii_of_string (Auth.remove c s))
  <-> In x (list_ascii_of_string s) /\ x <> c.
Proof.
  induction s as [|y s IH]; simpl; [tauto|].
  destruct (Ascii.eqb y c) eqn:E.
  - apply Ascii.eqb_eq in E. subst y. rewrite IH. split.
    + intros [? ?]. auto.
    + intros [[<-|?] ?]; [contradiction | auto].
  - apply Ascii.eqb_neq in E. simpl. rewrite IH. split.
    + intros [<-|[? ?]]; auto.
    + intros [[<-|?] ?]; auto.
Qed.

Lemma str_truthy_In (s : string) :
  Py.str_truthy s = true <-> exists c, In c (list_ascii_of_string s).
Proof.
  destruct s as [|c s]; simpl; split.
  - discriminate.
  - intros [c []].
  - intros _. exists c. now left.
  - reflexivity.
Qed.

(** What the test on the characters of a user name accepts. *)
Lemma username_charset (u : string) :
  Auth.isalnum (Auth.remove "-" (Auth.remove "_" u)) = true
  <-> (forall c, In c (list_ascii_of_string u) ->
         Py.isalnum c = true \/ c = "-"%char \/ c = "_"%char)
      /\ (exists c, In c (list_ascii_of_string u) /\ Py.isalnum c = true).
Proof.
  unfold Auth.isalnum. rewrite andb_true_iff, str_truthy_In, all_spec.
  split.
  - intros [[c Hc] Hall]. split.
    + intros x Hx.
      destruct (ascii_dec x "_") as [->|N1]; [auto|].
      destruct (ascii_dec x "-") as [->|N2]; [auto|].
      left. apply Hall. apply In_remove. split; [|exact N2].
      apply In_remove. auto.
    + exists c. split; [|now apply Hall].
      apply In_remove in Hc as [Hc _]. now apply In_remove in Hc as [Hc _].
  - intros [Hall (c & Hc & Ha)].
    assert (Hne : forall x, Py.isalnum x = true -> x <> "-"%char /\ x <> "_"%char).
    { intros x Hx. split; intros ->; vm_compute in Hx; discriminate. }
    split.
    + exists c. destruct (Hne c Ha). apply In_remove. split; [|assumption].
      apply In_remove. auto.
    + intros x Hx. apply In_remove in Hx as [Hx N2].
      apply In_remove in Hx as [Hx N1].
      destruct (Hall x Hx) as [?|[?|?]]; [assumption | contradiction..].
Qed.

(** A [create_user] that returned [True] found the name free on a
    registry that can be written. *)
Lemma create_user_true
    (s s1 : state) (username password display_name : string) (admin : bool) :
  create_user _hash_password isoformat username password display_name admin s
  = (Ok true, s1) ->
  exists sa,
    load s = (Ok tt, sa)
    /\ users_config (manager sa) !! username = None
    /\ cannot_write sa = false.
Proof.
  intros Hc. destruct (load s) as [[[]|] sa] eqn:Hl.
  2:{ unfold create_user in Hc. unfold bind at 1 in Hc. rewrite Hl in Hc.
      discriminate. }
  exists sa. split; [reflexivity|].
  destruct (users_config (manager sa) !! username) as [d|] eqn:Hd.
  { rewrite (create_user_refuses_taken _hash_password isoformat s sa) in Hc;
      [discriminate | exact Hl | eauto]. }
  split; [reflexivity|].
  pose proof (create_user_fresh _hash_password isoformat s sa username password
                display_name admin Hl Hd) as Hf.
  cbv zeta in Hf. destruct (cannot_write sa); [|reflexivity].
  rewrite Hf in Hc. discriminate.
Qed.

(** X10.  When the users file cannot be parsed (and has not been seen with
    that modification time), a login with a user name is refused for every
    name and password and the session is left alone, while a login with a
    blank user name and the secret of the environment gives an
    administrator session without reading the users file. *)
Theorem login_with_unreadable_users_file
    (st : state) (f : file users) (form_password : string)
    (remember : option string) (s : Auth.session) :
  users_file st = Some f ->
  body f = None ->
  _last_mod_time (manager st) <> Some (mtime f) ->
  Py.str_truthy (Py.strip form_password) = true ->
  (forall form_username,
      Py.str_truthy (Py.strip form_username) = true ->
      (login form_username form_password remember s st).1
      = Ok (Auth.LoginFailed "Invalid username or password.", s))
  /\ (forall form_username,
        Py.str_truthy (Py.strip form_username) = false ->
        Py.strip form_password = default "admin" (TRUNK8_ADMIN_PASSWORD st) ->
        login form_username form_password remember s st
        = (Ok (Auth.LoggedIn,
               Auth.log_in "admin" (VBool true) (VStr "Administrator")
                 remember s), st)).
Proof.
  intros Hf Hb Hm Hp. split.
  - intros form_username Hu. unfold Auth.login. rewrite Hp, Hu. cbn [negb].
    unfold bind.
    rewrite (authenticate_unknown _hash_password isoformat st
               (put_manager (Manager ∅ (_last_mod_time (manager st))) st)).
    + reflexivity.
    + unfold _load_users_config, bind, gets. rewrite Hf.
      rewrite bool_decide_eq_true_2 by congruence. now rewrite Hb.
    + simpl. apply lookup_empty.
  - intros form_username Hu He. unfold Auth.login. rewrite Hp, Hu. cbn [negb].
    unfold bind, gets. rewrite He, String.eqb_refl. reflexivity.
Qed.

(** X11.  An account that [register] has created can log in: after a
    registration that succeeded for a name other than [admin], a login with
    the same form values succeeds, and the session it gives is for that
    name, with the privilege the form asked for, and reads no other user's
    context. *)
Theorem register_then_login
    (st st1 : state) (s : Auth.session) (name : string)
    (form_username form_password form_confirm form_display_name : string)
    (form_is_admin remember : option string) :
  register s form_username form_password form_confirm form_display_name
    form_is_admin st = (Ok (Auth.Registered name), st1) ->
  name <> "admin" ->
  Py.str_truthy (_hash_password (Py.strip form_password)) = true ->
  name = Py.strip form_username
  /\ exists s',
      (login form_username form_password remember Auth.anonymous st1).1
      = Ok (Auth.LoggedIn, s')
      /\ Auth.username s' = Some name
      /\ Auth.is_admin s' = Some (VBool (bool_decide (form_is_admin = Some "on")))
      /\ Auth.get_current_user s' = Some name.
Proof.
  unfold Auth.register.
  destruct (negb (Auth.authenticated s) || _); [intros [=]|].
  destruct (negb (Py.str_truthy (Py.strip form_username))) eqn:Hu;
    [intros [=]|].
  destruct (negb (Py.str_truthy (Py.strip form_password))) eqn:Hp;
    [intros [=]|].
  destruct (negb (String.eqb _ _)); [intros [=]|].
  destruct (String.length (Py.strip form_username) <? 3)%nat; [intros [=]|].
  destruct (String.length (Py.strip form_password) <? 4)%nat; [intros [=]|].
  destruct (negb (Auth.isalnum _)); [intros [=]|].
  apply negb_false_iff in Hu, Hp.
  unfold bind at 1.
  match goal with
  | |- context [create_user _ _ _ _ ?dn ?ad st] =>
      set (display := dn); set (admin := ad);
      destruct (create_user _hash_password isoformat
                  (Py.strip form_username) (Py.strip form_password)
                  display admin st) as [[[|]|] st'] eqn:Hc
  end; [|intros [=]|intros [=]].
  intros [= <- <-] Hname Hh. split; [reflexivity|].
  destruct (create_user_true _ _ _ _ _ _ Hc) as (sa & Hl & Hfree & Hw).
  pose proof (create_user_fresh _hash_password isoformat st sa _
                (Py.strip form_password) display admin Hl Hfree) as Hrun.
  cbv zeta in Hrun. rewrite Hw in Hrun. destruct Hrun as (a & Hrun & _).
  rewrite Hrun in Hc. injection Hc as <-.
  destruct (new_account_lookup _hash_password isoformat
              (Py.strip form_password) display admin (time sa))
    as (Hh1 & Hadm & Htr).
  unfold Auth.login. rewrite Hp, Hu. cbn [negb]. unfold bind.
  match goal with
  | |- context [authenticate_user _ _ _ _ ?x] =>
      pose proof (authenticate_accepts _hash_password isoformat x x
                    (Py.strip form_username) (Py.strip form_password)
                    (_hash_password (Py.strip form_password))
                    (new_account _hash_password isoformat
                       (Py.strip form_password) display admin (time sa)))
        as Hacc;
      destruct (authenticate_user _hash_password isoformat
                  (Py.strip form_username) (Py.strip form_password) x)
        as [r x'] eqn:Ha
  end.
  simpl in Hacc. rewrite Hacc; clear Hacc.
  - rewrite insert_id by exact Hh1. rewrite Htr.
    eexists. split; [reflexivity|]. cbn. rewrite Hadm. cbn.
    split; [reflexivity|]. split; [reflexivity|]. reflexivity.
  - apply load_settled. eexists. split; reflexivity.
  - apply lookup_insert_eq.
  - exact Hname.
  - exact Hh1.
  - exact Hh.
  - now right.
Qed.

(** X12.  [register] creates nothing for a session that is not an
    administrator's: it answers that an administrator is required and the
    registry is untouched.  A name it registers is the stripped name of
    the form, has at least three characters, all of them alphanumeric or
    [-] or [_] and at least one of them alphanumeric, and comes with a
    password of at least four characters that equals its confirmation. *)
Theorem register_policy
    (st : state) (s : Auth.session)
    (form_username form_password form_confirm form_display_name : string)
    (form_is_admin : option string) :
  let admin_session :=
    Auth.authenticated s
    && match Auth.is_admin s with Some v => truthy v | None => false end in
  (admin_session = false ->
     register s form_username form_password form_confirm form_display_name
       form_is_admin st = (Ok Auth.AdminRequired, st))
  /\ (forall name st1,
        register s form_username form_password form_confirm form_display_name
          form_is_admin st = (Ok (Auth.Registered name), st1) ->
        admin_session = true
        /\ name = Py.strip form_username
        /\ (3 <= String.length name)%nat
        /\ (forall c, In c (list_ascii_of_string name) ->
              Py.isalnum c = true \/ c = "-"%char \/ c = "_"%char)
        /\ (exists c, In c (list_ascii_of_string name) /\ Py.isalnum c = true)
        /\ (4 <= String.length (Py.strip form_password))%nat
        /\ Py.strip form_password = Py.strip form_confirm).
Proof.
  cbv zeta. split.
  - intros Hs. unfold Auth.register.
    destruct (Auth.authenticated s); simpl in *; [now rewrite Hs | reflexivity].
  - intros name st1. unfold Auth.register.
    destruct (negb (Auth.authenticated s) || _) eqn:Hs; [intros [=]|].
    destruct (negb (Py.str_truthy (Py.strip form_username))); [intros [=]|].
    destruct (negb (Py.str_truthy (Py.strip form_password))); [intros [=]|].
    destruct (negb (String.eqb _ _)) eqn:Heq; [intros [=]|].
    destruct (String.length (Py.strip form_username) <? 3)%nat eqn:H3;
      [intros [=]|].
    destruct (String.length (Py.strip form_password) <? 4)%nat eqn:H4;
      [intros [=]|].
    destruct (negb (Auth.isalnum _)) eqn:Hc; [intros [=]|].
    unfold bind.
    match goal with
    | |- context [create_user _ _ _ _ ?dn ?ad st] =>
        destruct (create_user _hash_password isoformat
                    (Py.strip form_username) (Py.strip form_password)
                    dn ad st) as [[[|]|] st']
    end; [|intros [=]|intros [=]].
    intros [= <- <-].
    apply orb_false_iff in Hs as [Ha Hadm].
    apply negb_false_iff in Ha, Hadm, Heq, Hc.
    apply Nat.ltb_ge in H3, H4. apply String.eqb_eq in Heq.
    apply username_charset in Hc as [Hall Hsome].
    rewrite Ha, Hadm. repeat split; auto.
Qed.

End AuthFacts.

Lemma login_with_unreadable_users_file_witness :
  (Auth.login Scenario.hash Scenario.iso "admin" "s3cret" None Auth.anonymous
     Scenario.corrupt_registry).1
  = Ok (Auth.LoginFailed "Invalid username or password.", Auth.anonymous)
  /\ Auth.login Scenario.hash Scenario.iso " " "s3cret" None Auth.anonymous
       Scenario.corrupt_registry
     = (Ok (Auth.LoggedIn,
            Auth.log_in "admin" (VBool true) (VStr "Administrator") None
              Auth.anonymous), Scenario.corrupt_registry).
Proof.
  destruct (login_with_unreadable_users_file Scenario.hash Scenario.iso
              Scenario.corrupt_registry (File 10 None) "s3cret" None
              Auth.anonymous) as (Hnamed & Hblank).
  - reflexivity.
  - reflexivity.
  - discriminate.
  - reflexivity.
  - split; [apply Hnamed | apply Hblank]; reflexivity.
Defined.

Lemma register_then_login_witness :
  exists s',
    (Auth.login Scenario.hash Scenario.iso " carol " "pass1234" None
       Auth.anonymous (Scenario.register_carol (Scenario.usual false)).2).1
    = Ok (Auth.LoggedIn, s')
    /\ Auth.get_current_user s' = Some "carol".
Proof.
  destruct (register_then_login Scenario.hash Scenario.iso Scenario.titled
              (Scenario.usual false)
              (Scenario.register_carol (Scenario.usual false)).2
              Scenario.admin_session "carol" " carol " "pass1234" "pass1234"
              EmptyString None None) as (_ & s' & Hl & _ & _ & Hc).
  - vm_compute. reflexivity.
  - discriminate.
  - reflexivity.
  - exists s'. split; [exact Hl | exact Hc].
Defined.

Lemma register_policy_witness :
  Auth.register Scenario.hash Scenario.iso Scenario.titled Auth.anonymous
    "mallory" "pass1234" "pass1234" EmptyString (Some "on")
    (Scenario.usual false)
  = (Ok Auth.AdminRequired, Scenario.usual false).
Proof.
  destruct (register_policy Scenario.hash Scenario.iso Scenario.titled
              (Scenario.usual false) Auth.anonymous "mallory" "pass1234"
              "pass1234" EmptyString (Some "on")) as (Hdenied & _).
  apply Hdenied. reflexivity.
Defined.

(** * Further properties of the short codes and of the links *)

Lemma lower_char_allowed (c : ascii) :
  ShortCode.allowed_char (Py.lower_char c) = ShortCode.allowed_char c.
Proof. destruct c as [[] [] [] [] [] [] [] []]; reflexivity. Qed.

Lemma lower_char_twice (c : ascii) :
  Py.lower_char (Py.lower_char c) = Py.lower_char c.
Proof. destruct c as [[] [] [] [] [] [] [] []]; reflexivity. Qed.

Lemma allowed_not_space (c : ascii) :
  ShortCode.allowed_char c = true -> Py.isspace c = false.
Proof. destruct c as [[] [] [] [] [] [] [] []]; vm_compute; congruence. Qed.

Lemma lower_length (s : string) :
  String.length (Py.lower s) = String.length s.
Proof. induction s; simpl; congruence. Qed.

Lemma lower_twice (s : string) : Py.lower (Py.lower s) = Py.lower s.
Proof. induction s; simpl; [reflexivity|]. now rewrite lower_char_twice, IHs. Qed.

Lemma lower_allowed (s : string) :
  Py.all ShortCode.allowed_char (Py.lower s)
  = Py.all ShortCode.allowed_char s.
Proof. induction s; simpl; [reflexivity|]. now rewrite lower_char_allowed, IHs. Qed.

Lemma rstrip_no_space (s : string) :
  Py.all (fun c => negb (Py.isspace c)) s = true -> Py.rstrip s = s.
Proof.
  induction s as [|c s IH]; simpl; [reflexivity|].
  intros [Hc Hs]%andb_true_iff. rewrite (IH Hs).
  apply negb_true_iff in Hc. rewrite Hc. now destruct s.
Qed.

(** X13.  For a short code of ASCII characters, validation ignores the
    case of the letters: the short code and its lower-cased form are
    accepted or refused together.  An accepted short code holds no white
    space, so the stripping that [add_link] applies to the field of the
    form leaves it as it is. *)
Theorem validate_short_code_case_and_space (s : string) :
  (ShortCode.is_ascii s = true ->
   (ShortCode.validate_short_code (Py.lower s)).1
   = (ShortCode.validate_short_code s).1)
  /\ ((ShortCode.validate_short_code s).1 = true -> Py.strip s = s).
Proof.
  split.
  - intros _. unfold ShortCode.validate_short_code.
    rewrite lower_length, lower_allowed, lower_twice.
    replace (Py.str_truthy (Py.lower s)) with (Py.str_truthy s)
      by now destruct s.
    repeat match goal with
           | |- context [if ?b then _ else _] => destruct b
           end; reflexivity.
  - unfold ShortCode.validate_short_code.
    destruct (negb (Py.str_truthy s)); [discriminate|].
    destruct (String.length s <? 1)%nat; [discriminate|].
    destruct (50 <? String.length s)%nat; [discriminate|].
    destruct (Py.all ShortCode.allowed_char s) eqn:Hall; [|discriminate].
    intros _.
    assert (Hns : Py.all (fun c => negb (Py.isspace c)) s = true).
    { apply all_spec. intros c Hc. apply negb_true_iff, allowed_not_space.
      revert c Hc. now apply all_spec. }
    unfold Py.strip.
    assert (Hl : Py.lstrip s = s).
    { destruct s as [|c s]; [reflexivity|]. simpl in *.
      apply andb_true_iff in Hns as [Hc _].
      apply negb_true_iff in Hc. now rewrite Hc. }
    rewrite Hl. now apply rstrip_no_space.
Qed.

(** X14.  [Link.to_dict] keeps the type, the path, the URL and the
    expiration date of a link and drops the metadata of the upload;
    building a [Link] from that dictionary and converting it again gives
    the same dictionary, and gives back the link itself when none of its
    fields is the empty string. *)
Theorem to_dict_round_trip (code : string) (data : link_data) (self : Links.Link) :
  (let d := Links.to_dict (Links.new_Link code data) in
   type d = type data
   /\ original_filename d = None /\ file_size d = None
   /\ mime_type d = None /\ upload_date d = None)
  /\ Links.to_dict (Links.new_Link code (Links.to_dict self))
     = Links.to_dict self
  /\ (Links.link_path self <> Some Py.empty ->
      Links.link_url self <> Some Py.empty ->
      Links.link_expiration_date self <> Some Py.empty ->
      Links.new_Link (Links.short_code self) (Links.to_dict self) = self).
Proof.
  assert (Hk : forall o, Links.kept (Links.kept o) = Links.kept o).
  { intros [[|c s]|]; reflexivity. }
  assert (Hk' : forall o, o <> Some Py.empty -> Links.kept o = o).
  { intros [[|c s]|] H; try reflexivity. now contradiction H. }
  split; [|split].
  - cbv zeta. simpl. auto.
  - unfold Links.to_dict, Links.new_Link. simpl. now rewrite !Hk.
  - intros Hp Hu He. destruct self as [c t p u e]. simpl in *.
    unfold Links.new_Link, Links.to_dict. simpl.
    now rewrite (Hk' p Hp), (Hk' u Hu), (Hk' e He).
Qed.

Section SweepMore.
Import Config Links.

Variable fromisoformat : string -> option datetime.

Lemma is_expired_past_expiry (now : Z) (code : string) (data : link_data) :
  is_expired fromisoformat now (new_Link code data)
  = past_expiry fromisoformat now data.
Proof.
  unfold is_expired, past_expiry, new_Link. simpl.
  destruct (expiration_date data) as [[|c e]|]; reflexivity.
Qed.

(** [handle_link] does not answer that a link has expired when its test
    does not find the link past its expiry, and raises when the test
    raises. *)
Lemma handle_link_not_expired
    (users : list string) (viewer : option string) (now : Z)
    (code owner : string) (data : link_data) (w : world) :
  find_link w users code = Some (data, owner) ->
  past_expiry fromisoformat now data <> Ok true ->
  (handle_link fromisoformat users viewer now code w).1 <> Ok LinkExpired.
Proof.
  intros Hf Hnot.
  unfold handle_link. unfold bind at 1. unfold gets at 1. rewrite Hf.
  destruct (negb (dict_truthy data)); [simpl; discriminate|].
  unfold bind at 1, lift at 1.
  destruct (past_expiry fromisoformat now data) as [[|]|];
    [congruence | | simpl; discriminate].
  assert (Hasset : forall (k : string -> M response) (m : string),
             (forall f, never LinkExpired (k f)) ->
             never LinkExpired
               (match path data with
                | Some filename =>
                    if Py.str_truthy filename && Py.str_truthy owner then
                      let* asset_folder := get_user_assets_dir (Some owner) in
                      let* present := asset_exists asset_folder filename in
                      if present then k filename else ret (FlashIndex m)
                    else ret (FlashIndex m)
                | None => ret (FlashIndex m)
                end)).
  { intros k m Hk. destruct (path data) as [filename|];
      [|now apply never_ret].
    destruct (_ && _); [|now apply never_ret].
    apply never_bind. intros a. apply never_bind. intros [|];
      [apply Hk | now apply never_ret]. }
  cbv zeta.
  repeat case_bool_decide.
  - apply Hasset. intros f. now apply never_ret.
  - destruct (Py.opt_truthy (url data)); simpl; discriminate.
  - apply Hasset. intros f. apply never_bind. intros _.
    now apply never_ret.
  - apply Hasset. intros f. now apply never_ret.
  - simpl. discriminate.
Qed.

(** X15.  The three tests of expiry agree, also where they raise.  The
    first loop of the sweep raises exactly when [Link.is_expired] raises
    for one of the links, and when it completes it has collected a short
    code exactly when [Link.is_expired] holds of its link.  [handle_link]
    answers that the link it finds has expired exactly when
    [Link.is_expired] holds of it, and raises, with the state as it is,
    when [Link.is_expired] raises. *)
Theorem expiry_tests_agree (now : Z) :
  (forall l : links,
      (expired_links fromisoformat now l = Raise
       <-> exists k data,
             l !! k = Some data
             /\ is_expired fromisoformat now (new_Link k data) = Raise)
      /\ (forall codes k,
            expired_links fromisoformat now l = Ok codes ->
            (k ∈ codes
             <-> exists data,
                   l !! k = Some data
                   /\ is_expired fromisoformat now (new_Link k data)
                      = Ok true)))
  /\ (forall (users : list string) (viewer : option string)
            (code owner : string) (data : link_data) (w : world),
        find_link w users code = Some (data, owner) ->
        dict_truthy data = true ->
        ((handle_link fromisoformat users viewer now code w).1 = Ok LinkExpired
         <-> is_expired fromisoformat now (new_Link code data) = Ok true)
        /\ (is_expired fromisoformat now (new_Link code data) = Raise ->
            handle_link fromisoformat users viewer now code w = (Raise, w))).
Proof.
  split.
  - intros l. split.
    + rewrite expired_links_Raise.
      split; intros (k & data & Hl & He); exists k, data;
        (split; [exact Hl|]); now rewrite is_expired_past_expiry in *.
    + intros codes k Hc. rewrite (elem_of_expired_links _ now l codes k Hc).
      split; intros (data & Hl & He); exists data;
        (split; [exact Hl|]); now rewrite is_expired_past_expiry in *.
  - intros users viewer code owner data w Hf Ht.
    rewrite is_expired_past_expiry. split; [split|].
    + intros He.
      destruct (past_expiry fromisoformat now data) as [[|]|] eqn:Hp;
        [reflexivity | |];
        apply (handle_link_not_expired users viewer now code owner data w Hf)
          in He; solve [contradiction | rewrite Hp; discriminate].
    + intros Hp. unfold handle_link, bind, gets, lift. rewrite Hf, Ht, Hp.
      reflexivity.
    + intros Hp. unfold handle_link, bind, gets, lift. rewrite Hf, Ht, Hp.
      reflexivity.
Qed.

Lemma expired_links_nil (now : Z) (l : links) :
  (forall k data, l !! k = Some data ->
     past_expiry fromisoformat now data = Ok false) ->
  expired_links fromisoformat now l = Ok [].
Proof.
  intros Hnone.
  destruct (expired_links fromisoformat now l) as [[|k ks]|] eqn:He;
    [reflexivity | |].
  - assert (Hin : k ∈ k :: ks) by now left.
    apply (elem_of_expired_links _ now l _ k He) in Hin as (data & Hl & Hp).
    rewrite (Hnone _ _ Hl) in Hp. discriminate.
  - apply expired_links_Raise in He as (k & data & Hl & Hp).
    rewrite (Hnone _ _ Hl) in Hp. discriminate.
Qed.

Lemma check_expired_links_nothing (now : Z) (w : world) :
  (forall k data, list_records w !! k = Some data ->
     past_expiry fromisoformat now data = Ok false) ->
  check_expired_links fromisoformat now w = (Ok tt, w).
Proof.
  intros Hnone. unfold check_expired_links, bind, gets, lift.
  destruct (negb (Py.opt_truthy (current_user (loader w))));
    [reflexivity|].
  now rewrite (expired_links_nil now (links_config (loader w)) Hnone).
Qed.

(** X16.  A sweep whose test finds no link past its expiry, and raises for
    none, writes nothing and prints nothing: the state is the same.  A
    sweep that raises leaves the state as it is too.  So a second sweep at
    the time of a first one ends as the first one did and changes
    nothing. *)
Theorem sweep_without_expired_is_silent (now : Z) (w : world) :
  ((forall k data, list_records w !! k = Some data ->
      past_expiry fromisoformat now data = Ok false) ->
   check_expired_links fromisoformat now w = (Ok tt, w))
  /\ (forall w1,
        check_expired_links fromisoformat now w = (Raise, w1) -> w1 = w)
  /\ (forall r w1,
        check_expired_links fromisoformat now w = (r, w1) ->
        check_expired_links fromisoformat now w1 = (r, w1)).
Proof.
  split; [apply check_expired_links_nothing|].
  destruct (Py.opt_truthy (current_user (loader w))) eqn:Ht.
  2:{ rewrite (check_expired_links_no_user _ now w Ht).
      split; [intros w1 [=] | intros r w1 [= <- <-]].
      now apply check_expired_links_no_user. }
  destruct (expired_links fromisoformat now (links_config (loader w)))
    as [codes|] eqn:He.
  2:{ rewrite (check_expired_links_Raise _ now w Ht He).
      split; [now intros w1 [= <-] | intros r w1 [= <- <-]].
      now apply check_expired_links_Raise. }
  destruct (check_expired_links_listing _ now w codes Ht He)
    as (w1' & H1' & Hu & Hl).
  rewrite H1'. split; [intros w1 [=] | intros r w1 [= <- <-]].
  apply check_expired_links_nothing. intros k data Hk.
  rewrite Hl in Hk. destruct (list_records w !! k) as [d|] eqn:Hd;
    [|discriminate].
  destruct (past_expiry fromisoformat now d) as [[|]|] eqn:Hp;
    [discriminate | now injection Hk as <- |].
  assert (expired_links fromisoformat now (links_config (loader w)) = Raise)
    by (apply expired_links_Raise; eauto).
  congruence.
Qed.

End SweepMore.

Section SweepDisk.
Import Config Links.

Variable fromisoformat : string -> option datetime.

(** The user whose assets and links file the sweep works on. *)
Local Abbreviation sweeper w :=
  (resolve_user (loader w) (current_user (loader w))).




(** What [save_links_config] does to the links files. *)
Lemma save_links_config_run (username : option string) (w : world) :
  let p := resolve_user (loader w) username in
  if read_only (fs w) then
    save_links_config username w
    = (Ok false,
       World (loader w)
             (put_stdout (stdout (fs w) ++ [ErrorSavingLinks])%list (fs w)))
  else
    save_links_config username w
    = (Ok true,
       World (set_last_links_config_mod_time (Some (clock (fs w))) (loader w))
             (put_links_files
                (<[p := File (clock (fs w)) (Some (links_config (loader w)))]>
                   (links_files (fs w))) (fs w))).
Proof.
  cbv zeta. unfold save_links_config, write.
  cbv beta iota delta [bind ret raise gets modify when on_loader on_disk
                         print get_user_links_file try].
  destruct (read_only (fs w)); reflexivity.
Qed.




End SweepDisk.



(** * Saving and loading the links *)

Section LinksFile.
Import Config Links.

(** A load of the links by the loader [c] from a disk where the links file
    of its user holds [l], written at the time [t]. *)
Lemma load_links_from_file (c : ConfigLoader) (d : disk) (t : Z) (l : links) :
  links_files d !! resolve_user c None = Some (File t (Some l)) ->
  exists c' d',
    _load_links_config (World c d) = (Ok tt, World c' d')
    /\ current_user c' = current_user c
    /\ links_files d' = links_files d
    /\ asset_files d' = asset_files d
    /\ links_config c'
       = if bool_decide (_current_links_path c = Some (resolve_user c None))
            && bool_decide (_last_links_config_mod_time c = Some t)
         then links_config c else l.
Proof.
  intros Hfile. unfold _load_links_config.
  cbv beta iota delta [bind ret raise gets modify when on_loader on_disk
                         print get_user_links_file].
  cbn [loader fs].
  destruct (bool_decide (_current_links_path c <> Some (resolve_user c None)))
    eqn:Hknown.
  - apply bool_decide_eq_true in Hknown.
    rewrite (bool_decide_eq_false_2 (_current_links_path c = _)) by exact Hknown.
    cbn [loader fs andb].
    change (resolve_user
              (set_last_links_config_mod_time None
                 (set_current_links_path (Some (resolve_user c None)) c)) None)
      with (resolve_user c None).
    rewrite Hfile. cbn. eexists _, _. split; [reflexivity|]. cbn. auto.
  - apply bool_decide_eq_false in Hknown.
    rewrite (bool_decide_eq_true_2 (_current_links_path c = _))
      by (destruct (decide (_current_links_path c = Some (resolve_user c None)));
          [assumption | contradiction]).
    cbn [loader fs andb]. rewrite Hfile. cbn [mtime body].
    cbv beta iota delta [loader fs].
    destruct (decide (_last_links_config_mod_time c = Some t)) as [E|N].
    + rewrite (bool_decide_eq_false_2 (Some t <> _)) by (intros H; now apply H).
      rewrite bool_decide_eq_true_2 by exact E.
      eexists _, _. split; [reflexivity|]. auto.
    + rewrite (bool_decide_eq_true_2 (Some t <> _)) by congruence.
      rewrite bool_decide_eq_false_2 by exact N.
      eexists _, _. split; [reflexivity|]. cbn. auto.
Qed.

(** X19.  On a disk that can be written, saving the links and loading them
    again leaves the links in memory as they were, and the links file of
    the current user holds them. *)
Theorem save_then_load_links (w : world) :
  read_only (fs w) = false ->
  exists w',
    (save_links_config None ;; _load_links_config) w = (Ok tt, w')
    /\ links_config (loader w') = links_config (loader w)
    /\ links_files (fs w') !! resolve_user (loader w) None
       = Some (File (clock (fs w)) (Some (links_config (loader w)))).
Proof.
  intros Hro. pose proof (save_links_config_run None w) as Hs.
  cbv zeta in Hs. rewrite Hro in Hs. unfold bind. rewrite Hs.
  set (c1 := set_last_links_config_mod_time (Some (clock (fs w))) (loader w)).
  destruct (load_links_from_file c1
              (put_links_files
                 (<[resolve_user (loader w) None :=
                      File (clock (fs w)) (Some (links_config (loader w)))]>
                    (links_files (fs w))) (fs w))
              (clock (fs w)) (links_config (loader w)))
    as (c' & d' & Hload & _ & Hfiles & _ & Hlinks).
  { change (resolve_user c1 None) with (resolve_user (loader w) None).
    cbn [links_files put_links_files]. apply lookup_insert_eq. }
  rewrite Hload. eexists. split; [reflexivity|]. cbn [loader fs].
  split.
  - rewrite Hlinks. now destruct (_ && _).
  - rewrite Hfiles. cbn [links_files put_links_files]. apply lookup_insert_eq.
Qed.

(** X20.  The links one loader has saved are the links another loader of
    the same user reads, unless that loader has recorded the path and the
    modification time of the file already: then it keeps its own links. *)
Theorem saved_links_are_read_back (w : world) (c : ConfigLoader) :
  read_only (fs w) = false ->
  current_user c = current_user (loader w) ->
  exists w',
    _load_links_config (World c (fs (snd (save_links_config None w))))
    = (Ok tt, w')
    /\ links_config (loader w')
       = if bool_decide (_current_links_path c = Some (resolve_user c None))
            && bool_decide
                 (_last_links_config_mod_time c = Some (clock (fs w)))
         then links_config c else links_config (loader w).
Proof.
  intros Hro Hu. pose proof (save_links_config_run None w) as Hs.
  cbv zeta in Hs. rewrite Hro in Hs. rewrite Hs. cbn [snd fs].
  assert (Hres : resolve_user c None = resolve_user (loader w) None).
  { unfold resolve_user. now rewrite Hu. }
  destruct (load_links_from_file c
              (put_links_files
                 (<[resolve_user (loader w) None :=
                      File (clock (fs w)) (Some (links_config (loader w)))]>
                    (links_files (fs w))) (fs w))
              (clock (fs w)) (links_config (loader w)))
    as (c' & d' & Hload & _ & _ & _ & Hlinks).
  { rewrite Hres. cbn [links_files put_links_files]. apply lookup_insert_eq. }
  rewrite Hload. eexists. split; [reflexivity|]. exact Hlinks.
Qed.

End LinksFile.

(** * What the loads leave alone *)

Section LoadFrame.
Import Config Links.

Lemma load_frame_refl (w : world) : load_frame w w.
Proof. unfold load_frame. auto. Qed.

Lemma load_frame_trans (w1 w2 w3 : world) :
  load_frame w1 w2 -> load_frame w2 w3 -> load_frame w1 w3.
Proof.
  intros (A1 & A2 & A3 & A4 & A5) (B1 & B2 & B3 & B4 & B5).
  unfold load_frame. repeat split; try congruence.
  intros p Hp. rewrite B5, A5; [reflexivity | exact Hp |].
  unfold resolve_user. now rewrite A1.
Qed.

Lemma bind_frame {A B} (c : M A) (k : A -> M B) :
  (forall w, load_frame w (snd (c w))) ->
  (forall a w, load_frame w (snd (k a w))) ->
  forall w, load_frame w (snd (bind c k w)).
Proof.
  intros Hc Hk w. unfold bind. specialize (Hc w).
  destruct (c w) as [[a|] w1]; cbn [snd] in *; [|exact Hc].
  eapply load_frame_trans; [exact Hc | apply Hk].
Qed.

Ltac frame_cases :=
  unfold load_frame, write;
  cbv beta iota delta [bind ret raise gets modify when on_loader on_disk
                         print get_user_links_file get_user_config_file];
  intros [c d]; cbn [loader fs];
  repeat case_match; simplify_eq; cbn; repeat split; auto.

Lemma _load_app_config_frame (w : world) :
  load_frame w (snd (_load_app_config w)).
Proof. revert w. unfold _load_app_config. frame_cases. Qed.

Lemma _load_themes_config_frame (w : world) :
  load_frame w (snd (_load_themes_config w)).
Proof. revert w. unfold _load_themes_config. frame_cases. Qed.

Lemma _load_user_config_frame (w : world) :
  load_frame w (snd (_load_user_config w)).
Proof. revert w. unfold _load_user_config. frame_cases. Qed.

Lemma _load_links_config_frame (w : world) :
  load_frame w (snd (_load_links_config w)).
Proof.
  revert w. unfold _load_links_config. frame_cases.
  all: intros p Hp; apply lookup_insert_ne; congruence.
Qed.

Lemma load_all_configs_frame (w : world) :
  load_frame w (snd (load_all_configs w)).
Proof.
  revert w. unfold load_all_configs.
  apply bind_frame; [exact _load_app_config_frame | intros _].
  apply bind_frame; [exact _load_themes_config_frame | intros _].
  apply bind_frame; [exact _load_user_config_frame | intros _].
  exact _load_links_config_frame.
Qed.

Lemma harmless_ret {A} (a : A) : harmless (ret a).
Proof. intros w. split; auto. Qed.

Lemma harmless_raise {A} : harmless (raise : M A).
Proof. intros w. split; auto. Qed.

Lemma harmless_lift {A} (o : outcome A) : harmless (lift o).
Proof. intros w. split; auto. Qed.

Lemma harmless_gets {A} (f : world -> A) : harmless (gets f).
Proof. intros w. split; auto. Qed.

Lemma harmless_on_loader (f : ConfigLoader -> ConfigLoader) :
  harmless (on_loader f).
Proof. intros w. split; auto. Qed.

Lemma harmless_print (e : event) : harmless (print e).
Proof. intros w. split; auto. Qed.

Lemma harmless_bind {A B} (c : M A) (k : A -> M B) :
  harmless c -> (forall a, harmless (k a)) -> harmless (bind c k).
Proof.
  intros Hc Hk w. unfold bind. specialize (Hc w).
  destruct (c w) as [[a|] w1]; cbn [snd] in *; [|exact Hc].
  destruct Hc as [A1 A2]. destruct (Hk a w1) as [B1 B2].
  split; [congruence | auto].
Qed.

Lemma harmless_when (b : bool) (c : M unit) :
  harmless c -> harmless (when b c).
Proof. intros Hc. destruct b; [exact Hc | apply harmless_ret]. Qed.

Ltac harmless :=
  repeat first
    [ apply harmless_ret | apply harmless_raise | apply harmless_gets
    | apply harmless_on_loader | apply harmless_print
    | apply harmless_when
    | apply harmless_bind; [|intros ?]
    | progress case_match ].

Lemma harmless_set_user_context (u : option string) :
  harmless (set_user_context u).
Proof.
  unfold set_user_context. apply harmless_bind; [harmless|].
  intros cur. harmless.
Qed.

(** Writing a configuration file does not concern the links and the
    assets. *)
Lemma harmless_on_disk (f : disk -> disk) :
  (forall d, asset_files (f d) = asset_files d
             /\ links_files (f d) = links_files d) ->
  harmless (on_disk f).
Proof.
  intros Hf w. unfold keeps_files, on_disk, modify. cbn [snd fs].
  destruct (Hf (fs w)) as [-> ->]. split; auto.
Qed.

Ltac harmless_config :=
  harmless; apply harmless_on_disk; intros d; split; reflexivity.

Lemma harmless_load_app_config : harmless _load_app_config.
Proof. unfold _load_app_config, write. harmless_config. Qed.

Lemma harmless_load_themes_config : harmless _load_themes_config.
Proof. unfold _load_themes_config, write. harmless_config. Qed.

Lemma harmless_load_user_config : harmless _load_user_config.
Proof.
  unfold _load_user_config, get_user_config_file, write. harmless_config.
Qed.

(** The links file is written only when there is none. *)
Lemma harmless_load_links_config : harmless _load_links_config.
Proof.
  unfold _load_links_config, get_user_links_file.
  apply harmless_bind; [harmless|]. intros links_config_path.
  apply harmless_bind; [harmless|]. intros known.
  apply harmless_bind; [harmless|]. intros _.
  intros w. unfold bind at 1, gets at 1.
  destruct (links_files (fs w) !! links_config_path) as [f|] eqn:Hfile.
  - revert w Hfile.
    assert (H : harmless
                  (let* last := gets (fun w => _last_links_config_mod_time
                                                 (loader w)) in
                   if bool_decide (Some (mtime f) <> last) then
                     match body f with
                     | Some l =>
                         on_loader (set_links_config l) ;;
                         on_loader (set_last_links_config_mod_time
                                      (Some (mtime f))) ;;
                         let* cur := gets (fun w => current_user (loader w)) in
                         print (LinksReloaded cur)
                     | None => print ErrorLoadingLinks
                     end
                   else ret tt)) by harmless.
    intros w _. apply H.
  - unfold write, keeps_files.
    cbv beta iota delta [bind ret raise gets modify on_disk on_loader].
    destruct (read_only (fs w)); cbn [snd fs loader]; [split; auto|].
    split; [reflexivity|]. intros p f Hp.
    cbn [links_files put_links_files].
    rewrite lookup_insert_ne by congruence. exact Hp.
Qed.

Lemma harmless_load_all_configs : harmless load_all_configs.
Proof.
  unfold load_all_configs.
  apply harmless_bind; [exact harmless_load_app_config | intros _].
  apply harmless_bind; [exact harmless_load_themes_config | intros _].
  apply harmless_bind; [exact harmless_load_user_config | intros _].
  exact harmless_load_links_config.
Qed.

(** X21.  Loading the configuration, whether it ends normally or raises,
    leaves the user context, the assets, the write permission and the
    clock as they are, changes no links file of another user, and changes
    no links file that exists: it can only create the links file of the
    current user. *)
Theorem load_all_configs_keeps_the_files (w : world) :
  load_frame w (snd (load_all_configs w))
  /\ keeps_files w (snd (load_all_configs w)).
Proof.
  split; [apply load_all_configs_frame | apply harmless_load_all_configs].
Qed.

Section Visiting.
Variable fromisoformat : string -> option datetime.

(** X27.  Visiting a link, whatever the answer, removes and changes
    nothing that is stored: the assets are as before and every links file
    that exists is as before, so a link that has expired stays in its
    file. *)
Theorem handle_link_keeps_the_files
    (users : list string) (viewer : option string) (now : Z) (code : string) :
  harmless (handle_link fromisoformat users viewer now code).
Proof.
  unfold handle_link, asset_exists, get_user_assets_dir.
  apply harmless_bind; [harmless|]. intros found.
  repeat first
    [ apply harmless_set_user_context | apply harmless_load_all_configs
    | apply harmless_ret | apply harmless_gets | apply harmless_lift
    | apply harmless_when
    | apply harmless_bind; [|intros ?]
    | progress case_match ].
Qed.

End Visiting.

End LoadFrame.

(** * Deleting a link *)

Section DeleteFacts.
Import Config Links.

Lemma set_user_context_run (u : option string) (w : world) :
  exists c,
    set_user_context u w = (Ok tt, World c (fs w))
    /\ current_user c = u.
Proof.
  unfold set_user_context.
  cbv beta iota delta [bind ret gets modify on_loader].
  destruct w as [c d]. cbn [loader fs].
  case_bool_decide as Hc; eexists; (split; [reflexivity|]); cbn; auto.
Qed.

Lemma remove_file_run (user filename : string) (w : world) :
  exists d',
    remove_file user filename w = (Ok tt, World (loader w) d')
    /\ links_files d' = links_files (fs w)
    /\ read_only d' = read_only (fs w)
    /\ clock d' = clock (fs w)
    /\ (forall a, a <> (user, filename) ->
          asset_files d' !! a = asset_files (fs w) !! a)
    /\ (asset_files (fs w) !! (user, filename) = Some false ->
        asset_files d' !! (user, filename) = None)
    /\ (asset_files (fs w) !! (user, filename) <> Some false ->
        d' = fs w).
Proof.
  unfold remove_file. cbv beta iota delta [bind ret gets modify on_disk].
  destruct (asset_files (fs w) !! (user, filename)) as [[|]|] eqn:Ha;
    try (exists (fs w); split; [now destruct w|]; repeat split; auto;
         discriminate).
  eexists. split; [reflexivity|]. cbn. repeat split; auto.
  - intros a Hne. now apply lookup_delete_ne.
  - intros _. apply lookup_delete_eq.
  - intros H. now contradiction H.
Qed.

(** What [delete_link] has done when it answers that the link is
    deleted. *)
Lemma delete_link_run
    (users : list string) (cur : option string) (admin : bool)
    (code : string) (w w' : world) :
  delete_link users cur admin code w = (Ok Deleted, w') ->
  exists data owner,
    find_link w users code = Some (data, owner)
    /\ (admin = true \/ cur = Some owner)
    /\ current_user (loader w') = Some owner
    /\ read_only (fs w) = false
    /\ links_files (fs w') !! resolve_user (loader w') None
       = Some (File (clock (fs w)) (Some (links_config (loader w'))))
    /\ links_config (loader w') !! code = None
    /\ (forall p, p <> resolve_user (loader w') None ->
          links_files (fs w') !! p = links_files (fs w) !! p)
    /\ (forall a,
          asset_files (fs w') !! a = asset_files (fs w) !! a
          \/ (has_asset data = true /\ path data = Some a.2
              /\ a.1 = resolve_user (loader w') None
              /\ asset_files (fs w) !! a = Some false
              /\ asset_files (fs w') !! a = None))
    /\ (forall filename,
          has_asset data = true -> path data = Some filename ->
          Py.str_truthy filename = true ->
          asset_files (fs w) !! (resolve_user (loader w') None, filename)
          = Some false ->
          asset_files (fs w') !! (resolve_user (loader w') None, filename)
          = None).
Proof.
  unfold delete_link. destruct (negb (Py.opt_truthy cur)); [intros [=]|].
  unfold bind at 1, gets at 1.
  destruct (find_link w users code) as [[data owner]|]; [|intros [=]].
  destruct (negb (dict_truthy data)); [intros [=]|].
  destruct (negb admin && bool_decide (Some owner <> cur)) eqn:Hperm;
    [intros [=]|].
  destruct (set_user_context_run (Some owner) w) as (c1 & Hset & Hcur1).
  unfold bind at 1. rewrite Hset.
  unfold bind at 1.
  pose proof (load_all_configs_frame (World c1 (fs w))) as Hframe.
  destruct (load_all_configs (World c1 (fs w))) as [[[]|] w2]; [|intros [=]].
  cbn [snd] in Hframe. destruct Hframe as (Hcur2 & Ha2 & Hro2 & Hck2 & Hl2).
  cbn [loader fs] in Hcur2, Ha2, Hro2, Hck2, Hl2.
  set (P := resolve_user (loader w2) None).
  assert (HP : resolve_user c1 None = P).
  { unfold P, resolve_user. now rewrite Hcur2. }
  rewrite HP in Hl2.
  assert (Hasset : exists d3,
    when (has_asset data && Py.opt_truthy (path data))
      (let* asset_folder := get_user_assets_dir (Some owner) in
       remove_file asset_folder (default Py.empty (path data))) w2
    = (Ok tt, World (loader w2) d3)
    /\ links_files d3 = links_files (fs w2)
    /\ read_only d3 = read_only (fs w2)
    /\ clock d3 = clock (fs w2)
    /\ (forall a,
          asset_files d3 !! a = asset_files (fs w2) !! a
          \/ (has_asset data = true /\ path data = Some a.2
              /\ a.1 = resolve_user (loader w2) (Some owner)
              /\ asset_files (fs w2) !! a = Some false
              /\ asset_files d3 !! a = None))
    /\ (forall filename,
          has_asset data = true -> path data = Some filename ->
          Py.str_truthy filename = true ->
          asset_files (fs w2) !! (resolve_user (loader w2) (Some owner),
                                  filename) = Some false ->
          asset_files d3 !! (resolve_user (loader w2) (Some owner), filename)
          = None)).
  { unfold when.
    destruct (has_asset data) eqn:Hasset; cbn [andb].
    - destruct (path data) as [fn|] eqn:Hpath; cbn [Py.opt_truthy].
      + destruct (Py.str_truthy fn) eqn:Hfn.
        * unfold bind, get_user_assets_dir, gets. cbn [default].
          destruct (remove_file_run (resolve_user (loader w2) (Some owner))
                      fn w2) as (d3 & Hrun & Hl & Hro & Hck & Hne & Hgone & _).
          exists d3. split; [exact Hrun|]. repeat split; auto.
          -- intros a.
             destruct (decide (a = (resolve_user (loader w2) (Some owner), fn)))
               as [->|Hne'].
             ++ destruct (decide (asset_files (fs w2)
                                  !! (resolve_user (loader w2) (Some owner), fn)
                                  = Some false)) as [E|N].
                ** right. cbn [fst snd]. repeat split; auto.
                ** left.
                   destruct (remove_file_run
                               (resolve_user (loader w2) (Some owner)) fn w2)
                     as (d3' & Hrun' & _ & _ & _ & _ & _ & Hsame).
                   rewrite Hrun in Hrun'. injection Hrun' as <-.
                   now rewrite (Hsame N).
             ++ left. now apply Hne.
          -- intros filename _ [= <-] _ Hd. now apply Hgone.
        * exists (fs w2). unfold ret. split; [now destruct w2|].
          repeat split; auto. intros filename _ [= <-]. congruence.
      + exists (fs w2). unfold ret. split; [now destruct w2|].
        repeat split; auto. intros filename _ [=].
    - exists (fs w2). unfold ret. split; [now destruct w2|].
      repeat split; auto. intros filename [=]. }
  destruct Hasset as (d3 & Hrun3 & Hl3 & Hro3 & Hck3 & Ha3 & Hgone3).
  unfold bind at 1. rewrite Hrun3.
  unfold bind at 1, gets at 1. cbn [loader fs].
  destruct (bool_decide (is_Some (links_config (loader w2) !! code)));
    [|intros [=]].
  unfold bind at 1, on_loader at 1, modify at 1. cbn [loader fs].
  pose proof (save_links_config_run None
                (World (set_links_config (delete code (links_config (loader w2)))
                          (loader w2)) d3)) as Hs.
  cbv zeta in Hs. cbn [loader fs] in Hs. unfold bind at 1.
  cbv beta. cbn [loader fs].
  destruct (read_only d3) eqn:Hro; rewrite Hs; [intros [=]|].
  intros [= <-]. cbn [loader fs].
  assert (Hown : resolve_user (loader w2) (Some owner) = P).
  { unfold P, resolve_user, Py.or_else. rewrite Hcur2, Hcur1.
    cbn [Py.opt_truthy].
    destruct (Py.str_truthy owner) eqn:Ho; now rewrite ?Ho. }
  rewrite Hown in Ha3, Hgone3.
  change (resolve_user
            (set_last_links_config_mod_time (Some (clock d3))
               (set_links_config (delete code (links_config (loader w2)))
                  (loader w2))) None) with P.
  change (resolve_user
            (set_links_config (delete code (links_config (loader w2)))
               (loader w2)) None) with P.
  exists data, owner. split; [reflexivity|]. split.
  { apply andb_false_iff in Hperm as [Hadm|Hsame].
    - left. now destruct admin.
    - right. apply bool_decide_eq_false in Hsame.
      destruct (decide (Some owner = cur)); [congruence | contradiction]. }
  split; [cbn; congruence|].
  split; [cbn; congruence|].
  cbn [links_files put_links_files links_config set_links_config
       set_last_links_config_mod_time asset_files].
  split; [rewrite lookup_insert_eq; do 2 f_equal; congruence|].
  split; [apply lookup_delete_eq|].
  split.
  { intros p Hp. rewrite lookup_insert_ne by congruence.
    rewrite Hl3. now apply Hl2. }
  split.
  - intros a. rewrite <- Ha2. exact (Ha3 a).
  - intros filename H1 H2 H3 H4. apply Hgone3; auto. now rewrite Ha2.
Qed.


Lemma find_link_None (w : world) (users : list string) (code : string) :
  (forall v, v ∈ users -> stored w code v = false) ->
  find_link w users code = None.
Proof.
  induction users as [|v r IH]; intros Hfree; [reflexivity|]. simpl.
  pose proof (Hfree v ltac:(left)) as Hv. unfold stored in Hv.
  destruct (user_links w v) as [l|].
  - destruct (l !! code) eqn:E.
    + rewrite bool_decide_eq_true_2 in Hv by eauto. discriminate.
    + apply IH. intros v' Hv'. apply Hfree. now right.
  - apply IH. intros v' Hv'. apply Hfree. now right.
Qed.

Lemma find_link_Some (w : world) (users : list string) (code : string)
    (data : link_data) (owner : string) :
  find_link w users code = Some (data, owner) ->
  owner ∈ users /\ stored w code owner = true.
Proof.
  induction users as [|v r IH]; [intros [=]|]. simpl. unfold stored.
  destruct (user_links w v) as [l|] eqn:El.
  - destruct (l !! code) eqn:E.
    + intros [= <- <-]. split; [now left|]. rewrite El.
      apply bool_decide_eq_true_2. eauto.
    + intros H. destruct (IH H). split; [now right | assumption].
  - intros H. destruct (IH H). split; [now right | assumption].
Qed.

Lemma resolve_user_named (c : ConfigLoader) (v : string) :
  Py.str_truthy v = true -> resolve_user c (Some v) = v.
Proof.
  intros Hv. unfold resolve_user, Py.or_else, Py.opt_truthy. now rewrite !Hv.
Qed.

Section Visit.
Variable fromisoformat : string -> option datetime.

(** X23.  A link that [delete_link] has deleted is not found afterwards
    by [handle_link], whoever asks, when no user has an empty name and no
    short code was held by the files of two users. *)
Theorem deleted_link_is_not_found
    (users : list string) (cur viewer : option string) (admin : bool)
    (now : Z) (code : string) (w w' : world) :
  (forall v, v ∈ users -> Py.str_truthy v = true) ->
  unique_codes users w ->
  delete_link users cur admin code w = (Ok Deleted, w') ->
  handle_link fromisoformat users viewer now code w' = (Ok LinkNotFound, w').
Proof.
  intros Hnames Huniq Hdel.
  destruct (delete_link_run users cur admin code w w' Hdel)
    as (data & owner & Hfind & _ & Hcur & _ & Hfile & Hgone & Hothers & _).
  apply find_link_Some in Hfind as [Howner Hheld].
  assert (HP : resolve_user (loader w') None = owner).
  { unfold resolve_user, Py.or_else. rewrite Hcur. cbn.
    now rewrite (Hnames owner Howner). }
  rewrite HP in Hfile, Hothers.
  unfold handle_link. unfold bind at 1, gets at 1.
  rewrite find_link_None; [reflexivity|].
  intros v Hv. unfold stored, user_links.
  rewrite (resolve_user_named _ v (Hnames v Hv)).
  destruct (decide (v = owner)) as [->|Hne].
  - rewrite Hfile. cbn [body]. rewrite Hgone.
    apply bool_decide_eq_false_2. now intros [? [=]].
  - rewrite (Hothers v Hne). apply not_true_is_false. intros Hs.
    apply Hne.
    rewrite <- (resolve_user_named (loader w) v (Hnames v Hv)).
    rewrite <- (resolve_user_named (loader w) owner (Hnames owner Howner)).
    apply (Huniq v owner code); auto.
    unfold stored, user_links.
    now rewrite (resolve_user_named _ v (Hnames v Hv)).
Qed.

End Visit.

End DeleteFacts.

(** * Creating a link and visiting it *)

Section CreateVisit.
Import Config Links.

Variable fromisoformat : string -> option datetime.

(** The expiration date [add_link] stores for the form. *)
Local Abbreviation stored_expiration f :=
  (if bool_decide (f_enable_expiration f = Some "on")
      && Py.opt_truthy (f_expiration_date f)
   then f_expiration_date f else None).

Lemma create_redirect_run
    (users : list string) (u : string) (f : form) (code : string)
    (w w2 : world) :
  Py.strip (f_link_type f) = "redirect" ->
  create users u f code w = (Ok (LinkCreated code), w2) ->
  exists target,
    f_url f = Some target
    /\ Py.str_truthy target = true
    /\ existsb (stored w code) users = false
    /\ w2 = World
              (set_last_links_config_mod_time (Some (clock (fs w)))
                 (set_links_config
                    (<[code := LinkData (Some "redirect") None (Some target)
                                 (stored_expiration f) None None None None]>
                       (links_config (loader w)))
                    (loader w)))
              (put_links_files
                 (<[resolve_user (loader w) None :=
                      File (clock (fs w))
                        (Some (<[code := LinkData (Some "redirect") None
                                           (Some target) (stored_expiration f)
                                           None None None None]>
                                 (links_config (loader w))))]>
                    (links_files (fs w)))
                 (fs w)).
Proof.
  intros Hty. unfold create. rewrite Hty.
  change (negb (Py.str_truthy "redirect")) with false. cbv iota.
  destruct (ShortCode.validate_short_code code) as [[|] message]; cbn [negb];
    [|intros [=]].
  unfold bind at 1. unfold link_exists at 1, gets at 1.
  destruct (existsb (stored w code) users) eqn:Hfree; [intros [=]|].
  assert (Hform : forall data,
             link_of_form u code f data w
             = if Py.opt_truthy (f_url f)
               then (Ok (inl (with_url (default Py.empty (f_url f)) data)), w)
               else (Ok (inr "URL is required for redirect link."), w)).
  { intros data. unfold link_of_form. rewrite Hty.
    cbv beta iota delta [bind get_user_assets_dir gets].
    change (String.eqb "redirect" "file") with false.
    change (String.eqb "redirect" "markdown") with false.
    change (String.eqb "redirect" "html") with false.
    change (String.eqb "redirect" "redirect") with true. cbv iota.
    now destruct (Py.opt_truthy (f_url f)). }
  unfold bind at 1. rewrite Hform.
  destruct (f_url f) as [target|] eqn:Hurl; cbn [Py.opt_truthy];
    [|intros [=]].
  destruct (Py.str_truthy target) eqn:Htarget; [|intros [=]].
  unfold bind at 1, gets at 1. unfold bind at 1, on_loader at 1, modify at 1.
  cbv beta. cbn [loader fs default]. unfold bind at 1.
  match goal with
  | |- context [save_links_config None ?w1] =>
      pose proof (save_links_config_run None w1) as Hs
  end.
  cbv zeta in Hs. cbn [loader fs] in Hs.
  destruct (read_only (fs w)); rewrite Hs; [intros [=]|].
  intros [= <-]. exists target. split; [reflexivity|].
  split; [exact Htarget|]. split; [reflexivity|].
  destruct (bool_decide (f_enable_expiration f = Some "on")
            && Py.opt_truthy (f_expiration_date f)); reflexivity.
Qed.

Lemma find_link_holder (w : world) (users : list string) (code : string)
    (data : link_data) :
  (exists v l, v ∈ users /\ user_links w v = Some l /\ l !! code = Some data) ->
  (forall v l d, v ∈ users -> user_links w v = Some l -> l !! code = Some d ->
                 d = data) ->
  exists owner, find_link w users code = Some (data, owner).
Proof.
  induction users as [|v r IH]; intros (v0 & l0 & Hin & Hl0 & Hc0) Hsame.
  - now apply not_elem_of_nil in Hin.
  - simpl. destruct (user_links w v) as [l|] eqn:El.
    + destruct (l !! code) as [d|] eqn:Ec.
      * rewrite (Hsame v l d); eauto. now left.
      * apply IH.
        -- apply elem_of_cons in Hin as [->|Hin]; [congruence|]. eauto.
        -- intros v' l' d' Hv'. apply Hsame. now right.
    + apply IH.
      * apply elem_of_cons in Hin as [->|Hin]; [congruence|]. eauto.
      * intros v' l' d' Hv'. apply Hsame. now right.
Qed.

Ltac answer_redirect :=
  cbv beta iota;
  match goal with
  | Htype : type ?data = Some "redirect", Hto : url ?data = Some ?target,
    Htarget : Py.str_truthy ?target = true |- _ =>
      rewrite Htype, Hto;
      rewrite (bool_decide_eq_false_2 (Some "redirect" = Some "file"))
        by discriminate;
      rewrite (bool_decide_eq_true_2 (Some "redirect" = Some "redirect"))
        by reflexivity;
      cbn [Py.opt_truthy default]; rewrite Htarget; reflexivity
  end.

(** X24.  A redirect that [add_link] has just created for the user of the
    loader is found by [handle_link], whoever asks.  The answer is the
    redirect to the URL of the form when the form asks for no expiration or
    for a date that does not parse or that has not passed, and that the
    link has expired when the date has passed.  When the date of the form
    carries an offset from UTC, [handle_link] raises. *)
Theorem created_redirect_resolves
    (users : list string) (u : string) (f : form) (code : string)
    (viewer : option string) (now : Z) (w w2 : world) :
  u ∈ users ->
  Py.str_truthy u = true ->
  current_user (loader w) = Some u ->
  Py.strip (f_link_type f) = "redirect" ->
  create users u f code w = (Ok (LinkCreated code), w2) ->
  exists target,
    f_url f = Some target
    /\ handle_link fromisoformat users viewer now code w2
       = (match stored_expiration f with
          | Some e =>
              match fromisoformat e with
              | Some (Naive t) =>
                  Ok (if t <? now then LinkExpired else Redirect target)
              | Some (Aware _) => Raise
              | None => Ok (Redirect target)
              end
          | None => Ok (Redirect target)
          end, w2).
Proof.
  intros Hin Hu Hcur Hty Hcreate.
  destruct (create_redirect_run users u f code w w2 Hty Hcreate)
    as (target & Hurl & Htarget & Hfree & ->).
  exists target. split; [exact Hurl|].
  set (data := LinkData (Some "redirect") None (Some target)
                 (stored_expiration f) None None None None).
  assert (HP : resolve_user (loader w) None = u).
  { unfold resolve_user, Py.or_else. rewrite Hcur. cbn. now rewrite Hu. }
  rewrite HP.
  set (w2 := World _ _).
  assert (Hres : forall v, resolve_user (loader w2) (Some v)
                           = resolve_user (loader w) (Some v)).
  { intros v. reflexivity. }
  assert (Hlinks : forall v,
             user_links w2 v
             = if decide (resolve_user (loader w) (Some v) = u)
               then Some (<[code := data]> (links_config (loader w)))
               else user_links w v).
  { intros v. unfold user_links. rewrite Hres. unfold w2.
    cbn [fs links_files put_links_files].
    destruct (decide (resolve_user (loader w) (Some v) = u)) as [->|Hne].
    - now rewrite lookup_insert_eq.
    - now rewrite lookup_insert_ne by congruence. }
  destruct (find_link_holder w2 users code data) as [owner Hfind].
  { exists u, (<[code := data]> (links_config (loader w))).
    split; [exact Hin|]. split; [|apply lookup_insert_eq].
    rewrite Hlinks. rewrite decide_True; [reflexivity|].
    unfold resolve_user, Py.or_else, Py.opt_truthy. now rewrite !Hu. }
  { intros v l d Hv. rewrite Hlinks.
    destruct (decide (resolve_user (loader w) (Some v) = u)) as [E|N].
    - intros [= <-]. rewrite lookup_insert_eq. congruence.
    - intros Hl Hd. exfalso.
      assert (existsb (stored w code) users = true); [|congruence].
      apply existsb_exists. exists v. split; [now apply list_elem_of_In|].
      unfold stored. rewrite Hl. apply bool_decide_eq_true_2. eauto. }
  unfold handle_link. unfold bind at 1, gets at 1. rewrite Hfind.
  change (negb (dict_truthy data)) with false. cbv iota.
  unfold bind at 1, lift at 1.
  assert (Htest : past_expiry fromisoformat now data
                  = match stored_expiration f with
                    | Some e =>
                        match fromisoformat e with
                        | Some exp_date => later now exp_date
                        | None => Ok false
                        end
                    | None => Ok false
                    end).
  { unfold past_expiry. change (expiration_date data)
      with (stored_expiration f).
    destruct (bool_decide (f_enable_expiration f = Some "on")); cbn [andb];
      [|reflexivity].
    destruct (f_expiration_date f) as [e|]; cbn [Py.opt_truthy];
      [|reflexivity].
    now destruct (Py.str_truthy e) eqn:He; rewrite ?He. }
  rewrite Htest. clear Htest.
  assert (Htype : type data = Some "redirect") by reflexivity.
  assert (Hto : url data = Some target) by reflexivity.
  clearbody data.
  destruct (stored_expiration f) as [e|]; [|answer_redirect].
  destruct (fromisoformat e) as [[t|t]|]; cbn [later];
    [destruct (t <? now); [reflexivity | answer_redirect]
    | reflexivity | answer_redirect].
Qed.

End CreateVisit.

(** * The properties above on concrete requests *)

Lemma save_then_load_links_witness :
  exists w',
    (Config.save_links_config None ;; Config._load_links_config)
      Scenario.sweeping = (Ok tt, w')
    /\ links_config (loader w') = Scenario.some_links.
Proof.
  destruct (save_then_load_links Scenario.sweeping eq_refl)
    as (w' & Hrun & Hlinks & _).
  exists w'. split; [exact Hrun | exact Hlinks].
Defined.

Lemma saved_links_are_read_back_witness :
  exists w',
    Config._load_links_config
      (World (Config.set_current_user (Some "alice") Config.init)
             (fs (snd (Config.save_links_config None Scenario.sweeping))))
    = (Ok tt, w')
    /\ links_config (loader w') = Scenario.some_links.
Proof.
  destruct (saved_links_are_read_back Scenario.sweeping
              (Config.set_current_user (Some "alice") Config.init)
              eq_refl eq_refl) as (w' & Hrun & Hlinks).
  exists w'. split; [exact Hrun | exact Hlinks].
Defined.

Lemma unique_codes_two (w : world) (a b : string) (la lb : links)
    (tenants : list string) :
  (forall v, v ∈ tenants -> v = a \/ v = b) ->
  Links.user_links w a = Some la ->
  Links.user_links w b = Some lb ->
  (forall code, is_Some (la !! code) -> is_Some (lb !! code) -> False) ->
  Links.unique_codes tenants w.
Proof.
  intros Hten Ha Hb Hdis v1 v2 code H1 H2 Hs1 Hs2.
  assert (Hla : forall v, v = a -> Links.stored w code v = true ->
                          is_Some (la !! code)).
  { intros v -> Hs. unfold Links.stored in Hs. rewrite Ha in Hs.
    now apply bool_decide_eq_true in Hs. }
  assert (Hlb : forall v, v = b -> Links.stored w code v = true ->
                          is_Some (lb !! code)).
  { intros v -> Hs. unfold Links.stored in Hs. rewrite Hb in Hs.
    now apply bool_decide_eq_true in Hs. }
  destruct (Hten v1 H1) as [E1 | E1], (Hten v2 H2) as [E2 | E2];
    try (now rewrite E1, E2); exfalso; eauto.
Qed.

Lemma alice_or_bob (tenants : list string) (v : string) :
  tenants = ["alice"; "bob"] \/ tenants = ["bob"; "alice"; "bob"] ->
  v ∈ tenants -> v = "alice" \/ v = "bob".
Proof.
  intros [-> | ->] Hv; repeat (apply elem_of_cons in Hv as [->|Hv]; auto);
    now apply not_elem_of_nil in Hv.
Qed.


Lemma deleted_link_is_not_found_witness :
  let w' := Scenario.after Scenario.alice_deletes_f1 Scenario.shelf in
  Links.handle_link Scenario.parse ["alice"; "bob"] None Scenario.noon
    "f1" w' = (Ok Links.LinkNotFound, w').
Proof.
  intros w'.
  apply (deleted_link_is_not_found Scenario.parse ["alice"; "bob"]
           (Some "alice") None false Scenario.noon "f1" Scenario.shelf w').
  - intros v Hv.
    destruct (alice_or_bob _ v (or_introl eq_refl) Hv) as [-> | ->];
      reflexivity.
  - apply (unique_codes_two _ "alice" "bob" Scenario.shelf_links
             Scenario.bob_links).
    + intros v. apply alice_or_bob. now left.
    + vm_compute. reflexivity.
    + vm_compute. reflexivity.
    + intros code [d Hd] [d' Hd']. unfold Scenario.bob_links in Hd'.
      apply lookup_singleton_Some in Hd' as [<- _].
      vm_compute in Hd. discriminate.
  - vm_compute. reflexivity.
Defined.

Lemma created_redirect_resolves_witness :
  let w2 := Scenario.after Scenario.bob_creates_y Scenario.bob_visiting in
  let w3 := Scenario.after Scenario.bob_creates_z Scenario.bob_visiting in
  Links.handle_link Scenario.parse ["alice"; "bob"] None Scenario.noon
    "y" w2 = (Ok (Links.Redirect "https://example.com"), w2)
  /\ Links.handle_link Scenario.parse ["alice"; "bob"] None Scenario.noon
       "z" w3 = (Raise, w3).
Proof.
  intros w2 w3. split.
  - destruct (created_redirect_resolves Scenario.parse ["alice"; "bob"] "bob"
                (Scenario.redirect_form "y") "y" None Scenario.noon
                Scenario.bob_visiting w2) as (target & Hurl & Hvisit).
    + apply elem_of_cons. right. apply elem_of_cons. now left.
    + reflexivity.
    + vm_compute. reflexivity.
    + vm_compute. reflexivity.
    + vm_compute. reflexivity.
    + injection Hurl as <-. exact Hvisit.
  - destruct (created_redirect_resolves Scenario.parse ["alice"; "bob"] "bob"
                (Scenario.expiring_form "z" "2020-01-01T00:00+00:00") "z"
                None Scenario.noon Scenario.bob_visiting w3)
      as (target & Hurl & Hvisit).
    + apply elem_of_cons. right. apply elem_of_cons. now left.
    + reflexivity.
    + vm_compute. reflexivity.
    + vm_compute. reflexivity.
    + vm_compute. reflexivity.
    + exact Hvisit.
Defined.


Lemma create_keeps_codes_unique_witness :
  Links.unique_codes ["bob"; "alice"; "bob"]
    (Scenario.after Scenario.bob_creates_y Scenario.bob_visiting).
Proof.
  apply (create_keeps_codes_unique ["alice"; "bob"] Scenario.bob_visiting
           (Scenario.after Scenario.bob_creates_y Scenario.bob_visiting)
           "bob" (Scenario.redirect_form "y") "y"
           (File 3 (Some Scenario.bob_links))).
  - vm_compute. reflexivity.
  - reflexivity.
  - vm_compute. reflexivity.
  - vm_compute. reflexivity.
  - vm_compute. reflexivity.
  - apply (unique_codes_two _ "alice" "bob" Scenario.alice_links
             Scenario.bob_links).
    + intros v. apply alice_or_bob. now right.
    + vm_compute. reflexivity.
    + vm_compute. reflexivity.
    + intros code [d Hd] [d' Hd']. unfold Scenario.bob_links in Hd'.
      apply lookup_singleton_Some in Hd' as [<- _].
      vm_compute in Hd. discriminate.
Defined.

Lemma validate_short_code_case_and_space_witness :
  (ShortCode.validate_short_code (Py.lower "Docs-2024")).1
  = (ShortCode.validate_short_code "Docs-2024").1
  /\ Py.strip "Docs-2024" = "Docs-2024".
Proof.
  destruct (validate_short_code_case_and_space "Docs-2024") as [Hcase Hstrip].
  split; [apply Hcase; reflexivity|]. apply Hstrip. vm_compute. reflexivity.
Defined.

Lemma to_dict_round_trip_witness :
  let self := Links.MkLink "r" (Some "redirect") None
                (Some "https://example.org") None in
  Links.new_Link "r" (Links.to_dict self) = self.
Proof.
  intros self.
  destruct (to_dict_round_trip "r" (Scenario.redirect "https://example.org" None)
              self) as (_ & _ & Hback).
  apply Hback; discriminate.
Defined.

Lemma expiry_tests_agree_witness :
  Links.expired_links Scenario.parse Scenario.noon Scenario.mixed_links = Raise
  /\ (exists codes,
        Links.expired_links Scenario.parse Scenario.noon Scenario.some_links
        = Ok codes /\ "r1" ∈ codes)
  /\ (Links.handle_link Scenario.parse ["alice"] None Scenario.noon "x"
        Scenario.fresh).1 <> Ok Links.LinkExpired.
Proof.
  destruct (expiry_tests_agree Scenario.parse Scenario.noon)
    as [Hsweep Hvisit].
  split; [|split].
  - destruct (Hsweep Scenario.mixed_links) as [Hraise _]. apply Hraise.
    exists "tz", (Scenario.redirect "https://example.org/5"
                    (Some "2020-01-01T00:00+00:00")).
    split; vm_compute; reflexivity.
  - destruct (Links.expired_links Scenario.parse Scenario.noon
                Scenario.some_links) as [codes|] eqn:He;
      [|vm_compute in He; discriminate].
    exists codes. split; [reflexivity|].
    destruct (Hsweep Scenario.some_links) as [_ Helem].
    apply (Helem codes "r1" He).
    exists (Scenario.redirect "https://example.org/1" (Some "2025-06-01T11:00")).
    split; vm_compute; reflexivity.
  - intros Hexpired.
    destruct (Hvisit ["alice"] None "x" "alice"
                (Scenario.redirect "https://example.org" None) Scenario.fresh)
      as [Hiff _]; [vm_compute; reflexivity | reflexivity |].
    apply Hiff in Hexpired. vm_compute in Hexpired. discriminate.
Defined.

Lemma sweep_without_expired_is_silent_witness :
  Links.check_expired_links Scenario.parse 0 Scenario.sweeping
  = (Ok tt, Scenario.sweeping).
Proof.
  destruct (sweep_without_expired_is_silent Scenario.parse 0
              Scenario.sweeping) as [Hsilent _].
  apply Hsilent. intros k data Hk.
  change (Scenario.some_links !! k = Some data) in Hk.
  unfold Scenario.some_links in Hk.
  repeat (apply lookup_insert_Some in Hk as [[_ <-]|[_ Hk]];
          [vm_compute; reflexivity|]).
  apply lookup_singleton_Some in Hk as [_ <-]. vm_compute. reflexivity.
Defined.
